(** * HelpDesk Mini: the SLA / escalation engine and the workflow rule engine

    A shallow embedding of the ticket model (server/models/Ticket.js), the
    ticket routes (POST and PATCH /api/tickets), the notification service,
    the SLA service (checkSLAStatus, checkEscalations, ...) and the workflow
    service (executeRules, buildCondition, buildAction, the default rules).

    Dates are milliseconds since the epoch (what [getTime()] returns), ids are
    the text of an ObjectId, and the enumerated text fields (status, priority,
    notification type, ...) stay text, as they are in the source: the workflow
    engine assigns them unchecked values and Mongoose refuses those at save. *)

From Stdlib Require Import ZArith List String Ascii Bool Lia.
Import ListNotations.

Open Scope string_scope.
Open Scope list_scope.
Open Scope Z_scope.

(** ** Data model *)

Definition ObjectId := string.
Definition Date := Z.

(** [60 * 60 * 1000], the milliseconds of one hour. *)
Definition hour : Z := 60 * 60 * 1000.
(** [1000 * 60 * 60 * 24], the milliseconds of one day. *)
Definition day : Z := 1000 * 60 * 60 * 24.

(** The time values of a valid [Date] lie within 8.64e15 milliseconds of the
    epoch; [new Date(t)] for a number outside is the invalid date, [None]. *)
Definition maxTime : Z := 8640000000000000.

Definition validTime (t : Z) : bool := (- maxTime <=? t) && (t <=? maxTime).

Definition newDate (t : Z) : option Date := if validTime t then Some t else None.

Record Sla := mkSla {
  responseTime : Z;                 (* in hours, schema default 24 *)
  resolutionTime : Z;               (* in hours, schema default 72 *)
  firstResponseAt : option Date;
  resolvedAt : option Date;
  dueDate : Date
}.

Record InternalNote := mkNote {
  note : string;
  addedBy : option ObjectId;        (* null for a system escalation *)
  addedAt : Date
}.

Record Ticket := mkTicket {
  _id : ObjectId;
  title : string;
  description : string;
  status : string;
  priority : string;
  category : string;
  createdBy : ObjectId;
  assignedTo : option ObjectId;
  assignedAt : option Date;
  sla : Sla;
  version : Z;
  tags : list string;
  internalNotes : list InternalNote;
  createdAt : Date;
  updatedAt : Date
}.

Record User := mkUser {
  u_id : ObjectId;
  role : string;
  isActive : bool;
  specializations : list string
}.

Record Notification := mkNotification {
  n_user : ObjectId;
  n_type : string;
  n_title : string;
  n_message : string;
  n_ticket : option ObjectId;
  n_priority : string;
  n_createdAt : Date
}.

(** ** Field updates (the assignments [ticket.f = v] of the source) *)

Definition with_status (v : string) (t : Ticket) : Ticket :=
  mkTicket (_id t) (title t) (description t) v (priority t) (category t)
    (createdBy t) (assignedTo t) (assignedAt t) (sla t) (version t) (tags t)
    (internalNotes t) (createdAt t) (updatedAt t).

Definition with_priority (v : string) (t : Ticket) : Ticket :=
  mkTicket (_id t) (title t) (description t) (status t) v (category t)
    (createdBy t) (assignedTo t) (assignedAt t) (sla t) (version t) (tags t)
    (internalNotes t) (createdAt t) (updatedAt t).

Definition with_title (v : string) (t : Ticket) : Ticket :=
  mkTicket (_id t) v (description t) (status t) (priority t) (category t)
    (createdBy t) (assignedTo t) (assignedAt t) (sla t) (version t) (tags t)
    (internalNotes t) (createdAt t) (updatedAt t).

Definition with_description (v : string) (t : Ticket) : Ticket :=
  mkTicket (_id t) (title t) v (status t) (priority t) (category t)
    (createdBy t) (assignedTo t) (assignedAt t) (sla t) (version t) (tags t)
    (internalNotes t) (createdAt t) (updatedAt t).

Definition with_assignedTo (v : option ObjectId) (t : Ticket) : Ticket :=
  mkTicket (_id t) (title t) (description t) (status t) (priority t) (category t)
    (createdBy t) v (assignedAt t) (sla t) (version t) (tags t)
    (internalNotes t) (createdAt t) (updatedAt t).

Definition with_assignedAt (v : option Date) (t : Ticket) : Ticket :=
  mkTicket (_id t) (title t) (description t) (status t) (priority t) (category t)
    (createdBy t) (assignedTo t) v (sla t) (version t) (tags t)
    (internalNotes t) (createdAt t) (updatedAt t).

Definition with_sla (v : Sla) (t : Ticket) : Ticket :=
  mkTicket (_id t) (title t) (description t) (status t) (priority t) (category t)
    (createdBy t) (assignedTo t) (assignedAt t) v (version t) (tags t)
    (internalNotes t) (createdAt t) (updatedAt t).

Definition with_version (v : Z) (t : Ticket) : Ticket :=
  mkTicket (_id t) (title t) (description t) (status t) (priority t) (category t)
    (createdBy t) (assignedTo t) (assignedAt t) (sla t) v (tags t)
    (internalNotes t) (createdAt t) (updatedAt t).

Definition with_tags (v : list string) (t : Ticket) : Ticket :=
  mkTicket (_id t) (title t) (description t) (status t) (priority t) (category t)
    (createdBy t) (assignedTo t) (assignedAt t) (sla t) (version t) v
    (internalNotes t) (createdAt t) (updatedAt t).

Definition with_internalNotes (v : list InternalNote) (t : Ticket) : Ticket :=
  mkTicket (_id t) (title t) (description t) (status t) (priority t) (category t)
    (createdBy t) (assignedTo t) (assignedAt t) (sla t) (version t) (tags t)
    v (createdAt t) (updatedAt t).

Definition with_updatedAt (v : Date) (t : Ticket) : Ticket :=
  mkTicket (_id t) (title t) (description t) (status t) (priority t) (category t)
    (createdBy t) (assignedTo t) (assignedAt t) (sla t) (version t) (tags t)
    (internalNotes t) (createdAt t) v.

Definition with_firstResponseAt (v : option Date) (s : Sla) : Sla :=
  mkSla (responseTime s) (resolutionTime s) v (resolvedAt s) (dueDate s).

Definition with_resolvedAt (v : option Date) (s : Sla) : Sla :=
  mkSla (responseTime s) (resolutionTime s) (firstResponseAt s) v (dueDate s).

Definition with_dueDate (v : Date) (s : Sla) : Sla :=
  mkSla (responseTime s) (resolutionTime s) (firstResponseAt s) (resolvedAt s) v.

(** ** The derived fields of the ticket model (Ticket.js, the virtuals) *)

Module TicketModel.

(** [slaStatus] (Ticket.js:129-152); [now] is the [new Date()] of the getter. *)
Definition slaStatus (now : Date) (this : Ticket) : string :=
  let dueDate := dueDate (sla this) in
  let responseTime := responseTime (sla this) in
  let firstResponse := firstResponseAt (sla this) in
  if (status this =? "resolved")%string || (status this =? "closed")%string then
    "completed"
  else if match firstResponse with
          | Some f => f + responseTime * 60 * 60 * 1000 <? now
          | None => false
          end then
    "response_breach"
  else if dueDate <? now then
    "resolution_breach"
  else if dueDate - 24 * 60 * 60 * 1000 <? now then
    "warning"
  else
    "on_time".

(** [Math.ceil(n / d)] for a positive [n] and [d]. *)
Definition ceil_div (n d : Z) : Z := (n + d - 1) / d.

(** [timeRemaining] (Ticket.js:155-165); [None] is the [null] of the source. *)
Definition timeRemaining (now : Date) (this : Ticket) : option Z :=
  if (status this =? "resolved")%string || (status this =? "closed")%string then
    None
  else
    let remaining := dueDate (sla this) - now in
    Some (if 0 <? remaining then ceil_div remaining (1000 * 60 * 60) else 0).

(** [canBeModified] (Ticket.js:168-173). *)
Definition canBeModified (this : Ticket) (userRole : string) (userId : ObjectId) : bool :=
  if (userRole =? "admin")%string then true
  else if (userRole =? "agent")%string &&
          match assignedTo this with
          | Some a => (a =? userId)%string
          | None => true
          end then true
  else if (userRole =? "user")%string && (createdBy this =? userId)%string
          && (status this =? "open")%string then true
  else false.

End TicketModel.

(** ** The world the services run in

    The ticket, user and notification collections in their natural order,
    the console, the wall clock read by [Date.now()] and [new Date()], and
    the pending draws of [Math.random()] (each already scaled to an index).
    The clock does not advance by itself: a scenario sets it between calls. *)

Inductive Error :=
| ValidationError (path : string)   (* Mongoose refuses the document at save *)
| TypeError (message : string).     (* a property read on null *)

Inductive LogLine :=
| Log (message : string)
| LogError (message : string) (e : Error).

Record World := mkWorld {
  tickets : list Ticket;
  users : list User;
  notifications : list Notification;
  console : list LogLine;
  clock : Date;
  random : list nat
}.

Definition with_tickets (v : list Ticket) (w : World) : World :=
  mkWorld v (users w) (notifications w) (console w) (clock w) (random w).

Definition with_notifications (v : list Notification) (w : World) : World :=
  mkWorld (tickets w) (users w) v (console w) (clock w) (random w).

Definition with_console (v : list LogLine) (w : World) : World :=
  mkWorld (tickets w) (users w) (notifications w) v (clock w) (random w).

Definition with_clock (v : Date) (w : World) : World :=
  mkWorld (tickets w) (users w) (notifications w) (console w) v (random w).

Definition with_random (v : list nat) (w : World) : World :=
  mkWorld (tickets w) (users w) (notifications w) (console w) (clock w) v.

(** ** Asynchronous code: state passing with exceptions

    An [async] function either returns a value or throws, and in both cases
    leaves the world as its completed steps made it. *)

Inductive Outcome (A : Type) : Type :=
| Ok (a : A) (w : World)
| Throw (e : Error) (w : World).
Arguments Ok {A} a w.
Arguments Throw {A} e w.

Definition Async (A : Type) : Type := World -> Outcome A.

Definition ret {A : Type} (a : A) : Async A := fun w => Ok a w.

Definition throw {A : Type} (e : Error) : Async A := fun w => Throw e w.

Definition bind {A B : Type} (m : Async A) (k : A -> Async B) : Async B :=
  fun w => match m w with
           | Ok a w' => k a w'
           | Throw e w' => Throw e w'
           end.

Declare Scope async_scope.
Delimit Scope async_scope with async.
Notation "x <- m ;; k" := (bind m (fun x => k))
  (at level 100, m at next level, right associativity) : async_scope.
Notation "m ;; k" := (bind m (fun _ => k))
  (at level 100, right associativity) : async_scope.
Open Scope async_scope.

(** [try { body } catch (error) { handler }]. *)
Definition tryCatch {A : Type} (body : Async A) (handler : Error -> Async A) : Async A :=
  fun w => match body w with
           | Ok a w' => Ok a w'
           | Throw e w' => handler e w'
           end.

(** [for (const x of xs) { await body(x) }]. *)
Fixpoint forOf {A : Type} (xs : list A) (body : A -> Async unit) : Async unit :=
  match xs with
  | [] => ret tt
  | x :: rest => body x ;; forOf rest body
  end.

Definition get {A : Type} (f : World -> A) : Async A := fun w => Ok (f w) w.

Definition Date_now : Async Date := get clock.

Definition console_log (message : string) : Async unit :=
  fun w => Ok tt (with_console (console w ++ [Log message]) w).

Definition console_error (message : string) (e : Error) : Async unit :=
  fun w => Ok tt (with_console (console w ++ [LogError message e]) w).

(** The world an asynchronous call ends in, returned or thrown. *)
Definition world_of {A : Type} (o : Outcome A) : World :=
  match o with
  | Ok _ w => w
  | Throw _ w => w
  end.

Definition strIn (s : string) (l : list string) : bool :=
  existsb (String.eqb s) l.

(** [String.prototype.trim], which the [trim: true] of a schema path applies
    to every text assigned to the path.  A text is the sequence of its code
    units, taken to be below 256; among these the white space and the line
    terminators of the language are the tab, the line feed, the vertical tab,
    the form feed, the carriage return, the space and the no-break space. *)
Definition isWhiteSpace (c : ascii) : bool :=
  let n := nat_of_ascii c in
  ((9 <=? n) && (n <=? 13) || (n =? 32) || (n =? 160))%nat.

Fixpoint trimStart (s : string) : string :=
  match s with
  | EmptyString => EmptyString
  | String c rest => if isWhiteSpace c then trimStart rest else s
  end.

Fixpoint trimEnd (s : string) : string :=
  match s with
  | EmptyString => EmptyString
  | String c rest =>
      match trimEnd rest with
      | EmptyString => if isWhiteSpace c then EmptyString else String c EmptyString
      | kept => String c kept
      end
  end.

Definition trim (s : string) : string := trimEnd (trimStart s).

Definition opt_eqb (a b : option ObjectId) : bool :=
  match a, b with
  | Some x, Some y => (x =? y)%string
  | None, None => true
  | _, _ => false
  end.

Definition optZ_eqb (a b : option Z) : bool :=
  match a, b with
  | Some x, Some y => x =? y
  | None, None => true
  | _, _ => false
  end.

Definition double_quote : string := String (ascii_of_nat 34) EmptyString.

(** The template literal [`${pre}"${title}"${post}`] of the messages. *)
Definition quoted (pre title post : string) : string :=
  (pre ++ double_quote ++ title ++ double_quote ++ post)%string.

(** ** Mongoose documents of the Ticket model *)

Module Mongoose.

Definition statusEnum : list string :=
  ["open"; "in_progress"; "resolved"; "closed"; "cancelled"].
Definition priorityEnum : list string := ["low"; "medium"; "high"; "urgent"].
Definition categoryEnum : list string :=
  ["technical"; "billing"; "general"; "bug_report"; "feature_request"].

(** A loaded document: its fields and the paths assigned a different value
    since it was loaded or last saved ([isModified()] is [modified <> []]). *)
Record Doc := mkDoc {
  data : Ticket;
  modified : list string
}.

Definition loaded (t : Ticket) : Doc := mkDoc t [].

Definition isModified (d : Doc) : bool :=
  match modified d with
  | [] => false
  | _ :: _ => true
  end.

Definition mark (path : string) (t : Ticket) (d : Doc) : Doc :=
  mkDoc t (if strIn path (modified d) then modified d else modified d ++ [path]).

(** Assignments: a path assigned the value it already has is not modified. *)
Definition set_priority (v : string) (d : Doc) : Doc :=
  if (priority (data d) =? v)%string then d
  else mark "priority" (with_priority v (data d)) d.

Definition set_status (v : string) (d : Doc) : Doc :=
  if (status (data d) =? v)%string then d
  else mark "status" (with_status v (data d)) d.

Definition set_assignedTo (v : option ObjectId) (d : Doc) : Doc :=
  if opt_eqb (assignedTo (data d)) v then d
  else mark "assignedTo" (with_assignedTo v (data d)) d.

Definition set_assignedAt (v : option Date) (d : Doc) : Doc :=
  if optZ_eqb (assignedAt (data d)) v then d
  else mark "assignedAt" (with_assignedAt v (data d)) d.

Definition set_resolvedAt (v : option Date) (d : Doc) : Doc :=
  if optZ_eqb (resolvedAt (sla (data d))) v then d
  else mark "sla.resolvedAt" (with_sla (with_resolvedAt v (sla (data d))) (data d)) d.

Definition set_dueDate (v : Date) (d : Doc) : Doc :=
  if dueDate (sla (data d)) =? v then d
  else mark "sla.dueDate" (with_sla (with_dueDate v (sla (data d))) (data d)) d.

(** [ticket.tags.push(v)] and [ticket.internalNotes.push(n)].  The array
    casts what is pushed by the schema of its elements, so a tag is stored
    trimmed (Ticket.js:76-80). *)
Definition push_tag (v : string) (d : Doc) : Doc :=
  mark "tags" (with_tags (tags (data d) ++ [trim v]) (data d)) d.

Definition push_internalNote (n : InternalNote) (d : Doc) : Doc :=
  mark "internalNotes" (with_internalNotes (internalNotes (data d) ++ [n]) (data d)) d.

(** The schema validators of the paths the services assign: the enums of
    status and priority and the 20-character limit of a tag. *)
Definition validPath (t : Ticket) (path : string) : bool :=
  if (path =? "status")%string then strIn (status t) statusEnum
  else if (path =? "priority")%string then strIn (priority t) priorityEnum
  else if (path =? "tags")%string then
    forallb (fun tag => (String.length tag <=? 20)%nat) (tags t)
  else true.

Definition invalidPath (d : Doc) : option string :=
  find (fun path => negb (validPath (data d) path)) (modified d).

(** The write of a document: the stored ticket of the same [_id] is replaced.
    The services save a document they loaded in the same pass, and nothing
    else writes that ticket in between, so the replaced ticket differs from
    the written one in the modified paths only. *)
Definition put (t : Ticket) (ts : list Ticket) : list Ticket :=
  map (fun x => if (_id x =? _id t)%string then t else x) ts.

(** [doc.save()] on a loaded document: nothing happens when no path is
    modified; otherwise the modified paths are validated, the pre-save hook
    (Ticket.js:176-181) adds one to [version], the timestamps option sets
    [updatedAt], and the document is written. *)
Definition save (d : Doc) : Async Doc :=
  if isModified d then
    match invalidPath d with
    | Some path => throw (ValidationError path)
    | None =>
        fun w =>
          let t := with_updatedAt (clock w) (with_version (version (data d) + 1) (data d)) in
          Ok (loaded t) (with_tickets (put t (tickets w)) w)
    end
  else ret d.

(** [Ticket.find(filter)]. *)
Definition Ticket_find (filter : Ticket -> bool) : Async (list Doc) :=
  fun w => Ok (map loaded (List.filter filter (tickets w))) w.

Definition lookup (id : ObjectId) (ts : list Ticket) : option Ticket :=
  find (fun t => (_id t =? id)%string) ts.

(** [Ticket.findById(id)]. *)
Definition Ticket_findById (id : ObjectId) : Async (option Doc) :=
  fun w => Ok (option_map loaded (lookup id (tickets w))) w.

(** [User.find(filter)]. *)
Definition User_find (filter : User -> bool) : Async (list User) :=
  fun w => Ok (List.filter filter (users w)) w.

Definition activeAdmin (u : User) : bool :=
  (role u =? "admin")%string && isActive u.

End Mongoose.

(** ** The notification service (notificationService.js) *)

Module NotificationService.
Import Mongoose.

(** The [type] enum of the Notification schema (models/Notification.js:11). *)
Definition typeEnum : list string :=
  ["ticket_created"; "ticket_updated"; "ticket_assigned"; "ticket_escalated";
   "comment_added"; "sla_breach"; "sla_warning"; "ticket_resolved"].

(** The [options] argument: [{ ticketId, priority }]. *)
Record Options := mkOptions {
  ticketId : option ObjectId;
  o_priority : option string
}.

(** A required text path refuses the empty text. *)
Definition requiredMax (s : string) (max : nat) : bool :=
  negb (s =? EmptyString)%string && (String.length s <=? max)%nat.

(** The validators of the Notification schema, in path order. *)
Definition invalidNotification (n : Notification) : option string :=
  if negb (strIn (n_type n) typeEnum) then Some "type"
  else if negb (requiredMax (n_title n) 200) then Some "title"
  else if negb (requiredMax (n_message n) 500) then Some "message"
  else if negb (strIn (n_priority n) priorityEnum) then Some "priority"
  else None.

(** [createNotification] (notificationService.js:23-44).  The notification
    is saved first; then [populate('user')] leaves null for a user that has
    no document, and reading [notification.user.preferences] throws.  The
    e-mail branch contains its own errors and only flags the notification as
    sent, which the model does not record. *)
Definition createNotification (userId : ObjectId) (type title message : string)
    (options : Options) : Async Notification :=
  now <- Date_now ;;
  let notification :=
    mkNotification userId type title message (ticketId options)
      (match o_priority options with
       | Some p => if (p =? EmptyString)%string then "medium" else p
       | None => "medium"
       end)
      now in
  match invalidNotification notification with
  | Some path => throw (ValidationError path)
  | None =>
      (fun w => Ok tt (with_notifications (notifications w ++ [notification]) w)) ;;
      us <- get users ;;
      match find (fun u => (u_id u =? userId)%string) us with
      | None => throw (TypeError "Cannot read properties of null (reading 'preferences')")
      | Some _ => ret notification
      end
  end.

(** [.sort({ createdAt: -1 })], as a stable sort of the collection: among
    notifications of one instant the earlier inserted comes first. *)
Fixpoint insert_desc (n : Notification) (l : list Notification) : list Notification :=
  match l with
  | [] => [n]
  | x :: rest =>
      if n_createdAt x <=? n_createdAt n then n :: l else x :: insert_desc n rest
  end.

Definition sort_desc (l : list Notification) : list Notification :=
  fold_right insert_desc [] l.

(** A notification with its [ticket] path populated (null when the ticket
    has no document). *)
Record Populated := mkPopulated {
  notif : Notification;
  p_ticket : option Ticket
}.

(** [getNotifications(userId, { unreadOnly: false, limit })], first page
    (notificationService.js:111-138).  For the store [limit(0)] is no limit. *)
Definition getNotifications (userId : ObjectId) (limit : nat) : Async (list Populated) :=
  fun w =>
    let mine := List.filter (fun n => (n_user n =? userId)%string) (notifications w) in
    let page := match limit with
                | O => sort_desc mine
                | S _ => firstn limit (sort_desc mine)
                end in
    Ok (map (fun n => mkPopulated n
                        (match n_ticket n with
                         | Some id => lookup id (tickets w)
                         | None => None
                         end)) page) w.

(** The watchers of a ticket: the creator, then the assignee if any. *)
Definition watchers (ticket : Ticket) : list ObjectId :=
  createdBy ticket ::
  match assignedTo ticket with
  | Some a => [a]
  | None => []
  end.

(** [for (const id of ids) notifications.push(await createNotification(id, ...))]. *)
Fixpoint notifyEach (ids : list ObjectId) (type title message : string)
    (options : Options) : Async (list Notification) :=
  match ids with
  | [] => ret []
  | id :: rest =>
      n <- createNotification id type title message options ;;
      ns <- notifyEach rest type title message options ;;
      ret (n :: ns)
  end.

(** [notifyTicketCreated] (notificationService.js:168-196). *)
Definition notifyTicketCreated (ticket : Ticket) : Async Notification :=
  notification <- createNotification (createdBy ticket) "ticket_created"
      "Ticket Created"
      (quoted "Your ticket " (title ticket) " has been created successfully.")
      (mkOptions (Some (_id ticket)) (Some "medium")) ;;
  agents <- User_find (fun u => (role u =? "agent")%string && isActive u) ;;
  notifyEach (map u_id agents) "ticket_created" "New Ticket Created"
      (quoted "A new ticket " (title ticket) " has been created and needs attention.")
      (mkOptions (Some (_id ticket)) (Some "high")) ;;
  ret notification.

(** [notifyTicketAssigned] (notificationService.js:198-210). *)
Definition notifyTicketAssigned (ticket : Ticket) (assignee : ObjectId) : Async Notification :=
  createNotification assignee "ticket_assigned" "Ticket Assigned"
      (quoted "You have been assigned to ticket " (title ticket) ".")
      (mkOptions (Some (_id ticket)) (Some "high")).

(** [notifySLAWarning] (notificationService.js:273-295). *)
Definition notifySLAWarning (ticket : Ticket) : Async (list Notification) :=
  notifyEach (watchers ticket) "sla_warning" "SLA Warning"
      (quoted "Ticket " (title ticket) " is approaching its SLA deadline.")
      (mkOptions (Some (_id ticket)) (Some "high")).

(** [notifySLABreach] (notificationService.js:297-327).  The [Set] of the
    source holds ObjectId objects, which it compares by identity; the ids
    come from different documents, so it drops none of them. *)
Definition notifySLABreach (ticket : Ticket) : Async (list Notification) :=
  admins <- User_find activeAdmin ;;
  let uniqueWatchers := watchers ticket ++ map u_id admins in
  notifyEach uniqueWatchers "sla_breach" "SLA Breach Alert"
      (quoted "Ticket " (title ticket) " has exceeded its SLA deadline.")
      (mkOptions (Some (_id ticket)) (Some "urgent")).

End NotificationService.

(** ** The SLA service (class SLAService) *)

Module SLAService.
Import Mongoose NotificationService.

(** [escalateTicket] (lines 566-605 of the service file). *)
Definition escalateTicket (ticket : Doc) : Async unit :=
  tryCatch
    (ticket <- (if negb (priority (data ticket) =? "urgent")%string
                then save (set_priority "urgent" ticket)
                else ret ticket) ;;
     now <- Date_now ;;
     let escalationNote :=
       mkNote "Ticket escalated due to SLA breach or inactivity. Priority updated to urgent."
              None now in
     ticket <- save (push_internalNote escalationNote ticket) ;;
     admins <- User_find activeAdmin ;;
     forOf admins (fun admin =>
       createNotification (u_id admin) "ticket_escalated" "Ticket Escalated"
         (quoted "Ticket " (title (data ticket))
                 " has been escalated due to SLA breach or inactivity.")
         (mkOptions (Some (_id (data ticket))) (Some "urgent")) ;;
       ret tt) ;;
     console_log ("Ticket " ++ _id (data ticket) ++ " escalated successfully")%string)
    (fun error => console_error "Error escalating ticket:" error).

(** The test of [lastWarning.notifications.some(...)] and of its breach twin:
    a notification of the given type, for this ticket, newer than the window. *)
Definition recent (type : string) (ticket : Ticket) (since : Date) (p : Populated) : bool :=
  (n_type (notif p) =? type)%string &&
  match p_ticket p with
  | Some t => (_id t =? _id ticket)%string
  | None => false
  end &&
  (since <? n_createdAt (notif p)).

(** [handleSLAWarning] (lines 525-542). *)
Definition handleSLAWarning (ticket : Doc) : Async unit :=
  lastWarning <- getNotifications (createdBy (data ticket)) 1 ;;
  now <- Date_now ;;
  let hasRecentWarning :=
    existsb (recent "sla_warning" (data ticket) (now - 60 * 60 * 1000)) lastWarning in
  if negb hasRecentWarning then
    notifySLAWarning (data ticket) ;; ret tt
  else ret tt.

(** [handleSLABreach] (lines 544-564). *)
Definition handleSLABreach (ticket : Doc) : Async unit :=
  lastBreach <- getNotifications (createdBy (data ticket)) 1 ;;
  now <- Date_now ;;
  let hasRecentBreach :=
    existsb (recent "sla_breach" (data ticket) (now - 2 * 60 * 60 * 1000)) lastBreach in
  if negb hasRecentBreach then
    notifySLABreach (data ticket) ;;
    escalateTicket ticket
  else ret tt.

Definition openOrInProgress (t : Ticket) : bool :=
  strIn (status t) ["open"; "in_progress"].

(** The two queries of [checkSLAStatus]. *)
Definition warningFilter (now : Date) (t : Ticket) : bool :=
  openOrInProgress t &&
  (now + 60 * 60 * 1000 <=? dueDate (sla t)) &&
  (dueDate (sla t) <=? now + 2 * 60 * 60 * 1000).

Definition breachedFilter (now : Date) (t : Ticket) : bool :=
  openOrInProgress t && (dueDate (sla t) <? now).

(** [checkSLAStatus] (lines 464-493). *)
Definition checkSLAStatus : Async unit :=
  tryCatch
    (now <- Date_now ;;
     warningTickets <- Ticket_find (warningFilter now) ;;
     forOf warningTickets handleSLAWarning ;;
     breachedTickets <- Ticket_find (breachedFilter now) ;;
     forOf breachedTickets handleSLABreach)
    (fun error => console_error "Error checking SLA status:" error).

(** The two queries of [checkEscalations]. *)
Definition unassignedFilter (now : Date) (t : Ticket) : bool :=
  (status t =? "open")%string &&
  match assignedTo t with None => true | Some _ => false end &&
  (createdAt t <? now - 24 * 60 * 60 * 1000).

Definition staleHighPriorityFilter (now : Date) (t : Ticket) : bool :=
  openOrInProgress t &&
  strIn (priority t) ["high"; "urgent"] &&
  (updatedAt t <? now - 4 * 60 * 60 * 1000).

(** [checkEscalations] (lines 495-523). *)
Definition checkEscalations : Async unit :=
  tryCatch
    (now <- Date_now ;;
     unassignedTickets <- Ticket_find (unassignedFilter now) ;;
     forOf unassignedTickets escalateTicket ;;
     staleHighPriorityTickets <- Ticket_find (staleHighPriorityFilter now) ;;
     forOf staleHighPriorityTickets escalateTicket)
    (fun error => console_error "Error checking escalations:" error).

(** [slaHours[priority]]: the own keys of the table. *)
Definition slaHours (priority : string) : option Z :=
  if (priority =? "urgent")%string then Some 2
  else if (priority =? "high")%string then Some 8
  else if (priority =? "medium")%string then Some 24
  else if (priority =? "low")%string then Some 72
  else None.

(** The property names every object literal inherits: a lookup of one of
    them in [slaHours] finds a function or an object, not undefined. *)
Definition inheritedKeys : list string :=
  ["constructor"; "__proto__"; "hasOwnProperty"; "isPrototypeOf";
   "propertyIsEnumerable"; "toLocaleString"; "toString"; "valueOf";
   "__defineGetter__"; "__defineSetter__"; "__lookupGetter__"; "__lookupSetter__"].

(** [calculateSLADueDate(priority, createdAt)] (lines 608-618):
    [new Date(createdAt.getTime() + hours * 60 * 60 * 1000)].  [None] is the
    invalid date, which an inherited key gives ([hours] is then not a number)
    and also a sum past the last time value of a date. *)
Definition calculateSLADueDate (priority : string) (createdAt : Date) : option Date :=
  match slaHours priority with
  | Some hours => newDate (createdAt + hours * 60 * 60 * 1000)
  | None =>
      if strIn priority inheritedKeys then None
      else newDate (createdAt + 24 * 60 * 60 * 1000)
  end.

(** [updateTicketSLA(ticketId, newPriority)] (lines 621-638): the due date
    is recomputed from the ticket's [createdAt].  An invalid date is refused
    when the document is saved.  The error is logged and thrown again. *)
Definition updateTicketSLA (ticketId : ObjectId) (newPriority : string) : Async (option Doc) :=
  tryCatch
    (found <- Ticket_findById ticketId ;;
     match found with
     | None => ret None
     | Some ticket =>
         match calculateSLADueDate newPriority (createdAt (data ticket)) with
         | None => throw (ValidationError "sla.dueDate")
         | Some newDueDate =>
             ticket <- save (set_priority newPriority (set_dueDate newDueDate ticket)) ;;
             ret (Some ticket)
         end
     end)
    (fun error => console_error "Error updating ticket SLA:" error ;; throw error).

End SLAService.

(** ** Numbers of the language

    The conditions of a custom rule compare a quotient of numbers with an
    operand taken from the rule data as it came, a number or a text.  The
    comparison is the one of the language: both sides are doubles, a text
    operand is first converted to a number ([StringToNumber]), and every
    arithmetic result is rounded to the nearest double, ties to even. *)

Module JsNumber.

(** A Number: not-a-number, an infinity, or the double [mantissa * 2 ^ exponent]. *)
Inductive Number :=
| NaN
| Infinity (negative : bool)
| Finite (mantissa exponent : Z).

Definition negate (a : Number) : Number :=
  match a with
  | NaN => NaN
  | Infinity negative => Infinity (negb negative)
  | Finite m e => Finite (- m) e
  end.

(** [p / q] rounded to the nearest integer, ties to the even one
    ([0 <= p], [0 < q]). *)
Definition roundHalfEven (p q : Z) : Z :=
  let f := p / q in
  let r := p mod q in
  if 2 * r <? q then f
  else if q <? 2 * r then f + 1
  else if Z.even f then f else f + 1.

(** The integer part of the binary logarithm of [p / q] ([0 < p], [0 < q]). *)
Definition floorLog2 (p q : Z) : Z :=
  let e0 := Z.log2 p - Z.log2 q in
  let below := if 0 <=? e0 then p <? q * 2 ^ e0 else p * 2 ^ (- e0) <? q in
  if below then e0 - 1 else e0.

(** The double nearest to [p / q] ([0 < p], [0 < q]): 53 significant bits,
    the least exponent -1074 of the subnormal numbers, and infinity from
    [2 ^ 1024] on. *)
Definition roundPositive (p q : Z) : Number :=
  let e := Z.max (floorLog2 p q - 52) (-1074) in
  let m := if 0 <=? e then roundHalfEven p (q * 2 ^ e)
           else roundHalfEven (p * 2 ^ (- e)) q in
  if 1024 <=? Z.log2 m + e then Infinity false else Finite m e.

(** The double nearest to [p / q] ([0 < q]). *)
Definition round (p q : Z) : Number :=
  if p =? 0 then Finite 0 0
  else if 0 <? p then roundPositive p q
  else negate (roundPositive (- p) q).

(** An integer as a number: up to [2 ^ 53] in size it is a double as it
    is, beyond it is rounded. *)
Definition ofInteger (n : Z) : Number :=
  if Z.abs n <=? 2 ^ 53 then Finite n 0 else round n 1.

(** [a / d] for a positive integer [d]. *)
Definition divideBy (d : Z) (a : Number) : Number :=
  match a with
  | Finite m e => if 0 <=? e then round (m * 2 ^ e) d else round m (d * 2 ^ (- e))
  | other => other
  end.

(** [a < b]. *)
Definition lt (a b : Number) : bool :=
  match a, b with
  | NaN, _ => false
  | _, NaN => false
  | Infinity true, Infinity true => false
  | Infinity true, _ => true
  | _, Infinity true => false
  | Infinity false, _ => false
  | _, Infinity false => true
  | Finite m1 e1, Finite m2 e2 =>
      let e := Z.min e1 e2 in
      m1 * 2 ^ (e1 - e) <? m2 * 2 ^ (e2 - e)
  end.

(** The value of a digit in a base up to 16, if it is one. *)
Definition digitOf (base : Z) (c : ascii) : option Z :=
  let n := Z.of_nat (nat_of_ascii c) in
  let d := if (48 <=? n) && (n <=? 57) then n - 48
           else if (97 <=? n) && (n <=? 102) then n - 87
           else if (65 <=? n) && (n <=? 70) then n - 55
           else base in
  if d <? base then Some d else None.

(** The longest run of digits at the start of a text: its value on top of
    [acc], the number of digits, and the rest of the text. *)
Fixpoint digits (base : Z) (s : string) (acc count : Z) : Z * Z * string :=
  match s with
  | EmptyString => (acc, count, s)
  | String c rest =>
      match digitOf base c with
      | Some d => digits base rest (acc * base + d) (count + 1)
      | None => (acc, count, s)
      end
  end.

(** [0x], [0o] and [0b] literals, after the prefix: digits to the end. *)
Definition nonDecimal (base : Z) (s : string) : Number :=
  match digits base s 0 0 with
  | (v, count, EmptyString) => if 0 <? count then ofInteger v else NaN
  | _ => NaN
  end.

(** The exponent part, which ends the literal: nothing, or [e] or [E], a
    sign if any, and digits. *)
Definition exponentPart (s : string) : option Z :=
  match s with
  | EmptyString => Some 0
  | String c rest =>
      if (c =? "e")%char || (c =? "E")%char then
        let signed :=
          match rest with
          | String "+"%char r => (1, r)
          | String "-"%char r => (-1, r)
          | _ => (1, rest)
          end in
        match digits 10 (snd signed) 0 0 with
        | (v, count, EmptyString) => if 0 <? count then Some (fst signed * v) else None
        | _ => None
        end
      else None
  end.

(** An unsigned decimal literal as [mantissa * 10 ^ exponent]: digits, a
    point and digits, with a digit on one side of the point at least, and the
    exponent part. *)
Definition unsignedDecimal (s : string) : option (Z * Z) :=
  match digits 10 s 0 0 with
  | (int, nint, afterInt) =>
      let fraction :=
        match afterInt with
        | String "."%char r => digits 10 r int 0
        | _ => (int, 0, afterInt)
        end in
      match fraction with
      | (mantissa, nfrac, afterFrac) =>
          if (0 <? nint) || (0 <? nfrac) then
            match exponentPart afterFrac with
            | Some e => Some (mantissa, e - nfrac)
            | None => None
            end
          else None
      end
  end.

(** A decimal literal with its sign, or [Infinity]. *)
Definition decimal (s : string) : Number :=
  let signed :=
    match s with
    | String "-"%char r => (true, r)
    | String "+"%char r => (false, r)
    | _ => (false, s)
    end in
  let value :=
    if (snd signed =? "Infinity")%string then Infinity false
    else
      match unsignedDecimal (snd signed) with
      | Some (m, e) => if 0 <=? e then ofInteger (m * 10 ^ e) else round m (10 ^ (- e))
      | None => NaN
      end in
  if fst signed then negate value else value.

(** [StringToNumber]: the text without the white space around it is empty
    (zero), a literal of base 16, 8 or 2, or a decimal literal; any other
    text is not a number. *)
Definition StringToNumber (text : string) : Number :=
  match trim text with
  | EmptyString => Finite 0 0
  | String "0"%char (String c rest) as s =>
      if (c =? "x")%char || (c =? "X")%char then nonDecimal 16 rest
      else if (c =? "o")%char || (c =? "O")%char then nonDecimal 8 rest
      else if (c =? "b")%char || (c =? "B")%char then nonDecimal 2 rest
      else decimal s
  | s => decimal s
  end.

End JsNumber.

(** ** The workflow service (workflowService.js) *)

Module WorkflowService.
Import Mongoose NotificationService.

(** A rule as [executeRules] reads it: an optional [trigger], an optional
    [condition] and the [action].  The action works on the caller's ticket
    document, which the next rule sees as the action left it. *)
Record Rule := mkRule {
  trigger : option string;
  condition : option (Ticket -> Async bool);
  action : Doc -> Async Doc;
  enabled : option bool
}.

(** [this.rules], a [Map] iterated in insertion order.  The registry is the
    state of the service object and is passed explicitly. *)
Definition Registry := list (string * Rule).

(** [Math.floor(Math.random() * n)]: the next pending draw, below [n]. *)
Definition randomIndex (n : nat) : Async nat :=
  fun w => match random w with
           | [] => Ok 0%nat w
           | r :: rest => Ok (Nat.modulo r n) (with_random rest w)
           end.

Definition technicalAgent (u : User) : bool :=
  (role u =? "agent")%string && isActive u && strIn "technical" (specializations u).

Definition auto_assign_technical : Rule :=
  mkRule None
    (Some (fun ticket => ret (category ticket =? "technical")%string))
    (fun ticket =>
       technicalAgents <- User_find technicalAgent ;;
       match technicalAgents with
       | [] => ret ticket
       | first :: _ =>
           i <- randomIndex (List.length technicalAgents) ;;
           let randomAgent := nth i technicalAgents first in
           now <- Date_now ;;
           ticket <- save (set_assignedAt (Some now)
                             (set_assignedTo (Some (u_id randomAgent)) ticket)) ;;
           notifyTicketAssigned (data ticket) (u_id randomAgent) ;;
           ret ticket
       end)
    None.

Definition escalate_high_priority : Rule :=
  mkRule None
    (Some (fun ticket =>
       ret ((priority ticket =? "urgent")%string && (status ticket =? "open")%string)))
    (fun ticket =>
       admins <- User_find activeAdmin ;;
       forOf admins (fun admin =>
         createNotification (u_id admin) "ticket_escalated"
           "Urgent Ticket Requires Attention"
           (quoted "Urgent ticket " (title (data ticket)) " needs immediate attention.")
           (mkOptions (Some (_id (data ticket))) (Some "urgent")) ;;
         ret tt) ;;
       ret ticket)
    None.

(** [daysSince >= n], on whole milliseconds: the quotient by the length of
    a day reaches [n] exactly when the elapsed time reaches [n] days. *)
Definition auto_close_inactive : Rule :=
  mkRule None
    (Some (fun ticket =>
       now <- Date_now ;;
       ret ((status ticket =? "resolved")%string && (7 * day <=? now - updatedAt ticket))))
    (fun ticket =>
       ticket <- save (set_status "closed" ticket) ;;
       createNotification (createdBy (data ticket)) "ticket_closed" "Ticket Auto-Closed"
         (quoted "Your ticket " (title (data ticket))
                 " has been automatically closed due to inactivity.")
         (mkOptions (Some (_id (data ticket))) None) ;;
       ret ticket)
    None.

(** [new Date(null)] is the epoch, so an unset [resolvedAt] counts from 0. *)
Definition auto_close_resolved : Rule :=
  mkRule None
    (Some (fun ticket =>
       now <- Date_now ;;
       let resolved := match resolvedAt (sla ticket) with Some r => r | None => 0 end in
       ret ((status ticket =? "resolved")%string && (3 * day <=? now - resolved))))
    (fun ticket =>
       ticket <- save (set_status "closed" ticket) ;;
       createNotification (createdBy (data ticket)) "ticket_closed" "Ticket Closed"
         (quoted "Your ticket " (title (data ticket))
                 " has been closed. Thank you for using our support!")
         (mkOptions (Some (_id (data ticket))) None) ;;
       ret ticket)
    None.

(** [addRule(name, rule)]: [Map.set] keeps the place of a name it has. *)
Fixpoint addRule (name : string) (rule : Rule) (rules : Registry) : Registry :=
  match rules with
  | [] => [(name, rule)]
  | (n, r) :: rest =>
      if (n =? name)%string then (n, rule) :: rest
      else (n, r) :: addRule name rule rest
  end.

(** [removeRule(name)]. *)
Definition removeRule (name : string) (rules : Registry) : Registry :=
  List.filter (fun nr => negb (fst nr =? name)%string) rules.

(** [initializeDefaultRules] (lines 13-92), on the empty map of the constructor. *)
Definition initializeDefaultRules : Registry :=
  addRule "auto_close_resolved" auto_close_resolved
    (addRule "auto_close_inactive" auto_close_inactive
       (addRule "escalate_high_priority" escalate_high_priority
          (addRule "auto_assign_technical" auto_assign_technical []))).

(** [rule.trigger && rule.trigger !== trigger]: the rule is passed over. *)
Definition skipped (rule : Rule) (trigger_ : string) : bool :=
  match trigger rule with
  | Some t => negb (t =? EmptyString)%string && negb (t =? trigger_)%string
  | None => false
  end.

(** [rule.condition && rule.condition(ticket)]. *)
Definition holds (rule : Rule) (ticket : Doc) : Async bool :=
  match condition rule with
  | Some c => c (data ticket)
  | None => ret false
  end.

(** The second half of the loop body: the condition is evaluated on the
    ticket and, when it holds, the rule is announced and its action run. *)
Definition evaluate (entry : string * Rule) (ticket : Doc) : Async Doc :=
  let (ruleName, rule) := entry in
  fires <- holds rule ticket ;;
  if fires then
    console_log ("Executing workflow rule: " ++ ruleName)%string ;;
    action rule ticket
  else ret ticket.

(** The body of the loop of [executeRules], for one entry of the map. *)
Definition runRule (trigger_ : string) (entry : string * Rule) (ticket : Doc) : Async Doc :=
  if skipped (snd entry) trigger_ then ret ticket
  else evaluate entry ticket.

(** The [for ... of this.rules] loop. *)
Fixpoint runRules (rules : Registry) (trigger_ : string) (ticket : Doc) : Async Doc :=
  match rules with
  | [] => ret ticket
  | entry :: rest =>
      ticket <- runRule trigger_ entry ticket ;;
      runRules rest trigger_ ticket
  end.

(** [executeRules(ticket, trigger)] (lines 105-120). *)
Definition executeRules (rules : Registry) (ticket : Doc) (trigger_ : string) : Async unit :=
  tryCatch
    (runRules rules trigger_ ticket ;; ret tt)
    (fun error =>
       console_error
         ("Error executing workflow rules for ticket " ++ _id (data ticket) ++ ":")%string
         error).

(** The [value] of a condition: text or a whole number. *)
Inductive JsValue :=
| VStr (s : string)
| VNum (n : Z).

Record Condition := mkCondition {
  field : string;
  operator : string;
  value : JsValue
}.

(** [ticket.f === condition.value] for a text field. *)
Definition strictEq (s : string) (v : JsValue) : bool :=
  match v with
  | VStr x => (s =? x)%string
  | VNum _ => false
  end.

(** The operand of a comparison as a number; a text is converted. *)
Definition toNumber (v : JsValue) : JsNumber.Number :=
  match v with
  | VNum n => JsNumber.ofInteger n
  | VStr s => JsNumber.StringToNumber s
  end.

(** [(Date.now() - new Date(date).getTime()) / (1000 * 60 * 60 * 24)], from
    the milliseconds elapsed. *)
Definition daysSince (elapsed : Z) : JsNumber.Number :=
  JsNumber.divideBy day (JsNumber.ofInteger elapsed).

(** [daysSince > value] and [daysSince < value]. *)
Definition daysCompare (operator_ : string) (elapsed : Z) (v : JsValue) : bool :=
  if (operator_ =? "greater_than")%string then JsNumber.lt (toNumber v) (daysSince elapsed)
  else JsNumber.lt (daysSince elapsed) (toNumber v).

(** One conjunct of [buildCondition] (lines 138-179). *)
Definition evalCondition (now : Date) (ticket : Ticket) (c : Condition) : bool :=
  let eq (b : bool) := if (operator c =? "equals")%string then b else negb b in
  if (field c =? "category")%string then eq (strictEq (category ticket) (value c))
  else if (field c =? "priority")%string then eq (strictEq (priority ticket) (value c))
  else if (field c =? "status")%string then eq (strictEq (status ticket) (value c))
  else if (field c =? "assignedTo")%string then
    eq (match assignedTo ticket with
        | Some a => strictEq a (value c)
        | None => false
        end)
  else if (field c =? "createdAt")%string then
    daysCompare (operator c) (now - createdAt ticket) (value c)
  else if (field c =? "updatedAt")%string then
    daysCompare (operator c) (now - updatedAt ticket) (value c)
  else false.

Definition buildCondition (conditions : list Condition) : Ticket -> Async bool :=
  fun ticket =>
    now <- Date_now ;;
    ret (forallb (evalCondition now ticket) conditions).

(** An action descriptor; a property the rule data leaves out is the empty
    text (a required path refuses both). *)
Record Action := mkAction {
  a_type : string;
  a_value : string;
  recipient : string;
  a_title : string;
  a_message : string
}.

(** One case of the [switch] of [buildAction] (lines 182-240). *)
Definition runAction (a : Action) (ticket : Doc) : Async Doc :=
  if (a_type a =? "assign_to_agent")%string then
    now <- Date_now ;;
    ticket <- save (set_assignedAt (Some now) (set_assignedTo (Some (a_value a)) ticket)) ;;
    notifyTicketAssigned (data ticket) (a_value a) ;;
    ret ticket
  else if (a_type a =? "change_priority")%string then
    save (set_priority (a_value a) ticket)
  else if (a_type a =? "change_status")%string then
    now <- Date_now ;;
    let ticket := set_status (a_value a) ticket in
    save (if (a_value a =? "resolved")%string then set_resolvedAt (Some now) ticket
          else ticket)
  else if (a_type a =? "add_tag")%string then
    if negb (strIn (a_value a) (tags (data ticket))) then
      save (push_tag (a_value a) ticket)
    else ret ticket
  else if (a_type a =? "send_notification")%string then
    createNotification
      (if (recipient a =? "ticket_creator")%string then createdBy (data ticket)
       else recipient a)
      "workflow_notification" (a_title a) (a_message a)
      (mkOptions (Some (_id (data ticket))) None) ;;
    ret ticket
  else if (a_type a =? "escalate_to_admin")%string then
    admins <- User_find activeAdmin ;;
    forOf admins (fun admin =>
      createNotification (u_id admin) "ticket_escalated" "Ticket Escalated by Workflow"
        (quoted "Ticket " (title (data ticket)) " has been escalated by workflow rule.")
        (mkOptions (Some (_id (data ticket))) (Some "urgent")) ;;
      ret tt) ;;
    ret ticket
  else ret ticket.

Fixpoint buildAction (actions : list Action) (ticket : Doc) : Async Doc :=
  match actions with
  | [] => ret ticket
  | a :: rest =>
      ticket <- runAction a ticket ;;
      buildAction rest ticket
  end.

(** The body of a rule-creation request. *)
Record RuleData := mkRuleData {
  rd_name : string;
  rd_trigger : option string;
  rd_conditions : list Condition;
  rd_actions : list Action;
  rd_enabled : option bool
}.

(** [createCustomRule(ruleData)] (lines 123-135). *)
Definition customRule (ruleData : RuleData) : Rule :=
  mkRule
    (Some (match rd_trigger ruleData with
           | Some t => if (t =? EmptyString)%string then "ticket_updated" else t
           | None => "ticket_updated"
           end))
    (Some (buildCondition (rd_conditions ruleData)))
    (buildAction (rd_actions ruleData))
    (Some (match rd_enabled ruleData with
           | Some false => false
           | _ => true
           end)).

Definition customRuleEntry (ruleData : RuleData) : string * Rule :=
  (rd_name ruleData, customRule ruleData).

Definition createCustomRule (ruleData : RuleData) (rules : Registry) : Registry :=
  addRule (rd_name ruleData) (customRule ruleData) rules.

End WorkflowService.

(** ** The ticket routes (POST /api/tickets, PATCH /api/tickets/:id)

    A request body is the body after the sanitizers of the route; texts are
    taken as trimmed already.  Ids are opaque non-empty texts. *)

Module TicketRoutes.
Import Mongoose NotificationService.

Inductive Response :=
| Created (ticket : Ticket)           (* 201 *)
| Updated (ticket : Ticket)           (* 200 *)
| BadRequest                          (* 400, validation failed *)
| Forbidden                           (* 403 *)
| NotFound                            (* 404 *)
| Conflict (currentVersion : Z)       (* 409 *)
| ServerError.                        (* 500 *)

Definition statusCode (r : Response) : Z :=
  match r with
  | Created _ => 201
  | Updated _ => 200
  | BadRequest => 400
  | Forbidden => 403
  | NotFound => 404
  | Conflict _ => 409
  | ServerError => 500
  end.

Definition lengthBetween (s : string) (lo hi : nat) : bool :=
  (lo <=? String.length s)%nat && (String.length s <=? hi)%nat.

Definition optional {A : Type} (check : A -> bool) (v : option A) : bool :=
  match v with
  | Some x => check x
  | None => true
  end.

Record PostBody := mkPostBody {
  b_title : string;
  b_description : string;
  b_category : string;
  b_priority : option string;
  b_tags : option (list string)
}.

(** The validators of POST /api/tickets (lines 132-137 of the routes file). *)
Definition validPost (b : PostBody) : bool :=
  lengthBetween (b_title b) 5 200 &&
  lengthBetween (b_description b) 10 5000 &&
  strIn (b_category b) categoryEnum &&
  optional (fun p => strIn p priorityEnum) (b_priority b) &&
  optional (forallb (fun tag => (String.length tag <=? 20)%nat)) (b_tags b).

(** [new Ticket({ title, description, category, priority, tags, createdBy })]
    with the defaults of the schema (Ticket.js:16-74): status open, nobody
    assigned, the response and resolution times 24 and 72, and the due date
    [Date.now() + this.sla.resolutionTime * 60 * 60 * 1000].  [newId] is the
    ObjectId the driver generates; [now] is the clock, which also stamps
    [createdAt] and [updatedAt] when the new document is saved. *)
Definition newTicket (newId : ObjectId) (now : Date) (title_ description_ category_
    priority_ : string) (tags_ : list string) (createdBy_ : ObjectId) : Ticket :=
  let resolutionTime_ := 72 in
  mkTicket newId title_ description_ "open" priority_ category_ createdBy_ None None
    (mkSla 24 resolutionTime_ None None (now + resolutionTime_ * 60 * 60 * 1000))
    0 tags_ [] now now.

(** The first [save()] of a new document: it is inserted, and the pre-save
    hook leaves [version] alone ([isNew]). *)
Definition insert (t : Ticket) : Async unit :=
  fun w => Ok tt (with_tickets (tickets w ++ [t]) w).

(** POST /api/tickets (lines 131-180). *)
Definition postTicket (user : User) (newId : ObjectId) (b : PostBody) : Async Response :=
  tryCatch
    (if negb (validPost b) then ret BadRequest
     else
       let priority_ := match b_priority b with Some p => p | None => "medium" end in
       let tags_ := match b_tags b with Some l => l | None => [] end in
       now <- Date_now ;;
       let ticket := newTicket newId now (b_title b) (b_description b) (b_category b)
                       priority_ tags_ (u_id user) in
       insert ticket ;;
       notifyTicketCreated ticket ;;
       ret (Created ticket))
    (fun error => console_error "Create ticket error:" error ;; ret ServerError).

(** The body of a PATCH request: the keys the route validates.  A body made
    of other keys besides is passed on to the store with them and is not
    covered here. *)
Record PatchBody := mkPatchBody {
  p_title : option string;
  p_description : option string;
  p_status : option string;
  p_priority : option string;
  p_assignedTo : option ObjectId;
  p_tags : option (list string);
  p_version : Z
}.

(** The validators of PATCH /api/tickets/:id (lines 322-328). *)
Definition validPatch (b : PatchBody) : bool :=
  optional (fun s => lengthBetween s 5 200) (p_title b) &&
  optional (fun s => lengthBetween s 10 5000) (p_description b) &&
  optional (fun s => strIn s statusEnum) (p_status b) &&
  optional (fun s => strIn s priorityEnum) (p_priority b) &&
  optional (fun s => negb (s =? EmptyString)%string) (p_assignedTo b) &&
  (0 <=? p_version b).

(** [canAccessTicket] of the auth middleware, on the ticket found. *)
Definition canAccess (user : User) (ticket : Ticket) : bool :=
  if (role user =? "admin")%string then true
  else if (role user =? "agent")%string &&
          match assignedTo ticket with
          | None => true
          | Some a => (a =? u_id user)%string
          end then true
  else (role user =? "user")%string && (createdBy ticket =? u_id user)%string.

(** The update document the handler builds (lines 355-371), applied as
    [findByIdAndUpdate] applies it: each path present is set, nothing else
    is, and the timestamps option sets [updatedAt].  No path of it is
    [version] or [sla.dueDate], and no save hook runs. *)
Definition applyUpdate (now : Date) (b : PatchBody) (old : Ticket) : Ticket :=
  let set {A : Type} (v : option A) (f : A -> Ticket -> Ticket) (t : Ticket) :=
    match v with Some x => f x t | None => t end in
  let statusChanges :=
    match p_status b with
    | Some s => negb (s =? EmptyString)%string && negb (s =? status old)%string
    | None => false
    end in
  let t := set (p_title b) with_title old in
  let t := set (p_description b) with_description t in
  let t := set (p_status b) with_status t in
  let t := set (p_priority b) with_priority t in
  let t := set (p_assignedTo b) (fun a => with_assignedTo (Some a)) t in
  let t := set (p_tags b) (fun l => with_tags (map trim l)) t in
  let t :=
    if statusChanges then
      let first := match firstResponseAt (sla old) with
                   | Some f => f
                   | None => now
                   end in
      let s := with_firstResponseAt (Some first) (sla t) in
      let s := if strIn (status t) ["resolved"; "closed"]
               then with_resolvedAt (Some now) s else s in
      with_sla s t
    else t in
  let t :=
    match p_assignedTo b with
    | Some a =>
        if negb (a =? EmptyString)%string && negb (opt_eqb (Some a) (assignedTo old))
        then with_assignedAt (Some now) t
        else if (a =? EmptyString)%string then with_assignedAt None t
        else t
    | None => t
    end in
  with_updatedAt now t.

(** [runValidators]: of the paths an update can set, the tags alone reach
    the schema unchecked by the route (20 characters at most each, once
    trimmed). *)
Definition updateValid (b : PatchBody) : bool :=
  optional (fun l => forallb (fun tag => (String.length tag <=? 20)%nat) (map trim l))
    (p_tags b).

(** PATCH /api/tickets/:id behind [canAccessTicket] (lines 321-396). *)
Definition patchTicket (user : User) (ticketId : ObjectId) (b : PatchBody) : Async Response :=
  found <- Ticket_findById ticketId ;;
  match found with
  | None => ret NotFound
  | Some req_ticket =>
      if negb (canAccess user (data req_ticket)) then ret Forbidden
      else
        tryCatch
          (if negb (validPatch b) then ret BadRequest
           else if negb (TicketModel.canBeModified (data req_ticket) (role user) (u_id user))
           then ret Forbidden
           else if negb (version (data req_ticket) =? p_version b) then
             ret (Conflict (version (data req_ticket)))
           else if negb (updateValid b) then throw (ValidationError "tags")
           else
             now <- Date_now ;;
             let updatedTicket := applyUpdate now b (data req_ticket) in
             (fun w => Ok tt (with_tickets (put updatedTicket (tickets w)) w)) ;;
             ret (Updated updatedTicket))
          (fun error => console_error "Update ticket error:" error ;; ret ServerError)
  end.

End TicketRoutes.

(** ** The conditions of the SLA classifier, as the spec words them *)

Module SlaConditions.

(** The status is resolved or closed. *)
Definition completedStatus (t : Ticket) : Prop :=
  status t = "resolved" \/ status t = "closed".

(** A first response is recorded and [now] is past it by more than the
    response budget (in hours). *)
Definition responseLate (now : Date) (t : Ticket) : Prop :=
  exists f, firstResponseAt (sla t) = Some f /\ now > f + responseTime (sla t) * hour.

End SlaConditions.

(** ** What an escalation is expected to leave

    The note, the ticket and the notices that the statements below compare
    the outcome of [escalateTicket] with. *)

Module Escalation.
Import Mongoose SLAService.

Definition escalationNote (now : Date) : InternalNote :=
  mkNote "Ticket escalated due to SLA breach or inactivity. Priority updated to urgent."
         None now.

(** The ticket after its escalation at [now]: made urgent by a first write
    if it was not, then given the note by a second one. *)
Definition escalated (now : Date) (t : Ticket) : Ticket :=
  let t1 := if (priority t =? "urgent")%string then t
            else with_updatedAt now (with_version (version t + 1) (with_priority "urgent" t)) in
  with_updatedAt now
    (with_version (version t1 + 1)
       (with_internalNotes (internalNotes t1 ++ [escalationNote now]) t1)).

(** The notice an admin receives about the escalation of [t]. *)
Definition escalationNotice (now : Date) (t : Ticket) (admin : User) : Notification :=
  mkNotification (u_id admin) "ticket_escalated" "Ticket Escalated"
    (quoted "Ticket " (title t) " has been escalated due to SLA breach or inactivity.")
    (Some (_id t)) "urgent" now.

(** The world after the escalation of [t]. *)
Definition escalateWorld (t : Ticket) (w : World) : World :=
  mkWorld (put (escalated (clock w) t) (tickets w))
          (users w)
          (notifications w ++
             map (escalationNotice (clock w) t) (List.filter activeAdmin (users w)))
          (console w ++ [Log ("Ticket " ++ _id t ++ " escalated successfully")%string])
          (clock w) (random w).

(** The two criteria of the escalation policy, as the spec words them. *)
Definition unassignedAndStale (now : Date) (t : Ticket) : Prop :=
  status t = "open" /\ assignedTo t = None /\ createdAt t < now - 24 * hour.

Definition staleHighPriority (now : Date) (t : Ticket) : Prop :=
  (status t = "open" \/ status t = "in_progress") /\
  (priority t = "high" \/ priority t = "urgent") /\
  updatedAt t < now - 4 * hour.

(** A ticket that either query of [checkEscalations] returns. *)
Definition qualifies (now : Date) (t : Ticket) : bool :=
  unassignedFilter now t || staleHighPriorityFilter now t.

(** The tickets a pass escalates, in the order it does. *)
Definition escalatedTickets (now : Date) (ts : list Ticket) : list Ticket :=
  List.filter (unassignedFilter now) ts ++
  List.filter (fun t => staleHighPriorityFilter now t && negb (unassignedFilter now t)) ts.

End Escalation.

(** ** Concrete tickets, users and worlds used by the examples below

    Times are milliseconds; [T0] is a fixed instant. *)

Module Scenario.
Import Mongoose NotificationService SLAService WorkflowService TicketRoutes.

Definition T0 : Date := 1700000000000.

(** The world a call leaves, and the stored ticket of an id in it. *)
Definition after {A : Type} (m : Async A) (w : World) : World := world_of (m w).

Definition stored (id : ObjectId) (w : World) : option Ticket := lookup id (tickets w).

Definition alice : User := mkUser "u-alice" "user" true [].
Definition bob : User := mkUser "u-bob" "agent" true ["technical"].
Definition root : User := mkUser "u-root" "admin" true [].
Definition carol : User := mkUser "u-carol" "admin" true [].

(** A ticket of alice, as POST /api/tickets leaves it at [created]. *)
Definition ticketAt (id : ObjectId) (created : Date) (priority_ : string) : Ticket :=
  newTicket id created "Printer on fire" "The printer is on fire again" "general"
    priority_ [] (u_id alice).

Definition emptyWorld (now : Date) : World :=
  mkWorld [] [alice; bob; root; carol] [] [] now [].

Definition worldWith (ts : list Ticket) (now : Date) : World :=
  mkWorld ts [alice; bob; root; carol] [] [] now [].

(** A cancelled ticket of alice, due 72 hours after [T0]. *)
Definition cancelledTicket : Ticket :=
  with_status "cancelled" (ticketAt "t-1" T0 "medium").

(** One open ticket of alice, of medium priority, created at [T0]; the clock
    reads one hour later. *)
Definition oneTicket : World := worldWith [ticketAt "t-1" T0 "medium"] (T0 + hour).

Definition emptyPatch (expected : Z) : PatchBody :=
  mkPatchBody None None None None None None expected.

(** PATCH bodies: a new title, and a new priority, both with version 0. *)
Definition retitle : PatchBody :=
  mkPatchBody (Some "Printer still on fire") None None None None None 0.

Definition makeUrgent : PatchBody :=
  mkPatchBody None None None (Some "urgent") None None 0.

(** The same edits with a version that is not the stored one. *)
Definition staleRetitle : PatchBody :=
  mkPatchBody (Some "Printer still on fire") None None None None None 3.

(** A custom rule whose only action is [change_priority] to urgent. *)
Definition bumpRule : RuleData :=
  mkRuleData "bump" (Some "ticket_updated") []
    [mkAction "change_priority" "urgent" EmptyString EmptyString EmptyString] None.

(** POST bodies: an urgent ticket, and one that names no priority. *)
Definition urgentPost : PostBody :=
  mkPostBody "Printer on fire" "The printer is on fire again" "general" (Some "urgent") None.

Definition plainPost : PostBody :=
  mkPostBody "Printer on fire" "The printer is on fire again" "general" None None.

(** Two custom rules for tickets of high priority: the first notifies the
    creator, the second adds the tag [vip]. *)
Definition highPriority : list Condition :=
  [mkCondition "priority" "equals" (VStr "high")].

Definition notifyRule : RuleData :=
  mkRuleData "notify_creator" (Some "ticket_updated") highPriority
    [mkAction "send_notification" EmptyString "ticket_creator" "High priority"
       "Your ticket is now of high priority."] None.

Definition tagRule : RuleData :=
  mkRuleData "tag_vip" (Some "ticket_updated") highPriority
    [mkAction "add_tag" "vip" EmptyString EmptyString EmptyString] None.

(** One open ticket of alice, of high priority. *)
Definition highTicket : Ticket := ticketAt "t-1" T0 "high".
Definition oneHighTicket : World := worldWith [highTicket] (T0 + hour).

(** Two open tickets due 90 minutes after [T0]; the creator of the first
    has no user document, the second is alice's. *)
Definition orphanTicket : Ticket :=
  newTicket "t-1" (T0 - 72 * hour + 90 * 60 * 1000) "Lost and found"
    "Nobody owns this ticket any more" "general" "medium" [] "u-ghost".
Definition dueSoon : Ticket := ticketAt "t-2" (T0 - 72 * hour + 90 * 60 * 1000) "medium".
Definition orphanFirst : World := worldWith [orphanTicket; dueSoon] T0.

Definition minutes (n : Z) : Z := n * 60 * 1000.

(** The number of notifications of a type that a user holds about a ticket. *)
Definition countNotifications (type : string) (user ticket : ObjectId) (w : World) : nat :=
  List.length
    (List.filter
       (fun n => (n_type n =? type)%string && (n_user n =? user)%string &&
                 opt_eqb (n_ticket n) (Some ticket))
       (notifications w)).

(** Alice's ticket [t-2], due 90 minutes after [T0], is scanned at [T0]. *)
Definition firstScan : World := after checkSLAStatus (worldWith [dueSoon] T0).

(** Five minutes later alice files another ticket, [t-3], and is notified
    of its creation. *)
Definition thenAnotherTicket : World :=
  after (postTicket alice "t-3" plainPost) (with_clock (T0 + minutes 5) firstScan).

(** The next scan, ten minutes after the first. *)
Definition secondScan : World :=
  after checkSLAStatus (with_clock (T0 + minutes 10) thenAnotherTicket).

(** The same second scan when nothing happened in between. *)
Definition quietSecondScan : World :=
  after checkSLAStatus (with_clock (T0 + minutes 10) firstScan).

(** A ticket of alice that breached its due date an hour before [T0]. *)
Definition overdue : Ticket := ticketAt "t-4" (T0 - 73 * hour) "medium".

Definition firstBreachScan : World := after checkSLAStatus (worldWith [overdue] T0).

Definition secondBreachScan : World :=
  after checkSLAStatus
    (with_clock (T0 + minutes 15)
       (after (postTicket alice "t-3" plainPost) (with_clock (T0 + minutes 5) firstBreachScan))).

(** An overdue ticket whose creator has no user document, scanned at [T0]
    together with alice's overdue ticket. *)
Definition orphanOverdue : Ticket :=
  newTicket "t-8" (T0 - 73 * hour) "Lost and found"
    "Nobody owns this ticket any more" "general" "medium" [] "u-ghost".
Definition orphanBreach : World := worldWith [orphanOverdue; overdue] T0.

(** An open ticket of alice, of low priority, that nobody was assigned in
    the 25 hours since its creation; a ticket of high priority assigned to
    bob and untouched for 5 hours; and a fresh ticket. *)
Definition neglected : Ticket := ticketAt "t-5" (T0 - 25 * hour) "low".
Definition staleHigh : Ticket :=
  with_assignedTo (Some "u-bob") (ticketAt "t-6" (T0 - 5 * hour) "high").
Definition fresh : Ticket := ticketAt "t-7" (T0 - hour) "medium".
Definition hourlyTick : World := worldWith [neglected; staleHigh; fresh] T0.

End Scenario.

(** * The rest of the services and routes

    The functions beside the ones above: the remaining notification helper,
    the counts of the SLA statistics, the rule administration, and the
    routes that cancel a ticket, list the tickets of a user and deactivate a
    user. *)

(** ** [notifyTicketUpdated] (notificationService.js:212-240) *)

Module TicketWatchers.
Import Mongoose NotificationService.

(** The watchers without the user who made the update.  As in
    [notifySLABreach], the [Set] compares the ids by identity and drops none. *)
Definition notifyTicketUpdated (ticket : Ticket) (updatedBy : ObjectId)
    : Async (list Notification) :=
  let uniqueWatchers :=
    List.filter (fun id => negb (id =? updatedBy)%string) (watchers ticket) in
  notifyEach uniqueWatchers "ticket_updated" "Ticket Updated"
    (quoted "Ticket " (title ticket) " has been updated.")
    (mkOptions (Some (_id ticket)) (Some "medium")).

End TicketWatchers.

(** The document [createNotification] builds: [new Notification({ user, type,
    title, message, ticket: options.ticketId, priority: options.priority ||
    'medium' })], stamped with the clock. *)

Module NotificationDoc.
Import NotificationService.

Definition built (userId : ObjectId) (type title_ message : string)
    (options : Options) (now : Date) : Notification :=
  mkNotification userId type title_ message (ticketId options)
    (match o_priority options with
     | Some p => if (p =? EmptyString)%string then "medium" else p
     | None => "medium"
     end)
    now.

End NotificationDoc.

(** The order of a page of notifications: no later entry is newer than an
    earlier one. *)

Module NotificationOrder.

Fixpoint descending (l : list Notification) : Prop :=
  match l with
  | [] => True
  | x :: rest =>
      (forall y, In y rest -> n_createdAt y <= n_createdAt x) /\ descending rest
  end.

End NotificationOrder.

(** ** The counts of [getSLAStats] (lines 641-719 of the service file)

    The [$match] and [$group] stages of the aggregation, and the zeros that
    stand for an empty result.  The percentage the function adds is the
    rounding of a floating-point quotient and is left out. *)

Module SLAStats.
Import Mongoose SLAService.

Record SlaCounts := mkSlaCounts {
  totalTickets : nat;
  onTime : nat;
  breached : nat;
  warning : nat
}.

Definition matched (t : Ticket) : bool :=
  strIn (status t) ["open"; "in_progress"; "resolved"; "closed"].

Definition countsOnTime (now : Date) (t : Ticket) : bool :=
  (status t =? "resolved")%string || (status t =? "closed")%string ||
  (dueDate (sla t) <? now).

Definition countsBreached (now : Date) (t : Ticket) : bool :=
  openOrInProgress t && (dueDate (sla t) <? now).

Definition countsWarning (now : Date) (t : Ticket) : bool :=
  openOrInProgress t && (now <=? dueDate (sla t)) &&
  (dueDate (sla t) <=? now + 2 * 60 * 60 * 1000).

Definition sumIf (p : Ticket -> bool) (ts : list Ticket) : nat :=
  List.length (List.filter p ts).

Definition getSLACounts : Async SlaCounts :=
  now <- Date_now ;;
  ts <- get tickets ;;
  let group := List.filter matched ts in
  ret (mkSlaCounts (List.length group)
         (sumIf (countsOnTime now) group)
         (sumIf (countsBreached now) group)
         (sumIf (countsWarning now) group)).

End SLAStats.

(** ** Rule administration (workflowService.js:242-283, routes/workflow.js) *)

Module WorkflowAdmin.
Import Mongoose WorkflowService.

(** [this.rules.get(name)]. *)
Definition getRule (name : string) (rules : Registry) : option Rule :=
  option_map snd (find (fun nr => (fst nr =? name)%string) rules).

(** The names of the registry, in the order [getRules] lists them. *)
Definition ruleNames (rules : Registry) : list string := map fst rules.

Inductive TestResponse :=
| TestResult (conditionResult wouldExecute : bool)   (* 200 *)
| TestBadRequest                                      (* 400 *)
| TestForbidden                                       (* 403 *)
| RuleNotFound                                        (* 404 *)
| TestError.                                          (* 500 *)

(** [{ ...ticketData, _id: 'test-ticket-id' }]. *)
Definition mockTicket (ticketData : Ticket) : Ticket :=
  mkTicket "test-ticket-id" (title ticketData) (description ticketData)
    (status ticketData) (priority ticketData) (category ticketData)
    (createdBy ticketData) (assignedTo ticketData) (assignedAt ticketData)
    (sla ticketData) (version ticketData) (tags ticketData)
    (internalNotes ticketData) (createdAt ticketData) (updatedAt ticketData).

(** POST /api/workflow/test over [testRule(ruleName, ticketData)]
    (workflowService.js:251-267, routes/workflow.js:70-94), behind
    [authorize('agent', 'admin')]: the condition of the rule is called on the
    ticket data and the action is not.  The error thrown for a name without
    rule is answered 404; calling the condition of a rule that has none
    throws, which is answered 500 like any other error. *)
Definition testRule (user : User) (rules : Registry) (ruleName : string)
    (ticketData : Ticket) : Async TestResponse :=
  if negb (strIn (role user) ["agent"; "admin"]) then ret TestForbidden
  else if (ruleName =? EmptyString)%string then ret TestBadRequest
  else
    match getRule ruleName rules with
    | None =>
        console_log "Test workflow rule error: Error: Rule not found" ;;
        ret RuleNotFound
    | Some rule =>
        match condition rule with
        | None =>
            console_error "Test workflow rule error:"
              (TypeError "rule.condition is not a function") ;;
            ret TestError
        | Some c =>
            tryCatch
              (conditionResult <- c (mockTicket ticketData) ;;
               ret (TestResult conditionResult conditionResult))
              (fun error =>
                 console_error "Test workflow rule error:" error ;; ret TestError)
        end
    end.

(** The text field of a ticket that a condition names, if it names one. *)
Definition textField (field_ : string) (t : Ticket) : option string :=
  if (field_ =? "category")%string then Some (category t)
  else if (field_ =? "priority")%string then Some (priority t)
  else if (field_ =? "status")%string then Some (status t)
  else None.

(** The rule data with another [enabled] flag. *)
Definition withEnabled (flag : option bool) (ruleData : RuleData) : RuleData :=
  mkRuleData (rd_name ruleData) (rd_trigger ruleData) (rd_conditions ruleData)
    (rd_actions ruleData) flag.

End WorkflowAdmin.

(** ** DELETE /api/tickets/:id (lines 401-423 of the routes file) *)

Module TicketCancel.
Import Mongoose.



End TicketCancel.

(** ** The list of GET /api/tickets: filter and pagination (lines 203-277) *)

Module TicketList.
Import Mongoose.

Record ListQuery := mkListQuery {
  l_status : option string;
  l_priority : option string;
  l_category : option string;
  l_assignedTo : option ObjectId;
  l_search : option string
}.

(** [if (v)] on a query parameter: present and not empty. *)
Definition given (v : option string) : option string :=
  match v with
  | Some s => if (s =? EmptyString)%string then None else Some s
  | None => None
  end.

Section Filter.

(** [{ $regex: pattern, $options: 'i' }] on a text, as the store decides it. *)
Variable regexTest : string -> string -> bool.

(** The [$or] of the search: title, description or one of the tags. *)
Definition searchHit (search : string) (t : Ticket) : bool :=
  regexTest search (title t) || regexTest search (description t) ||
  existsb (regexTest search) (tags t).

(** The [$or] an agent gets: assigned to the agent or to nobody. *)
Definition ownOrUnassigned (user : User) (t : Ticket) : bool :=
  match assignedTo t with
  | Some a => (a =? u_id user)%string
  | None => true
  end.

(** The filter object of lines 215-242 as a test on a ticket: its keys
    are [createdBy], [$or], [status], [priority], [category] and
    [assignedTo], all of which a ticket must meet.  The search assigns
    [filter.$or] after the role did, so it replaces what the role put there. *)
Definition listFilter (user : User) (q : ListQuery) (t : Ticket) : bool :=
  let eqIf (v : option string) (x : string) :=
    match given v with Some s => (x =? s)%string | None => true end in
  (if (role user =? "user")%string then (createdBy t =? u_id user)%string else true) &&
  match given (l_search q) with
  | Some search => searchHit search t
  | None =>
      if (role user =? "user")%string then true
      else if (role user =? "agent")%string then ownOrUnassigned user t
      else true
  end &&
  eqIf (l_status q) (status t) &&
  eqIf (l_priority q) (priority t) &&
  eqIf (l_category q) (category t) &&
  match given (l_assignedTo q) with
  | Some a => opt_eqb (assignedTo t) (Some a)
  | None => true
  end.

End Filter.

Record Pagination := mkPagination {
  currentPage : Z;
  totalPages : Z;
  totalItems : Z;
  itemsPerPage : Z;
  hasNext : bool;
  hasPrev : bool
}.

(** The pagination object of the list routes, from the count of the
    matching documents and the page and limit of the query. *)
Definition pagination (total page limit : Z) : Pagination :=
  let totalPages_ := TicketModel.ceil_div total limit in
  mkPagination page totalPages_ total limit (page <? totalPages_) (1 <? page).

End TicketList.

(** ** The user routes that touch tickets and admins *)

Module UserRoutes.
Import Mongoose TicketList.












End UserRoutes.

(** ** Further requests for the examples *)

Module Requests.
Import TicketRoutes.

(** A PATCH body that sets the status, with version 0. *)
Definition reopen : PatchBody :=
  mkPatchBody None None (Some "open") None None None 0.

End Requests.

(** ** Tickets for the examples of the default rules *)

Module RuleExamples.
Import Mongoose WorkflowService TicketRoutes Scenario.





(** A custom rule for tickets created more than two days ago, the number of
    days given as text, and the ticket of high priority three days after its
    creation. *)
Definition agedRule : RuleData :=
  mkRuleData "aged" None [mkCondition "createdAt" "greater_than" (VStr "2")] [] None.

Definition threeDaysLater : World := worldWith [highTicket] (T0 + 3 * day).

End RuleExamples.

(** * Properties *)

(** ** Text and list facts used throughout *)

(** Closed goals: split the conjunctions, then evaluate each side. *)
Ltac conjuncts := intros; repeat match goal with |- _ /\ _ => split end.
Ltac evaluate_both_sides := conjuncts; vm_compute; reflexivity.

Lemma strIn_In (s : string) (l : list string) : strIn s l = true <-> In s l.
Proof.
  unfold strIn. rewrite existsb_exists. split.
  - intros [x [Hin Heq]]. apply String.eqb_eq in Heq. now subst.
  - intros Hin. exists s. split; [assumption | apply String.eqb_refl].
Qed.

(** ** The derived SLA status *)

Section SlaStatus.
Import TicketModel SlaConditions.

Lemma completed_dec (t : Ticket) :
  (String.eqb (status t) "resolved" || String.eqb (status t) "closed") = true
  <-> completedStatus t.
Proof.
  unfold completedStatus. rewrite orb_true_iff, !String.eqb_eq. tauto.
Qed.

Lemma responseLate_dec (now : Date) (t : Ticket) :
  match firstResponseAt (sla t) with
  | Some f => f + responseTime (sla t) * 60 * 60 * 1000 <? now
  | None => false
  end = true <-> responseLate now t.
Proof.
  unfold responseLate, hour. destruct (firstResponseAt (sla t)) as [f|].
  - rewrite Z.ltb_lt. split.
    + intros H. exists f. split; [reflexivity | lia].
    + intros [f' [Hf H]]. injection Hf as <-. lia.
  - split; [discriminate | intros [f' [Hf _]]; discriminate].
Qed.

(** C3: [slaStatus] is the priority-ordered classifier of the spec: resolved
    or closed gives completed; otherwise a first response followed by more
    than the response budget gives response_breach; otherwise a passed due
    date gives resolution_breach; otherwise less than 24 hours to the due
    date gives warning; otherwise on_time. *)
Theorem slaStatus_priority_ordered (now : Date) (t : Ticket) :
  (completedStatus t -> slaStatus now t = "completed") /\
  (~ completedStatus t -> responseLate now t -> slaStatus now t = "response_breach") /\
  (~ completedStatus t -> ~ responseLate now t -> now > dueDate (sla t) ->
     slaStatus now t = "resolution_breach") /\
  (~ completedStatus t -> ~ responseLate now t -> ~ now > dueDate (sla t) ->
     now > dueDate (sla t) - 24 * hour -> slaStatus now t = "warning") /\
  (~ completedStatus t -> ~ responseLate now t -> ~ now > dueDate (sla t) ->
     ~ now > dueDate (sla t) - 24 * hour -> slaStatus now t = "on_time").
Proof.
  unfold slaStatus.
  destruct (String.eqb (status t) "resolved" || String.eqb (status t) "closed") eqn:Hc.
  - apply completed_dec in Hc. repeat split; intros; try reflexivity; contradiction.
  - assert (Hnc : ~ completedStatus t)
      by (intros H; apply completed_dec in H; congruence).
    destruct (match firstResponseAt (sla t) with
              | Some f => f + responseTime (sla t) * 60 * 60 * 1000 <? now
              | None => false
              end) eqn:Hr.
    + apply responseLate_dec in Hr.
      repeat split; intros; try reflexivity; contradiction.
    + assert (Hnr : ~ responseLate now t)
        by (intros H; apply responseLate_dec in H; congruence).
      unfold hour.
      destruct (dueDate (sla t) <? now) eqn:Hd;
        [apply Z.ltb_lt in Hd | apply Z.ltb_ge in Hd];
        (destruct (dueDate (sla t) - 24 * 60 * 60 * 1000 <? now) eqn:Hw;
           [apply Z.ltb_lt in Hw | apply Z.ltb_ge in Hw]);
        repeat split; intros; try reflexivity; try contradiction; lia.
Qed.

End SlaStatus.

(** The four cases the spec lists for an open ticket read at [now]. *)
Lemma slaStatus_spec_examples :
  let now := Scenario.T0 in
  let due (d : Date) := with_sla (with_dueDate d (sla (Scenario.ticketAt "t-1" 0 "medium")))
                          (Scenario.ticketAt "t-1" 0 "medium") in
  TicketModel.slaStatus now (due (now - hour)) = "resolution_breach" /\
  TicketModel.slaStatus now (due (now + 30 * 60 * 1000)) = "warning" /\
  TicketModel.slaStatus now (due (now + 48 * hour)) = "on_time" /\
  TicketModel.slaStatus now (with_status "closed" (due (now - hour))) = "completed".
Proof. evaluate_both_sides. Qed.

Lemma slaStatus_priority_ordered_witness :
  TicketModel.slaStatus (Scenario.T0 + 73 * hour) (Scenario.ticketAt "t-1" Scenario.T0 "medium")
  = "resolution_breach".
Proof.
  apply (slaStatus_priority_ordered (Scenario.T0 + 73 * hour)
           (Scenario.ticketAt "t-1" Scenario.T0 "medium")).
  - simpl. intros [H | H]; discriminate H.
  - simpl. intros [f [H _]]. discriminate H.
  - vm_compute. reflexivity.
Defined.

(** ** Terminal states *)

(** C9, as amended: a ticket whose status is resolved or closed has the SLA
    status completed and no time remaining. *)
Theorem resolved_or_closed_frozen (now : Date) (t : Ticket) :
  status t = "resolved" \/ status t = "closed" ->
  TicketModel.slaStatus now t = "completed" /\ TicketModel.timeRemaining now t = None.
Proof.
  intros H. unfold TicketModel.slaStatus, TicketModel.timeRemaining.
  destruct H as [-> | ->]; split; reflexivity.
Qed.

Lemma resolved_or_closed_frozen_witness :
  TicketModel.slaStatus (Scenario.T0 + 100 * hour)
    (with_status "closed" (Scenario.ticketAt "t-1" Scenario.T0 "medium")) = "completed" /\
  TicketModel.timeRemaining (Scenario.T0 + 100 * hour)
    (with_status "closed" (Scenario.ticketAt "t-1" Scenario.T0 "medium")) = None.
Proof.
  apply (resolved_or_closed_frozen (Scenario.T0 + 100 * hour)
           (with_status "closed" (Scenario.ticketAt "t-1" Scenario.T0 "medium"))).
  right. reflexivity.
Defined.

(** C9 as stated fails for cancelled: a cancelled ticket past its due date
    reads as a resolution breach with 0 hours remaining, and one still within
    its budget has its remaining hours counted. *)
Lemma cancelled_not_frozen :
  status Scenario.cancelledTicket = "cancelled" /\
  TicketModel.slaStatus (Scenario.T0 + 73 * hour) Scenario.cancelledTicket
    = "resolution_breach" /\
  TicketModel.timeRemaining (Scenario.T0 + 73 * hour) Scenario.cancelledTicket = Some 0 /\
  TicketModel.timeRemaining (Scenario.T0 + hour) Scenario.cancelledTicket = Some 71.
Proof. evaluate_both_sides. Qed.

(** ** The ticket routes *)

Section Patch.
Import Mongoose TicketRoutes.

Lemma applyUpdate_version (now : Date) (b : PatchBody) (t : Ticket) :
  version (applyUpdate now b t) = version t.
Proof.
  unfold applyUpdate.
  destruct (p_title b), (p_description b), (p_status b), (p_priority b),
    (p_assignedTo b), (p_tags b); simpl;
    repeat match goal with
           | |- context [if ?c then _ else _] => destruct c; simpl
           end; reflexivity.
Qed.

Lemma applyUpdate_dueDate (now : Date) (b : PatchBody) (t : Ticket) :
  dueDate (sla (applyUpdate now b t)) = dueDate (sla t).
Proof.
  unfold applyUpdate.
  destruct (p_title b), (p_description b), (p_status b), (p_priority b),
    (p_assignedTo b), (p_tags b); simpl;
    repeat match goal with
           | |- context [if ?c then _ else _] => destruct c; simpl
           end; reflexivity.
Qed.

Lemma applyUpdate_createdAt (now : Date) (b : PatchBody) (t : Ticket) :
  createdAt (applyUpdate now b t) = createdAt t.
Proof.
  unfold applyUpdate.
  destruct (p_title b), (p_description b), (p_status b), (p_priority b),
    (p_assignedTo b), (p_tags b); simpl;
    repeat match goal with
           | |- context [if ?c then _ else _] => destruct c; simpl
           end; reflexivity.
Qed.

(** What PATCH answers when the ticket exists, branch by branch. *)
Lemma patchTicket_found (w : World) (user : User) (id : ObjectId) (b : PatchBody)
    (t : Ticket) :
  lookup id (tickets w) = Some t ->
  patchTicket user id b w =
    if negb (canAccess user t) then Ok Forbidden w
    else if negb (validPatch b) then Ok BadRequest w
    else if negb (TicketModel.canBeModified t (role user) (u_id user)) then Ok Forbidden w
    else if negb (version t =? p_version b) then Ok (Conflict (version t)) w
    else if negb (updateValid b) then
      Ok ServerError
         (with_console (console w ++ [LogError "Update ticket error:" (ValidationError "tags")]) w)
    else
      Ok (Updated (applyUpdate (clock w) b t))
         (with_tickets (put (applyUpdate (clock w) b t) (tickets w)) w).
Proof.
  intros Hfind. unfold patchTicket, bind, Ticket_findById. rewrite Hfind. simpl.
  destruct (canAccess user t); simpl; [| reflexivity].
  unfold tryCatch.
  destruct (validPatch b); simpl; [| reflexivity].
  destruct (TicketModel.canBeModified t (role user) (u_id user)); simpl; [| reflexivity].
  destruct (version t =? p_version b); simpl; [| reflexivity].
  destruct (updateValid b); simpl; reflexivity.
Qed.

(** A successful PATCH leaves the version and the due date of the ticket as
    they were. *)
Lemma patchTicket_keeps_version_and_dueDate (w w' : World) (user : User) (id : ObjectId)
    (b : PatchBody) (t t' : Ticket) :
  lookup id (tickets w) = Some t ->
  patchTicket user id b w = Ok (Updated t') w' ->
  version t' = version t /\ dueDate (sla t') = dueDate (sla t) /\ createdAt t' = createdAt t.
Proof.
  intros Hfind Hrun. rewrite (patchTicket_found w user id b t Hfind) in Hrun.
  repeat match type of Hrun with
         | (if ?c then _ else _) = _ => destruct c; try discriminate Hrun
         end.
  injection Hrun as <- _.
  auto using applyUpdate_version, applyUpdate_dueDate, applyUpdate_createdAt.
Qed.

(** C4: a PATCH whose version is not the stored one changes nothing and is
    not answered as an update; once past the validators and the permission
    checks of the route it is answered 409 with the current version. *)
Theorem stale_version_conflict (w : World) (user : User) (id : ObjectId) (b : PatchBody)
    (t : Ticket) :
  lookup id (tickets w) = Some t ->
  p_version b <> version t ->
  (exists r, patchTicket user id b w = Ok r w /\ statusCode r <> 200) /\
  (canAccess user t = true -> validPatch b = true ->
   TicketModel.canBeModified t (role user) (u_id user) = true ->
   patchTicket user id b w = Ok (Conflict (version t)) w /\
   statusCode (Conflict (version t)) = 409).
Proof.
  intros Hfind Hstale. rewrite (patchTicket_found w user id b t Hfind).
  assert (Hneq : (version t =? p_version b) = false) by (apply Z.eqb_neq; congruence).
  rewrite Hneq. simpl. split.
  - destruct (canAccess user t); simpl; [| eexists; split; [reflexivity | discriminate]].
    destruct (validPatch b); simpl; [| eexists; split; [reflexivity | discriminate]].
    destruct (TicketModel.canBeModified t (role user) (u_id user)); simpl;
      eexists; (split; [reflexivity | discriminate]).
  - intros -> -> ->. simpl. split; reflexivity.
Qed.

End Patch.

Lemma stale_version_conflict_witness :
  TicketRoutes.patchTicket Scenario.root "t-1" Scenario.staleRetitle Scenario.oneTicket
  = Ok (TicketRoutes.Conflict 0) Scenario.oneTicket.
Proof.
  apply (stale_version_conflict Scenario.oneTicket Scenario.root "t-1" Scenario.staleRetitle
           (Scenario.ticketAt "t-1" Scenario.T0 "medium")).
  - reflexivity.
  - simpl. discriminate.
  - reflexivity.
  - reflexivity.
  - reflexivity.
Defined.

Section Save.
Import Mongoose.


(** [save] on an unmodified document does nothing. *)
Lemma save_unmodified (d : Doc) (w : World) :
  isModified d = false -> save d w = Ok d w.
Proof. unfold save. intros ->. reflexivity. Qed.

(** A save that returns has added one to the version of a modified document
    and none to an unmodified one. *)
Lemma save_version (d d' : Doc) (w w' : World) :
  save d w = Ok d' w' ->
  version (data d') = version (data d) + (if isModified d then 1 else 0).
Proof.
  unfold save. destruct (isModified d).
  - destruct (invalidPath d); [discriminate |].
    intros H. injection H as <- _. simpl. reflexivity.
  - intros H. injection H as <- _. lia.
Qed.

(** A save leaves the due date and the creation time of the document. *)
Lemma save_dueDate (d d' : Doc) (w w' : World) :
  save d w = Ok d' w' ->
  dueDate (sla (data d')) = dueDate (sla (data d)) /\ createdAt (data d') = createdAt (data d).
Proof.
  unfold save. destruct (isModified d).
  - destruct (invalidPath d); [discriminate |].
    intros H. injection H as <- _. split; reflexivity.
  - intros H. injection H as <- _. split; reflexivity.
Qed.

(** The [change_priority] action of a workflow rule assigns the priority
    and saves: the due date of the document stays what it was. *)
Lemma change_priority_keeps_dueDate (a : WorkflowService.Action) (d d' : Doc) (w w' : World) :
  WorkflowService.a_type a = "change_priority" ->
  WorkflowService.runAction a d w = Ok d' w' ->
  dueDate (sla (data d')) = dueDate (sla (data d)).
Proof.
  intros Htype. unfold WorkflowService.runAction. rewrite Htype. cbn [String.eqb Ascii.eqb Bool.eqb].
  intros Hrun. apply save_dueDate in Hrun. destruct Hrun as [-> _].
  unfold set_priority. destruct (priority (data d) =? WorkflowService.a_value a)%string;
    reflexivity.
Qed.

End Save.

Section Post.
Import Mongoose NotificationService TicketRoutes.

(** What POST creates: an open ticket of version 0, of the priority asked
    for or medium, due 72 hours after the clock, whatever the priority. *)
Lemma postTicket_created (w w' : World) (user : User) (newId : ObjectId) (b : PostBody)
    (t : Ticket) :
  postTicket user newId b w = Ok (Created t) w' ->
  status t = "open" /\
  priority t = match b_priority b with Some p => p | None => "medium" end /\
  version t = 0 /\
  createdAt t = clock w /\
  dueDate (sla t) = createdAt t + 72 * hour.
Proof.
  unfold postTicket, tryCatch, bind. destruct (validPost b); simpl; [| discriminate].
  unfold Date_now, get, insert.
  match goal with
  | |- context [notifyTicketCreated ?tk ?wk] => destruct (notifyTicketCreated tk wk)
  end; simpl; [| discriminate].
  intros H. injection H as <- _. simpl. unfold hour. repeat split; lia.
Qed.

End Post.

(** ** Where the code departs from its documentation *)

Section Departures.
Import Mongoose NotificationService SLAService WorkflowService TicketRoutes Scenario.

(** C2 at a failing input: an urgent ticket and a ticket of the default,
    medium priority, both posted at [T0], are open, of version 0, and due 72
    hours later, where the priority table of [calculateSLADueDate] gives 2
    and 24 hours. *)
Theorem created_ticket_due_in_72_hours :
  (exists t w',
     postTicket alice "t-9" urgentPost (emptyWorld T0) = Ok (Created t) w' /\
     stored "t-9" w' = Some t /\
     status t = "open" /\ priority t = "urgent" /\ version t = 0 /\
     createdAt t = T0 /\
     dueDate (sla t) = T0 + 72 * hour /\
     calculateSLADueDate (priority t) (createdAt t) = Some (T0 + 2 * hour)) /\
  (exists t w',
     postTicket alice "t-9" plainPost (emptyWorld T0) = Ok (Created t) w' /\
     status t = "open" /\ priority t = "medium" /\
     dueDate (sla t) = T0 + 72 * hour /\
     calculateSLADueDate (priority t) (createdAt t) = Some (T0 + 24 * hour)).
Proof.
  split; eexists; eexists; (split; [vm_compute; reflexivity |]);
    evaluate_both_sides.
Qed.

(** C1 at a failing input: the medium ticket created at [T0] is made urgent
    one hour later, once by PATCH and once by the [change_priority] action of
    a workflow rule.  Both store the new priority and leave the due date at
    [T0] plus 72 hours; [updateTicketSLA], which nothing calls, is the code
    that recomputes it from [createdAt], to [T0] plus 2 hours. *)
Theorem priority_change_keeps_dueDate :
  let t := ticketAt "t-1" T0 "medium" in
  let patched := after (patchTicket root "t-1" makeUrgent) oneTicket in
  let ruled :=
    after (executeRules (createCustomRule bumpRule []) (loaded t) "ticket_updated")
          oneTicket in
  let recomputed := after (updateTicketSLA "t-1" "urgent") oneTicket in
  option_map priority (stored "t-1" patched) = Some "urgent" /\
  option_map (fun x => dueDate (sla x)) (stored "t-1" patched) = Some (T0 + 72 * hour) /\
  option_map priority (stored "t-1" ruled) = Some "urgent" /\
  option_map (fun x => dueDate (sla x)) (stored "t-1" ruled) = Some (T0 + 72 * hour) /\
  calculateSLADueDate "urgent" (createdAt t) = Some (T0 + 2 * hour) /\
  option_map priority (stored "t-1" recomputed) = Some "urgent" /\
  option_map (fun x => dueDate (sla x)) (stored "t-1" recomputed) = Some (T0 + 2 * hour).
Proof. evaluate_both_sides. Qed.

(** C5 at a failing input: the ticket is created with version 0; a PATCH
    that supplies version 0 succeeds and stores the new title, and the
    stored version is still 0, so a second PATCH with the same version 0 is
    accepted as well.  The documents written through [save] do count: the
    rule above leaves version 1. *)
Theorem patch_leaves_version :
  let first := after (patchTicket root "t-1" retitle) oneTicket in
  let second := after (patchTicket root "t-1" makeUrgent) first in
  let ruled :=
    after (executeRules (createCustomRule bumpRule [])
             (loaded (ticketAt "t-1" T0 "medium")) "ticket_updated") oneTicket in
  option_map version (stored "t-1" oneTicket) = Some 0 /\
  (exists t', patchTicket root "t-1" retitle oneTicket = Ok (Updated t') first /\
              title t' = "Printer still on fire" /\ version t' = 0) /\
  option_map title (stored "t-1" first) = Some "Printer still on fire" /\
  option_map version (stored "t-1" first) = Some 0 /\
  (exists t'', patchTicket root "t-1" makeUrgent first = Ok (Updated t'') second) /\
  option_map version (stored "t-1" second) = Some 0 /\
  option_map version (stored "t-1" ruled) = Some 1.
Proof.
  conjuncts; try (vm_compute; reflexivity);
    eexists; conjuncts; vm_compute; reflexivity.
Qed.

End Departures.

(** ** The workflow engine: triggers *)

Section Triggers.
Import Mongoose WorkflowService.



(** A rule that names a trigger is passed over under any other trigger. *)
Lemma runRule_other_trigger (name t : string) (rule : Rule) (trigger_ : string) (ticket : Doc) :
  trigger rule = Some t -> t <> EmptyString -> t <> trigger_ ->
  runRule trigger_ (name, rule) ticket = ret ticket.
Proof.
  intros H Hne Hdiff. unfold runRule, skipped. simpl. rewrite H.
  apply String.eqb_neq in Hne. apply String.eqb_neq in Hdiff.
  rewrite Hne, Hdiff. reflexivity.
Qed.

End Triggers.

(** ** Where errors are caught *)

Section FaultContainment.
Import Mongoose NotificationService SLAService WorkflowService.

Lemma forOf_app {A : Type} (xs ys : list A) (body : A -> Async unit) (w : World) :
  forOf (xs ++ ys) body w =
    match forOf xs body w with
    | Ok _ w1 => forOf ys body w1
    | Throw e w1 => Throw e w1
    end.
Proof.
  revert w. induction xs as [| x xs IH]; intros w; simpl.
  - reflexivity.
  - unfold bind. destruct (body x w) as [[] w1 | e w1]; [apply IH | reflexivity].
Qed.

Lemma runRules_app (rules1 rules2 : Registry) (trigger_ : string) (ticket : Doc) (w : World) :
  runRules (rules1 ++ rules2) trigger_ ticket w =
    match runRules rules1 trigger_ ticket w with
    | Ok ticket1 w1 => runRules rules2 trigger_ ticket1 w1
    | Throw e w1 => Throw e w1
    end.
Proof.
  revert ticket w. induction rules1 as [| entry rules1 IH]; intros ticket w; simpl.
  - reflexivity.
  - unfold bind. destruct (runRule trigger_ entry ticket w) as [ticket1 w1 | e w1];
      [apply IH | reflexivity].
Qed.

(** [executeRules] always returns: what its loop throws, it logs. *)
Lemma executeRules_returns (rules : Registry) (ticket : Doc) (trigger_ : string) (w : World) :
  exists w', executeRules rules ticket trigger_ w = Ok tt w'.
Proof.
  unfold executeRules, tryCatch, bind.
  destruct (runRules rules trigger_ ticket w) as [ticket1 w1 | e w1]; eexists; reflexivity.
Qed.

(** When the rules before a rule complete and that rule throws, the call
    ends in the world of the throw plus one error line: nothing of the rules
    after it takes part. *)
Lemma executeRules_stops_at_throw (before after_ : Registry) (entry : string * Rule)
    (trigger_ : string) (ticket ticket1 : Doc) (w w1 w2 : World) (e : Error) :
  runRules before trigger_ ticket w = Ok ticket1 w1 ->
  runRule trigger_ entry ticket1 w1 = Throw e w2 ->
  executeRules (before ++ entry :: after_) ticket trigger_ w =
    Ok tt (with_console
             (console w2 ++
                [LogError ("Error executing workflow rules for ticket "
                             ++ _id (data ticket) ++ ":")%string e]) w2).
Proof.
  intros Hbefore Hthrow. unfold executeRules, tryCatch, bind.
  rewrite runRules_app, Hbefore. simpl. unfold bind. rewrite Hthrow. reflexivity.
Qed.

(** [escalateTicket] always returns. *)
Lemma escalateTicket_returns (ticket : Doc) (w : World) :
  exists w', escalateTicket ticket w = Ok tt w'.
Proof.
  unfold escalateTicket, tryCatch.
  match goal with
  | |- exists w', match ?body w with _ => _ end = _ => destruct (body w) as [[] w1 | e w1]
  end; eexists; reflexivity.
Qed.

(** So a pass over tickets goes on after each escalation, failed or not. *)
Lemma escalations_continue (ticket : Doc) (rest : list Doc) (w : World) :
  forOf (ticket :: rest) escalateTicket w =
  forOf rest escalateTicket (world_of (escalateTicket ticket w)).
Proof.
  simpl. unfold bind. destruct (escalateTicket_returns ticket w) as [w' ->]. reflexivity.
Qed.

(** [checkSLAStatus] always returns. *)
Lemma checkSLAStatus_returns (w : World) : exists w', checkSLAStatus w = Ok tt w'.
Proof.
  unfold checkSLAStatus, tryCatch.
  match goal with
  | |- exists w', match ?body w with _ => _ end = _ => destruct (body w) as [[] w1 | e w1]
  end; eexists; reflexivity.
Qed.

(** When the handling of a ticket in the warning window throws, the scan
    ends in the world of the throw plus one error line: the tickets after it
    and the breached tickets are not handled. *)
Lemma checkSLAStatus_stops_at_throw (w w1 w2 : World) (before after_ : list Doc)
    (ticket : Doc) (e : Error) :
  map loaded (List.filter (warningFilter (clock w)) (tickets w)) = before ++ ticket :: after_ ->
  forOf before handleSLAWarning w = Ok tt w1 ->
  handleSLAWarning ticket w1 = Throw e w2 ->
  checkSLAStatus w =
    Ok tt (with_console (console w2 ++ [LogError "Error checking SLA status:" e]) w2).
Proof.
  intros Hlist Hbefore Hthrow.
  unfold checkSLAStatus, tryCatch, bind, Date_now, get, Ticket_find.
  rewrite Hlist, forOf_app, Hbefore. simpl. unfold bind. rewrite Hthrow. reflexivity.
Qed.

(** The same for a breached ticket, once the warnings are through. *)
Lemma checkSLAStatus_stops_at_breach_throw (w w1 w2 w3 : World) (before after_ : list Doc)
    (ticket : Doc) (e : Error) :
  forOf (map loaded (List.filter (warningFilter (clock w)) (tickets w))) handleSLAWarning w
    = Ok tt w1 ->
  map loaded (List.filter (breachedFilter (clock w)) (tickets w1))
    = before ++ ticket :: after_ ->
  forOf before handleSLABreach w1 = Ok tt w2 ->
  handleSLABreach ticket w2 = Throw e w3 ->
  checkSLAStatus w =
    Ok tt (with_console (console w3 ++ [LogError "Error checking SLA status:" e]) w3).
Proof.
  intros Hwarn Hlist Hbefore Hthrow.
  unfold checkSLAStatus, tryCatch.
  unfold bind at 1. unfold Date_now, get. cbv beta iota.
  unfold bind at 1. unfold Ticket_find at 1. cbv beta iota.
  unfold bind at 1. rewrite Hwarn. cbv beta iota.
  unfold bind at 1. unfold Ticket_find. cbv beta iota.
  rewrite Hlist, forOf_app, Hbefore. simpl. unfold bind. rewrite Hthrow. reflexivity.
Qed.

(** C6, as amended: errors are contained per call, not per item.
    [executeRules] and [checkSLAStatus] always return, having logged what
    their loops threw; a rule that throws ends the call, so the rules after
    it are not run, and a ticket whose handling throws ends the scan.  Only
    [escalateTicket] catches its own errors, so a pass over tickets goes on
    to the next ticket after an escalation that failed. *)
Theorem errors_caught_around_the_loop :
  (forall (rules : Registry) (ticket : Doc) (trigger_ : string) (w : World),
     exists w', executeRules rules ticket trigger_ w = Ok tt w') /\
  (forall (before after_ : Registry) (entry : string * Rule) (trigger_ : string)
          (ticket ticket1 : Doc) (w w1 w2 : World) (e : Error),
     runRules before trigger_ ticket w = Ok ticket1 w1 ->
     runRule trigger_ entry ticket1 w1 = Throw e w2 ->
     executeRules (before ++ entry :: after_) ticket trigger_ w =
       Ok tt (with_console
                (console w2 ++
                   [LogError ("Error executing workflow rules for ticket "
                                ++ _id (data ticket) ++ ":")%string e]) w2)) /\
  (forall w : World, exists w', checkSLAStatus w = Ok tt w') /\
  (forall (w w1 w2 : World) (before after_ : list Doc) (ticket : Doc) (e : Error),
     map loaded (List.filter (warningFilter (clock w)) (tickets w))
       = before ++ ticket :: after_ ->
     forOf before handleSLAWarning w = Ok tt w1 ->
     handleSLAWarning ticket w1 = Throw e w2 ->
     checkSLAStatus w =
       Ok tt (with_console (console w2 ++ [LogError "Error checking SLA status:" e]) w2)) /\
  (forall (w w1 w2 w3 : World) (before after_ : list Doc) (ticket : Doc) (e : Error),
     forOf (map loaded (List.filter (warningFilter (clock w)) (tickets w)))
           handleSLAWarning w = Ok tt w1 ->
     map loaded (List.filter (breachedFilter (clock w)) (tickets w1))
       = before ++ ticket :: after_ ->
     forOf before handleSLABreach w1 = Ok tt w2 ->
     handleSLABreach ticket w2 = Throw e w3 ->
     checkSLAStatus w =
       Ok tt (with_console (console w3 ++ [LogError "Error checking SLA status:" e]) w3)) /\
  (forall (ticket : Doc) (w : World), exists w', escalateTicket ticket w = Ok tt w') /\
  (forall (ticket : Doc) (rest : list Doc) (w : World),
     forOf (ticket :: rest) escalateTicket w =
     forOf rest escalateTicket (world_of (escalateTicket ticket w))).
Proof.
  split; [exact executeRules_returns |].
  split; [exact executeRules_stops_at_throw |].
  split; [exact checkSLAStatus_returns |].
  split; [exact checkSLAStatus_stops_at_throw |].
  split; [exact checkSLAStatus_stops_at_breach_throw |].
  split; [exact escalateTicket_returns | exact escalations_continue].
Qed.

End FaultContainment.

Section FaultExamples.
Import Mongoose NotificationService SLAService WorkflowService Scenario.

(** The failing rule and the failing ticket of the examples, under the
    theorem: the rule that notifies the creator throws (its notification
    type is not one of the schema), and so does the handling of the ticket
    whose creator has no user document. *)
Lemma errors_caught_around_the_loop_witness :
  executeRules (initializeDefaultRules ++ customRuleEntry notifyRule :: [customRuleEntry tagRule])
    (loaded highTicket) "ticket_updated" oneHighTicket
  = Ok tt (with_console
             [Log "Executing workflow rule: notify_creator";
              LogError "Error executing workflow rules for ticket t-1:" (ValidationError "type")]
             oneHighTicket) /\
  checkSLAStatus orphanFirst
  = Ok tt (with_console
             [LogError "Error checking SLA status:"
                (TypeError "Cannot read properties of null (reading 'preferences')")]
             (after (handleSLAWarning (loaded orphanTicket)) orphanFirst)) /\
  checkSLAStatus orphanBreach
  = Ok tt (with_console
             [LogError "Error checking SLA status:"
                (TypeError "Cannot read properties of null (reading 'preferences')")]
             (after (handleSLABreach (loaded orphanOverdue)) orphanBreach)).
Proof.
  split; [| split].
  - apply (proj1 (proj2 errors_caught_around_the_loop)
             initializeDefaultRules [customRuleEntry tagRule] (customRuleEntry notifyRule)
             "ticket_updated" (loaded highTicket) (loaded highTicket)
             oneHighTicket oneHighTicket
             (with_console [Log "Executing workflow rule: notify_creator"] oneHighTicket)
             (ValidationError "type")).
    + vm_compute. reflexivity.
    + vm_compute. reflexivity.
  - apply (proj1 (proj2 (proj2 (proj2 errors_caught_around_the_loop)))
             orphanFirst orphanFirst
             (after (handleSLAWarning (loaded orphanTicket)) orphanFirst)
             [] [loaded dueSoon] (loaded orphanTicket)
             (TypeError "Cannot read properties of null (reading 'preferences')")).
    + vm_compute. reflexivity.
    + reflexivity.
    + vm_compute. reflexivity.
  - apply (proj1 (proj2 (proj2 (proj2 (proj2 errors_caught_around_the_loop))))
             orphanBreach orphanBreach orphanBreach
             (after (handleSLABreach (loaded orphanOverdue)) orphanBreach)
             [] [loaded overdue] (loaded orphanOverdue)
             (TypeError "Cannot read properties of null (reading 'preferences')")).
    + vm_compute. reflexivity.
    + vm_compute. reflexivity.
    + reflexivity.
    + vm_compute. reflexivity.
Defined.

(** C6 as stated fails.  With the rule that notifies the creator registered
    before it, the rule that tags the ticket does not run on a ticket of high
    priority: the stored ticket has no tag and the console shows the first
    rule and one error; registered without it, the same rule tags the ticket.
    In a scan, the ticket whose creator has no user document ends the scan:
    alice's ticket, next in the warning window, gets no warning, which it gets
    when it is alone. *)
Lemma later_items_not_run :
  let both := createCustomRule tagRule (createCustomRule notifyRule initializeDefaultRules) in
  let alone := createCustomRule tagRule initializeDefaultRules in
  let run rules :=
    after (executeRules rules (loaded highTicket) "ticket_updated") oneHighTicket in
  option_map tags (stored "t-1" (run alone)) = Some ["vip"] /\
  option_map tags (stored "t-1" (run both)) = Some [] /\
  console (run both) =
    [Log "Executing workflow rule: notify_creator";
     LogError "Error executing workflow rules for ticket t-1:" (ValidationError "type")] /\
  map n_ticket (notifications (after checkSLAStatus (worldWith [dueSoon] T0)))
    = [Some "t-2"] /\
  map n_ticket (notifications (after checkSLAStatus orphanFirst)) = [Some "t-1"] /\
  console (after checkSLAStatus orphanFirst) =
    [LogError "Error checking SLA status:"
       (TypeError "Cannot read properties of null (reading 'preferences')")].
Proof. evaluate_both_sides. Qed.

End FaultExamples.

(** ** De-duplication of the SLA notifications *)

Section Dedup.
Import Mongoose NotificationService SLAService TicketRoutes Scenario.

(** C7 at a failing input.  Alice's ticket is in the warning window at the
    scan of [T0] and she is warned once.  When nothing else reaches her, the
    scan ten minutes later adds no warning; but when she files another ticket
    in between, the creation notice is her latest notification, the scan does
    not see the warning under it, and warns her again: two warnings for the
    same ticket ten minutes apart.  The breach notification repeats in the
    same way, 15 minutes after the first, and the ticket is escalated twice.
    Called 90 minutes after the first warning, the handler warns again. *)
Theorem warning_repeated_within_the_hour :
  countNotifications "sla_warning" "u-alice" "t-2" firstScan = 1%nat /\
  countNotifications "sla_warning" "u-alice" "t-2" quietSecondScan = 1%nat /\
  countNotifications "sla_warning" "u-alice" "t-2" secondScan = 2%nat /\
  map n_createdAt
      (List.filter (fun n => (n_type n =? "sla_warning")%string) (notifications secondScan))
    = [T0; T0 + minutes 10] /\
  countNotifications "sla_breach" "u-alice" "t-4" firstBreachScan = 1%nat /\
  countNotifications "sla_breach" "u-alice" "t-4" secondBreachScan = 2%nat /\
  option_map (fun t => List.length (internalNotes t)) (stored "t-4" secondBreachScan)
    = Some 2%nat /\
  countNotifications "sla_warning" "u-alice" "t-2"
    (after (handleSLAWarning (loaded dueSoon)) (with_clock (T0 + minutes 90) firstScan))
    = 2%nat.
Proof. evaluate_both_sides. Qed.

End Dedup.

(** ** The hourly escalation pass *)

Section EscalationPass.
Import Mongoose NotificationService SLAService Escalation.

Lemma length_append (a b : string) :
  String.length (a ++ b) = (String.length a + String.length b)%nat.
Proof. induction a as [| c a IH]; simpl; [reflexivity | now rewrite IH]. Qed.

(** The notice of an escalation passes the validators of the schema when
    the title of the ticket is within its 200 characters. *)
Lemma escalationNotice_valid (now : Date) (t : Ticket) (admin : User) :
  (String.length (title t) <= 200)%nat ->
  invalidNotification (escalationNotice now t admin) = None.
Proof.
  intros Hlen. unfold invalidNotification, escalationNotice, requiredMax, quoted. simpl.
  rewrite !length_append. simpl.
  match goal with
  | |- context [(?n <=? ?m)%nat] => replace (n <=? m)%nat with true
  end; [reflexivity |].
  symmetry. apply Nat.leb_le. lia.
Qed.

Lemma find_user (us : list User) (admin : User) :
  In admin us ->
  exists u, find (fun u => (u_id u =? u_id admin)%string) us = Some u.
Proof.
  intros Hin.
  destruct (find (fun u => (u_id u =? u_id admin)%string) us) as [u |] eqn:Hfind.
  - now exists u.
  - apply (find_none _ _ Hfind) in Hin. rewrite String.eqb_refl in Hin. discriminate.
Qed.

(** Each admin of a list of users of the world receives the notice. *)
Lemma notify_admins (t : Ticket) (admins : list User) (w : World) :
  (String.length (title t) <= 200)%nat ->
  (forall admin, In admin admins -> In admin (users w)) ->
  forOf admins (fun admin =>
      createNotification (u_id admin) "ticket_escalated" "Ticket Escalated"
        (quoted "Ticket " (title t) " has been escalated due to SLA breach or inactivity.")
        (mkOptions (Some (_id t)) (Some "urgent")) ;;
      ret tt) w
  = Ok tt (with_notifications
             (notifications w ++ map (escalationNotice (clock w) t) admins) w).
Proof.
  intros Hlen. revert w. induction admins as [| admin admins IH]; intros w Hin.
  - simpl. unfold ret, with_notifications. rewrite app_nil_r. destruct w; reflexivity.
  - cbn [forOf]. unfold bind at 1 2. unfold createNotification at 1.
    unfold bind at 1. unfold Date_now at 1. unfold get at 1.
    change (mkNotification (u_id admin) "ticket_escalated" "Ticket Escalated"
              (quoted "Ticket " (title t)
                 " has been escalated due to SLA breach or inactivity.")
              (ticketId (mkOptions (Some (_id t)) (Some "urgent")))
              (match o_priority (mkOptions (Some (_id t)) (Some "urgent")) with
               | Some p => if (p =? EmptyString)%string then "medium" else p
               | None => "medium"
               end) (clock w))
      with (escalationNotice (clock w) t admin).
    rewrite (escalationNotice_valid (clock w) t admin Hlen).
    unfold bind, get. cbn [users with_notifications].
    destruct (find_user (users w) admin (Hin admin (or_introl eq_refl))) as [u ->].
    unfold ret at 1 2.
    rewrite IH.
    + unfold with_notifications. cbn [notifications tickets users console clock random map].
      rewrite <- app_assoc. reflexivity.
    + intros a Ha. cbn [users]. apply Hin. now right.
Qed.


Lemma put_put (a b : Ticket) (ts : list Ticket) :
  _id a = _id b -> put b (put a ts) = put b ts.
Proof.
  intros Hid. unfold put. rewrite map_map. apply map_ext. intros x.
  destruct (_id x =? _id a)%string eqn:E.
  - rewrite Hid in E. rewrite E. rewrite Hid, String.eqb_refl. reflexivity.
  - reflexivity.
Qed.

Lemma save_note (t : Ticket) (n : InternalNote) (w : World) :
  save (push_internalNote n (loaded t)) w =
    let t' := with_updatedAt (clock w)
                (with_version (version t + 1)
                   (with_internalNotes (internalNotes t ++ [n]) t)) in
    Ok (loaded t') (with_tickets (put t' (tickets w)) w).
Proof. reflexivity. Qed.

Lemma save_urgent (t : Ticket) (w : World) :
  (priority t =? "urgent")%string = false ->
  save (set_priority "urgent" (loaded t)) w =
    let t' := with_updatedAt (clock w)
                (with_version (version t + 1) (with_priority "urgent" t)) in
    Ok (loaded t') (with_tickets (put t' (tickets w)) w).
Proof. intros H. unfold set_priority. cbn [data loaded]. rewrite H. reflexivity. Qed.

Lemma escalateTicket_effect (t : Ticket) (w : World) :
  (String.length (title t) <= 200)%nat ->
  escalateTicket (loaded t) w = Ok tt (escalateWorld t w).
Proof.
  intros Hlen. unfold escalateTicket, tryCatch, escalateWorld, escalated, escalationNote.
  cbn [loaded data].
  destruct (priority t =? "urgent")%string eqn:Hp; cbn [negb].
  - unfold bind at 1. unfold ret at 1. cbv beta iota.
    unfold bind at 1. unfold Date_now, get. cbv beta iota.
    unfold bind at 1. rewrite save_note. cbv beta iota zeta.
    unfold bind at 1. unfold User_find. cbv beta iota.
    unfold bind at 1. rewrite notify_admins;
      [| exact Hlen | intros admin Hin; apply filter_In in Hin; apply Hin].
    reflexivity.
  - unfold bind at 1. rewrite (save_urgent t w Hp). cbv beta iota zeta.
    unfold bind at 1. unfold Date_now, get. cbv beta iota.
    unfold bind at 1. rewrite save_note. cbv beta iota zeta.
    unfold bind at 1. unfold User_find. cbv beta iota.
    unfold bind at 1. rewrite notify_admins;
      [| exact Hlen | intros admin Hin; apply filter_In in Hin; apply Hin].
    unfold console_log.
    cbn [with_tickets with_notifications with_console tickets users notifications console
         clock random title _id version internalNotes data loaded
         with_updatedAt with_version with_priority with_internalNotes].
    rewrite put_put by reflexivity. reflexivity.
Qed.

Lemma escalate_all (ts : list Ticket) (w : World) :
  (forall t, In t ts -> (String.length (title t) <= 200)%nat) ->
  forOf (map loaded ts) escalateTicket w
  = Ok tt (fold_left (fun w t => escalateWorld t w) ts w).
Proof.
  revert w. induction ts as [| t ts IH]; intros w Hlen.
  - reflexivity.
  - cbn [map forOf fold_left]. unfold bind.
    rewrite escalateTicket_effect by (apply Hlen; now left).
    apply IH. intros x Hx. apply Hlen. now right.
Qed.

Lemma escalations_clock (ts : list Ticket) (w : World) :
  clock (fold_left (fun w t => escalateWorld t w) ts w) = clock w.
Proof. revert w. induction ts as [| t ts IH]; intros w; simpl; [| rewrite IH]; reflexivity. Qed.

Lemma escalations_users (ts : list Ticket) (w : World) :
  users (fold_left (fun w t => escalateWorld t w) ts w) = users w.
Proof. revert w. induction ts as [| t ts IH]; intros w; simpl; [| rewrite IH]; reflexivity. Qed.

Lemma escalations_tickets (ts : list Ticket) (w : World) :
  tickets (fold_left (fun w t => escalateWorld t w) ts w)
  = fold_left (fun acc t => put (escalated (clock w) t) acc) ts (tickets w).
Proof. revert w. induction ts as [| t ts IH]; intros w; simpl; [| rewrite IH]; reflexivity. Qed.

Lemma escalations_notifications (ts : list Ticket) (w : World) :
  notifications (fold_left (fun w t => escalateWorld t w) ts w)
  = notifications w ++
    flat_map (fun t => map (escalationNotice (clock w) t) (List.filter activeAdmin (users w))) ts.
Proof.
  revert w. induction ts as [| t ts IH]; intros w; simpl.
  - now rewrite app_nil_r.
  - rewrite IH. simpl. now rewrite app_assoc.
Qed.

Lemma put_absent (u : Ticket) (l : list Ticket) :
  (forall y, In y l -> _id y <> _id u) -> put u l = l.
Proof.
  intros H. unfold put. rewrite <- (map_id l) at 2. apply map_ext_in.
  intros y Hy. apply H in Hy. apply String.eqb_neq in Hy. now rewrite Hy.
Qed.

Lemma put_app (u : Ticket) (a b : list Ticket) : put u (a ++ b) = put u a ++ put u b.
Proof. apply map_app. Qed.

Lemma put_cons (u y : Ticket) (l : list Ticket) :
  put u (y :: l) = (if (_id y =? _id u)%string then u else y) :: put u l.
Proof. reflexivity. Qed.

(** Writing the images by [g] of the tickets that pass [f], one after the
    other, over a store of distinct ids replaces exactly those tickets. *)
Lemma puts_filter (g h : Ticket -> Ticket) (f : Ticket -> bool) (ts pre : list Ticket) :
  (forall t, _id (g t) = _id t) ->
  (forall t, _id (h t) = _id t) ->
  NoDup (map _id ts) ->
  (forall p t, In p pre -> In t ts -> _id p <> _id t) ->
  fold_left (fun acc t => put (g t) acc) (List.filter f ts) (pre ++ map h ts)
  = pre ++ map (fun t => if f t then g t else h t) ts.
Proof.
  intros Hg Hh. revert pre. induction ts as [| x r IH]; intros pre Hnodup Hpre.
  - reflexivity.
  - inversion Hnodup as [| ? ? Hx Hr]; subst.
    assert (Hfresh : forall t, In t r -> _id x <> _id t).
    { intros t Ht Heq. apply Hx. rewrite Heq. now apply in_map. }
    assert (Hnext : forall y : Ticket, _id y = _id x ->
              forall p t, In p (pre ++ [y]) -> In t r -> _id p <> _id t).
    { intros y Hy p t Hp Ht. apply in_app_or in Hp. destruct Hp as [Hp | [<- | []]].
      - apply Hpre; [assumption | now right].
      - rewrite Hy. now apply Hfresh. }
    cbn [List.filter map]. destruct (f x) eqn:Hf.
    + cbn [fold_left].
      replace (put (g x) (pre ++ h x :: map h r)) with ((pre ++ [g x]) ++ map h r).
      * rewrite (IH (pre ++ [g x]) Hr (Hnext (g x) (Hg x))).
        now rewrite <- app_assoc.
      * rewrite put_app, put_cons.
        rewrite (put_absent (g x) pre), (put_absent (g x) (map h r)).
        -- rewrite Hh, Hg, String.eqb_refl. now rewrite <- app_assoc.
        -- intros y Hy. apply in_map_iff in Hy. destruct Hy as [t [<- Ht]].
           rewrite Hh, Hg. intros Heq. now apply (Hfresh t Ht).
        -- intros y Hy. rewrite Hg. apply Hpre; [assumption | now left].
    + replace (pre ++ h x :: map h r) with ((pre ++ [h x]) ++ map h r)
        by now rewrite <- app_assoc.
      rewrite (IH (pre ++ [h x]) Hr (Hnext (h x) (Hh x))).
      now rewrite <- app_assoc.
Qed.

Lemma lookup_map (h : Ticket -> Ticket) (ts : list Ticket) (t : Ticket) :
  (forall x, _id (h x) = _id x) ->
  NoDup (map _id ts) ->
  In t ts ->
  lookup (_id t) (map h ts) = Some (h t).
Proof.
  intros Hh. induction ts as [| x r IH]; intros Hnodup Hin; [destruct Hin |].
  inversion Hnodup as [| ? ? Hx Hr]; subst.
  unfold lookup. cbn [map find]. rewrite Hh.
  destruct (_id x =? _id t)%string eqn:E.
  - destruct Hin as [-> | Hin]; [reflexivity |].
    apply String.eqb_eq in E. exfalso. apply Hx. rewrite E. now apply in_map.
  - destruct Hin as [-> | Hin]; [now rewrite String.eqb_refl in E |].
    now apply IH.
Qed.

Lemma escalated_id (now : Date) (t : Ticket) : _id (escalated now t) = _id t.
Proof. unfold escalated. destruct (priority t =? "urgent")%string; reflexivity. Qed.

Lemma escalated_title (now : Date) (t : Ticket) : title (escalated now t) = title t.
Proof. unfold escalated. destruct (priority t =? "urgent")%string; reflexivity. Qed.

(** A ticket escalated in the first loop was updated now, so the second
    query does not return it; the other tickets are as they were. *)
Lemma second_query (now : Date) (ts : list Ticket) :
  List.filter (staleHighPriorityFilter now)
    (map (fun t => if unassignedFilter now t then escalated now t else t) ts)
  = List.filter (fun t => staleHighPriorityFilter now t && negb (unassignedFilter now t)) ts.
Proof.
  induction ts as [| x r IH]; [reflexivity |].
  cbn [map List.filter]. rewrite IH.
  destruct (unassignedFilter now x) eqn:Hu.
  - assert (Hs : staleHighPriorityFilter now (escalated now x) = false).
    { unfold staleHighPriorityFilter.
      replace (updatedAt (escalated now x) <? now - 4 * 60 * 60 * 1000) with false.
      - apply andb_false_r.
      - symmetry. apply Z.ltb_ge. unfold escalated.
        destruct (priority x =? "urgent")%string; cbn; lia. }
    rewrite Hs, andb_false_r. reflexivity.
  - rewrite andb_true_r. reflexivity.
Qed.

(** What a pass leaves: every qualifying ticket escalated once, the others
    untouched, and one notice per active admin and escalated ticket. *)
Lemma checkEscalations_effect (w : World) :
  NoDup (map _id (tickets w)) ->
  (forall t, In t (tickets w) -> (String.length (title t) <= 200)%nat) ->
  exists w',
    checkEscalations w = Ok tt w' /\
    tickets w' =
      map (fun t => if qualifies (clock w) t then escalated (clock w) t else t) (tickets w) /\
    notifications w' =
      notifications w ++
      flat_map (fun t => map (escalationNotice (clock w) t)
                             (List.filter activeAdmin (users w)))
               (escalatedTickets (clock w) (tickets w)).
Proof.
  intros Hnodup Hlen.
  set (now := clock w). set (ts := tickets w).
  set (first := List.filter (unassignedFilter now) ts).
  set (second := List.filter
                   (fun t => staleHighPriorityFilter now t && negb (unassignedFilter now t)) ts).
  set (w1 := fold_left (fun w t => escalateWorld t w) first w).
  set (w2 := fold_left (fun w t => escalateWorld t w) second w1).
  assert (Hfirst : forall t, In t first -> (String.length (title t) <= 200)%nat).
  { intros t Ht. apply Hlen. apply filter_In in Ht. apply Ht. }
  assert (Hsecond : forall t, In t second -> (String.length (title t) <= 200)%nat).
  { intros t Ht. apply Hlen. apply filter_In in Ht. apply Ht. }
  assert (Ht1 : tickets w1 =
                map (fun t => if unassignedFilter now t then escalated now t else t) ts).
  { unfold w1. rewrite escalations_tickets. fold now. fold ts.
    rewrite <- (map_id ts) at 1.
    apply (puts_filter (escalated now) (fun t => t) (unassignedFilter now) ts []);
      [apply escalated_id | reflexivity | exact Hnodup | intros p t []]. }
  assert (Hc1 : clock w1 = now) by apply escalations_clock.
  assert (Hu1 : users w1 = users w) by apply escalations_users.
  exists w2. split; [| split].
  - unfold checkEscalations, tryCatch.
    unfold bind at 1. unfold Date_now, get. cbv beta iota.
    unfold bind at 1. unfold Ticket_find at 1. cbv beta iota.
    unfold bind at 1. fold now. fold ts. fold first.
    rewrite (escalate_all first w Hfirst). fold w1. cbv beta iota.
    unfold bind at 1. unfold Ticket_find. cbv beta iota.
    rewrite Ht1, second_query. fold second.
    rewrite (escalate_all second w1 Hsecond). reflexivity.
  - unfold w2, second. rewrite escalations_tickets, Hc1, Ht1.
    pose proof (puts_filter (escalated now)
                  (fun t => if unassignedFilter now t then escalated now t else t)
                  (fun t => staleHighPriorityFilter now t && negb (unassignedFilter now t))
                  ts [] (escalated_id now)) as Hputs.
    cbn [app] in Hputs. rewrite Hputs.
    + apply map_ext. intros t. unfold qualifies.
      destruct (unassignedFilter now t), (staleHighPriorityFilter now t); reflexivity.
    + intros t. destruct (unassignedFilter now t); [apply escalated_id | reflexivity].
    + exact Hnodup.
    + intros p t [].
  - unfold w2. rewrite escalations_notifications, Hc1, Hu1.
    unfold w1. rewrite escalations_notifications. fold now.
    unfold escalatedTickets. fold ts. fold first. fold second.
    rewrite flat_map_app, app_assoc. reflexivity.
Qed.

Lemma escalated_priority (now : Date) (t : Ticket) : priority (escalated now t) = "urgent".
Proof.
  unfold escalated. destruct (priority t =? "urgent")%string eqn:E; [| reflexivity].
  apply String.eqb_eq in E. exact E.
Qed.

Lemma escalated_notes (now : Date) (t : Ticket) :
  internalNotes (escalated now t) = internalNotes t ++ [escalationNote now].
Proof. unfold escalated. destruct (priority t =? "urgent")%string; reflexivity. Qed.

Lemma escalated_version (now : Date) (t : Ticket) :
  version (escalated now t)
  = version t + (if (priority t =? "urgent")%string then 1 else 2).
Proof. unfold escalated. destruct (priority t =? "urgent")%string; cbn; lia. Qed.

Lemma qualifies_escalated (now : Date) (ts : list Ticket) (t : Ticket) :
  In t ts -> qualifies now t = true -> In t (escalatedTickets now ts).
Proof.
  intros Hin Hq. unfold escalatedTickets. apply in_or_app.
  destruct (unassignedFilter now t) eqn:Hu.
  - left. apply filter_In. now split.
  - right. apply filter_In. split; [assumption |].
    unfold qualifies in Hq. rewrite Hu in Hq. cbn [orb] in Hq. rewrite Hq, Hu. reflexivity.
Qed.

Lemma strIn_two (s a b : string) : strIn s [a; b] = true <-> s = a \/ s = b.
Proof.
  rewrite strIn_In. simpl. intuition congruence.
Qed.

(** The queries of [checkEscalations] are the two criteria of the policy. *)
Lemma qualifies_iff (now : Date) (t : Ticket) :
  qualifies now t = true <-> unassignedAndStale now t \/ staleHighPriority now t.
Proof.
  unfold qualifies, unassignedAndStale, staleHighPriority,
    unassignedFilter, staleHighPriorityFilter, openOrInProgress, hour.
  rewrite orb_true_iff, !andb_true_iff, !strIn_two, String.eqb_eq, !Z.ltb_lt.
  destruct (assignedTo t); intuition (try discriminate; try lia).
Qed.

(** C8: on a pass of [checkEscalations] over tickets of distinct ids (whose
    titles are within the 200 characters of the schema), every ticket that is
    open, unassigned and created more than 24 hours ago, or open or in
    progress, of high or urgent priority and not updated for more than 4
    hours, is escalated: it is stored urgent, with exactly one system note
    (author null) added to its notes, written once if it was urgent already
    and twice otherwise, and every active admin holds a ticket_escalated
    notice about it; the other tickets are left as they were, and the
    notifications added are exactly one notice per active admin and
    escalated ticket. *)
Theorem hourly_escalation (w : World) :
  NoDup (map _id (tickets w)) ->
  (forall t, In t (tickets w) -> (String.length (title t) <= 200)%nat) ->
  exists w',
    checkEscalations w = Ok tt w' /\
    (forall t, In t (tickets w) ->
       unassignedAndStale (clock w) t \/ staleHighPriority (clock w) t ->
       exists t',
         lookup (_id t) (tickets w') = Some t' /\
         t' = escalated (clock w) t /\
         priority t' = "urgent" /\
         internalNotes t' = internalNotes t ++ [escalationNote (clock w)] /\
         addedBy (escalationNote (clock w)) = None /\
         version t' = version t + (if (priority t =? "urgent")%string then 1 else 2) /\
         (forall admin, In admin (users w) -> activeAdmin admin = true ->
            In (escalationNotice (clock w) t admin) (notifications w'))) /\
    (forall t, In t (tickets w) ->
       ~ (unassignedAndStale (clock w) t \/ staleHighPriority (clock w) t) ->
       lookup (_id t) (tickets w') = Some t) /\
    notifications w' =
      notifications w ++
      flat_map (fun t => map (escalationNotice (clock w) t)
                             (List.filter activeAdmin (users w)))
               (escalatedTickets (clock w) (tickets w)).
Proof.
  intros Hnodup Hlen.
  destruct (checkEscalations_effect w Hnodup Hlen) as [w' [Hrun [Htickets Hnotes]]].
  assert (Hid : forall x, _id (if qualifies (clock w) x then escalated (clock w) x else x)
                          = _id x).
  { intros x. destruct (qualifies (clock w) x); [apply escalated_id | reflexivity]. }
  exists w'. split; [exact Hrun |]. split; [| split; [| exact Hnotes]].
  - intros t Hin Hq. apply qualifies_iff in Hq. exists (escalated (clock w) t).
    split.
    { rewrite Htickets.
      rewrite (lookup_map _ (tickets w) t Hid Hnodup Hin). now rewrite Hq. }
    split; [reflexivity |].
    split; [apply escalated_priority |].
    split; [apply escalated_notes |].
    split; [reflexivity |].
    split; [apply escalated_version |].
    intros admin Hadmin Hactive. rewrite Hnotes. apply in_or_app. right.
    apply in_flat_map. exists t. split.
    + now apply qualifies_escalated.
    + apply in_map. apply filter_In. now split.
  - intros t Hin Hq. rewrite Htickets.
    rewrite (lookup_map _ (tickets w) t Hid Hnodup Hin).
    destruct (qualifies (clock w) t) eqn:E; [| reflexivity].
    exfalso. apply Hq. now apply qualifies_iff.
Qed.

End EscalationPass.

Section EscalationExamples.
Import Mongoose SLAService Escalation Scenario.

(** The pass of the hourly tick over three tickets: the neglected one and
    the stale one of high priority are escalated, the fresh one is not. *)
Lemma hourly_escalation_witness :
  exists w',
    checkEscalations hourlyTick = Ok tt w' /\
    lookup "t-5" (tickets w') = Some (escalated T0 neglected) /\
    lookup "t-6" (tickets w') = Some (escalated T0 staleHigh) /\
    lookup "t-7" (tickets w') = Some fresh.
Proof.
  assert (Hnodup : NoDup (map _id (tickets hourlyTick))).
  { repeat constructor; simpl; intuition discriminate. }
  assert (Hlen : forall t, In t (tickets hourlyTick) ->
                           (String.length (title t) <= 200)%nat).
  { intros t [<- | [<- | [<- | []]]]; apply Nat.leb_le; reflexivity. }
  destruct (hourly_escalation hourlyTick Hnodup Hlen) as [w' [Hrun [Hyes [Hno _]]]].
  exists w'. split; [exact Hrun |].
  split; [| split].
  - destruct (Hyes neglected (or_introl eq_refl)) as [t' [Hfound [-> _]]].
    + apply qualifies_iff. reflexivity.
    + exact Hfound.
  - destruct (Hyes staleHigh (or_intror (or_introl eq_refl))) as [t' [Hfound [-> _]]].
    + apply qualifies_iff. reflexivity.
    + exact Hfound.
  - apply (Hno fresh (or_intror (or_intror (or_introl eq_refl)))).
    intros Hq. apply qualifies_iff in Hq. discriminate Hq.
Defined.

(** The scenario of the spec, evaluated: the open, unassigned ticket created
    25 hours ago becomes urgent and gets one system note, by two writes; the
    two active admins are notified of each escalated ticket; a second pass
    adds one more note. *)
Lemma hourly_tick_example :
  let w' := after checkEscalations hourlyTick in
  option_map priority (stored "t-5" w') = Some "urgent" /\
  option_map internalNotes (stored "t-5" w') = Some [escalationNote T0] /\
  option_map version (stored "t-5" w') = Some 2 /\
  option_map priority (stored "t-6" w') = Some "urgent" /\
  stored "t-7" w' = Some fresh /\
  map (fun n => (n_user n, n_type n, n_ticket n)) (notifications w') =
    [("u-root", "ticket_escalated", Some "t-5"); ("u-carol", "ticket_escalated", Some "t-5");
     ("u-root", "ticket_escalated", Some "t-6"); ("u-carol", "ticket_escalated", Some "t-6")] /\
  option_map (fun t => List.length (internalNotes t))
    (stored "t-5" (after checkEscalations w')) = Some 2%nat.
Proof. evaluate_both_sides. Qed.

End EscalationExamples.

(** ** The default rules under every trigger *)

Section DefaultTriggers.
Import Mongoose WorkflowService.






End DefaultTriggers.

(** ** The default rules under a trigger they were not written for *)

Section TriggerExamples.
Import Mongoose WorkflowService Scenario RuleExamples.



End TriggerExamples.


(** * Further properties of the code *)

(** ** Time remaining and the windows of the monitor *)

Section Remaining.
Import TicketModel SlaConditions SLAService.

Lemma ceil_div_bounds (n : Z) :
  0 < n ->
  let h := ceil_div n (1000 * 60 * 60) in
  0 < h /\ (h - 1) * hour < n <= h * hour.
Proof.
  intros Hn. unfold ceil_div, hour. cbv zeta.
  change (1000 * 60 * 60) with 3600000. change (60 * 60 * 1000) with 3600000.
  pose proof (Z.mul_div_le (n + 3600000 - 1) 3600000 ltac:(lia)) as Hlo.
  pose proof (Z.mul_succ_div_gt (n + 3600000 - 1) 3600000 ltac:(lia)) as Hhi.
  lia.
Qed.

(** X1: for a ticket that is neither resolved nor closed, [timeRemaining]
    is a whole number of hours, never negative; it is 0 exactly when the due
    date is reached, and otherwise the time left rounded up to the hour. *)
Theorem timeRemaining_rounds_up (now : Date) (t : Ticket) :
  ~ completedStatus t ->
  exists h,
    timeRemaining now t = Some h /\
    0 <= h /\
    (h = 0 <-> dueDate (sla t) <= now) /\
    (now < dueDate (sla t) -> (h - 1) * hour < dueDate (sla t) - now <= h * hour).
Proof.
  intros Hopen. unfold timeRemaining.
  destruct (String.eqb (status t) "resolved" || String.eqb (status t) "closed") eqn:Hc.
  - exfalso. apply Hopen. unfold completedStatus.
    apply orb_true_iff in Hc. rewrite !String.eqb_eq in Hc. exact Hc.
  - destruct (0 <? dueDate (sla t) - now) eqn:Hr.
    + apply Z.ltb_lt in Hr. pose proof (ceil_div_bounds _ Hr) as Hb. cbv zeta in Hb.
      eexists. split; [reflexivity |]. lia.
    + apply Z.ltb_ge in Hr. exists 0. split; [reflexivity |]. lia.
Qed.

Lemma timeRemaining_rounds_up_witness :
  exists h,
    timeRemaining (Scenario.T0 + 90 * 60 * 1000) (Scenario.ticketAt "t-1" Scenario.T0 "medium")
      = Some h /\ 0 <= h.
Proof.
  destruct (timeRemaining_rounds_up (Scenario.T0 + 90 * 60 * 1000)
              (Scenario.ticketAt "t-1" Scenario.T0 "medium")) as [h [Hh [Hpos _]]].
  - simpl. intros [H | H]; discriminate H.
  - exists h. split; assumption.
Defined.

Lemma open_not_completed (t : Ticket) :
  openOrInProgress t = true -> ~ completedStatus t.
Proof.
  unfold openOrInProgress, completedStatus. rewrite strIn_two.
  intros [H | H] [C | C]; rewrite H in C; discriminate C.
Qed.

Lemma open_status_test (t : Ticket) :
  openOrInProgress t = true ->
  (String.eqb (status t) "resolved" || String.eqb (status t) "closed") = false.
Proof.
  intros H. apply open_not_completed in H.
  destruct (String.eqb (status t) "resolved" || String.eqb (status t) "closed") eqn:E;
    [| reflexivity].
  exfalso. apply H. unfold completedStatus.
  apply orb_true_iff in E. rewrite !String.eqb_eq in E. exact E.
Qed.

(** X2: the queries of the monitor agree with the derived fields.  A ticket
    the breach query returns reads as a breach (of the response or of the
    resolution time) with 0 hours remaining; a ticket the warning query
    returns reads as warning, or as a response breach, with 1 or 2 hours
    remaining; and no ticket is returned by both. *)
Theorem monitor_queries_agree_with_status (now : Date) (t : Ticket) :
  (breachedFilter now t = true ->
     (slaStatus now t = "response_breach" \/ slaStatus now t = "resolution_breach") /\
     timeRemaining now t = Some 0) /\
  (warningFilter now t = true ->
     (slaStatus now t = "response_breach" \/ slaStatus now t = "warning") /\
     (timeRemaining now t = Some 1 \/ timeRemaining now t = Some 2)) /\
  (breachedFilter now t && warningFilter now t = false).
Proof.
  unfold breachedFilter, warningFilter. split; [| split].
  - intros H. apply andb_true_iff in H. destruct H as [Hopen Hdue].
    apply Z.ltb_lt in Hdue. unfold slaStatus, timeRemaining.
    rewrite (open_status_test t Hopen).
    split.
    + destruct (match firstResponseAt (sla t) with
                | Some f => f + responseTime (sla t) * 60 * 60 * 1000 <? now
                | None => false
                end); [now left |].
      apply Z.ltb_lt in Hdue. rewrite Hdue. now right.
    + replace (0 <? dueDate (sla t) - now) with false; [reflexivity |].
      symmetry. apply Z.ltb_ge. lia.
  - intros H. apply andb_true_iff in H. destruct H as [H Hhi].
    apply andb_true_iff in H. destruct H as [Hopen Hlo].
    apply Z.leb_le in Hlo. apply Z.leb_le in Hhi.
    unfold slaStatus, timeRemaining. rewrite (open_status_test t Hopen).
    split.
    + destruct (match firstResponseAt (sla t) with
                | Some f => f + responseTime (sla t) * 60 * 60 * 1000 <? now
                | None => false
                end); [now left |].
      replace (dueDate (sla t) <? now) with false by (symmetry; apply Z.ltb_ge; lia).
      replace (dueDate (sla t) - 24 * 60 * 60 * 1000 <? now) with true
        by (symmetry; apply Z.ltb_lt; lia).
      now right.
    + replace (0 <? dueDate (sla t) - now) with true by (symmetry; apply Z.ltb_lt; lia).
      pose proof (ceil_div_bounds (dueDate (sla t) - now) ltac:(lia)) as Hb.
      cbv zeta in Hb. unfold hour in Hb.
      assert (Hh : ceil_div (dueDate (sla t) - now) (1000 * 60 * 60) = 1 \/
                   ceil_div (dueDate (sla t) - now) (1000 * 60 * 60) = 2) by lia.
      destruct Hh as [-> | ->]; [now left | now right].
  - destruct (openOrInProgress t); [| reflexivity]. cbn [andb].
    destruct (dueDate (sla t) <? now) eqn:Hd; [| reflexivity].
    apply Z.ltb_lt in Hd. cbn [andb].
    replace (now + 60 * 60 * 1000 <=? dueDate (sla t)) with false; [reflexivity |].
    symmetry. apply Z.leb_gt. lia.
Qed.

Lemma monitor_queries_agree_with_status_witness :
  timeRemaining Scenario.T0 Scenario.overdue = Some 0 /\
  (timeRemaining Scenario.T0 Scenario.dueSoon = Some 1 \/
   timeRemaining Scenario.T0 Scenario.dueSoon = Some 2).
Proof.
  split.
  - apply (proj1 (monitor_queries_agree_with_status Scenario.T0 Scenario.overdue)).
    reflexivity.
  - apply (proj1 (proj2 (monitor_queries_agree_with_status Scenario.T0 Scenario.dueSoon))).
    reflexivity.
Defined.

End Remaining.

(** ** The scan and the SLA policy of the service *)

Section Policy.
Import Mongoose NotificationService SLAService.

Lemma filter_none {A : Type} (f : A -> bool) (l : list A) :
  (forall x, In x l -> f x = false) -> List.filter f l = [].
Proof.
  induction l as [| x l IH]; intros H; [reflexivity |].
  simpl. rewrite (H x (or_introl eq_refl)). apply IH. intros y Hy. apply H. now right.
Qed.

(** X3: a scan handles no ticket whose due date lies within the coming hour
    (or more than two hours ahead): the warning window opens one hour before
    the due date at the latest, so when every open ticket is in that case the
    scan leaves the world exactly as it was. *)
Theorem due_within_the_hour_not_handled (w : World) :
  (forall t, In t (tickets w) -> openOrInProgress t = true ->
     clock w <= dueDate (sla t) < clock w + hour \/ clock w + 2 * hour < dueDate (sla t)) ->
  checkSLAStatus w = Ok tt w.
Proof.
  intros H. unfold checkSLAStatus, tryCatch, bind, Date_now, get, Ticket_find.
  assert (Hw : List.filter (warningFilter (clock w)) (tickets w) = []).
  { apply filter_none. intros t Ht. unfold warningFilter.
    destruct (openOrInProgress t) eqn:Ho; [| reflexivity]. cbn [andb].
    destruct (H t Ht Ho) as [Hd | Hd]; unfold hour in Hd.
    - replace (clock w + 60 * 60 * 1000 <=? dueDate (sla t)) with false; [reflexivity |].
      symmetry. apply Z.leb_gt. lia.
    - replace (dueDate (sla t) <=? clock w + 2 * 60 * 60 * 1000) with false;
        [apply andb_false_r |].
      symmetry. apply Z.leb_gt. lia. }
  assert (Hb : List.filter (breachedFilter (clock w)) (tickets w) = []).
  { apply filter_none. intros t Ht. unfold breachedFilter.
    destruct (openOrInProgress t) eqn:Ho; [| reflexivity]. cbn [andb].
    apply Z.ltb_ge. destruct (H t Ht Ho) as [Hd | Hd]; unfold hour in Hd; lia. }
  rewrite Hw. cbn [map forOf]. unfold ret. rewrite Hb. reflexivity.
Qed.

Lemma due_within_the_hour_not_handled_witness :
  checkSLAStatus (Scenario.worldWith [Scenario.dueSoon] (Scenario.T0 + 45 * 60 * 1000))
  = Ok tt (Scenario.worldWith [Scenario.dueSoon] (Scenario.T0 + 45 * 60 * 1000)).
Proof.
  apply due_within_the_hour_not_handled.
  intros t [<- | []] _. left. vm_compute. split; [discriminate | reflexivity].
Defined.

Lemma strIn_false (s : string) (l : list string) : strIn s l = false <-> ~ In s l.
Proof.
  rewrite <- strIn_In. destruct (strIn s l).
  - split; [discriminate | intros H; exfalso; apply H; reflexivity].
  - split; [intros _ H; discriminate H | reflexivity].
Qed.

Lemma newDate_later (t h : Z) :
  validTime t = true -> 0 <= h ->
  newDate (t + h) = if t + h <=? maxTime then Some (t + h) else None.
Proof.
  unfold newDate, validTime. intros Ht Hh.
  apply andb_prop in Ht. destruct Ht as [Hlo Hhi]. apply Z.leb_le in Hlo.
  replace (- maxTime <=? t + h) with true by (symmetry; apply Z.leb_le; lia).
  reflexivity.
Qed.

(** X4: for a valid creation date, [calculateSLADueDate] adds 2, 8, 24 and
    72 hours to it for urgent, high, medium and low, and the 24 hours of
    medium for any other text that is not a property every object inherits;
    the result is a date as long as the sum is a time value a date can hold
    (at most 8.64e15 ms) and the invalid date when it passes that.  For an
    inherited property name the date is always invalid.  A valid result lies
    between 2 and 72 hours after the creation time. *)
Theorem calculateSLADueDate_table (priority_ : string) (created : Date) :
  validTime created = true ->
  (forall p h, In (p, h) [("urgent", 2); ("high", 8); ("medium", 24); ("low", 72)] ->
     calculateSLADueDate p created =
     if created + h * hour <=? maxTime then Some (created + h * hour) else None) /\
  (~ In priority_ priorityEnum -> ~ In priority_ inheritedKeys ->
     calculateSLADueDate priority_ created =
     if created + 24 * hour <=? maxTime then Some (created + 24 * hour) else None) /\
  (In priority_ inheritedKeys -> calculateSLADueDate priority_ created = None) /\
  (forall due, calculateSLADueDate priority_ created = Some due ->
     created + 2 * hour <= due <= created + 72 * hour /\ validTime due = true).
Proof.
  intros Hcreated. unfold hour.
  assert (Hhours : forall h, slaHours priority_ = Some h -> (h = 2 \/ h = 8 \/ h = 24 \/ h = 72)
                              /\ In priority_ priorityEnum).
  { unfold slaHours. intros h.
    destruct (String.eqb_spec priority_ "urgent") as [-> | _];
      [intros [= <-]; split; [tauto | simpl; tauto] |].
    destruct (String.eqb_spec priority_ "high") as [-> | _];
      [intros [= <-]; split; [tauto | simpl; tauto] |].
    destruct (String.eqb_spec priority_ "medium") as [-> | _];
      [intros [= <-]; split; [tauto | simpl; tauto] |].
    destruct (String.eqb_spec priority_ "low") as [-> | _];
      [intros [= <-]; split; [tauto | simpl; tauto] |].
    discriminate. }
  assert (Hnone : ~ In priority_ priorityEnum -> slaHours priority_ = None).
  { intros Hn. destruct (slaHours priority_) as [h |] eqn:E; [| reflexivity].
    exfalso. apply Hn. apply (Hhours h eq_refl). }
  assert (Hvalid : forall t, newDate t = Some t -> validTime t = true).
  { intros t. unfold newDate. destruct (validTime t); [reflexivity | discriminate]. }
  split; [| split; [| split]].
  - intros p h Hin. simpl in Hin.
    destruct Hin as [[= <- <-] | [[= <- <-] | [[= <- <-] | [[= <- <-] | []]]]];
      unfold calculateSLADueDate; cbn [slaHours String.eqb Ascii.eqb Bool.eqb];
      rewrite <- (newDate_later created _ Hcreated); try lia;
      f_equal; lia.
  - intros Hp Hi. unfold calculateSLADueDate. rewrite (Hnone Hp).
    apply strIn_false in Hi. rewrite Hi.
    rewrite <- (newDate_later created _ Hcreated); [f_equal; lia | lia].
  - intros Hi. unfold calculateSLADueDate.
    assert (Hp : ~ In priority_ priorityEnum).
    { intros Hp. simpl in Hp, Hi. intuition (subst; discriminate). }
    rewrite (Hnone Hp). apply strIn_In in Hi. rewrite Hi. reflexivity.
  - intros due. unfold calculateSLADueDate, newDate.
    destruct (slaHours priority_) as [h |] eqn:E.
    + destruct (validTime (created + h * 60 * 60 * 1000)) eqn:Hv; [| discriminate].
      intros [= <-]. destruct (Hhours h eq_refl) as [Hh _]. split; [lia | exact Hv].
    + destruct (strIn priority_ inheritedKeys); [discriminate |].
      destruct (validTime (created + 24 * 60 * 60 * 1000)) eqn:Hv; [| discriminate].
      intros [= <-]. split; [lia | exact Hv].
Qed.

Lemma calculateSLADueDate_table_witness :
  calculateSLADueDate "critical" Scenario.T0 = Some (Scenario.T0 + 24 * hour) /\
  calculateSLADueDate "urgent" (maxTime - hour) = None /\
  calculateSLADueDate "toString" Scenario.T0 = None.
Proof.
  split; [| split].
  - apply (proj1 (proj2 (calculateSLADueDate_table "critical" Scenario.T0 eq_refl)));
      simpl; intuition discriminate.
  - apply (proj1 (calculateSLADueDate_table "urgent" (maxTime - hour) eq_refl) "urgent" 2).
    left. reflexivity.
  - apply (proj1 (proj2 (proj2 (calculateSLADueDate_table "toString" Scenario.T0 eq_refl)))).
    simpl. tauto.
Defined.

End Policy.
Section UpdateSLA.
Import Mongoose NotificationService SLAService.

Lemma lookup_id (id : ObjectId) (ts : list Ticket) (t : Ticket) :
  lookup id ts = Some t -> _id t = id.
Proof.
  unfold lookup. intros H. apply find_some in H. destruct H as [_ H].
  now apply String.eqb_eq in H.
Qed.

Lemma lookup_In (id : ObjectId) (ts : list Ticket) (t : Ticket) :
  lookup id ts = Some t -> In t ts.
Proof. unfold lookup. intros H. apply find_some in H. apply H. Qed.

Lemma lookup_put (id : ObjectId) (ts : list Ticket) (t t' : Ticket) :
  lookup id ts = Some t -> _id t' = id -> lookup id (put t' ts) = Some t'.
Proof.
  intros Hfind Hid. subst id. unfold lookup, put in *.
  induction ts as [| x r IH]; [discriminate |].
  cbn [map find] in *.
  destruct (_id x =? _id t')%string eqn:E.
  - cbn [find]. rewrite String.eqb_refl. reflexivity.
  - cbn [find]. rewrite E. now apply IH.
Qed.

Lemma lookup_put_other (id : ObjectId) (ts : list Ticket) (t' : Ticket) :
  _id t' <> id -> lookup id (put t' ts) = lookup id ts.
Proof.
  intros Hid. unfold lookup, put. induction ts as [| x r IH]; [reflexivity |].
  cbn [map find].
  destruct (_id x =? _id t')%string eqn:E.
  - apply String.eqb_eq in E. apply String.eqb_neq in Hid.
    cbn [find]. rewrite Hid. rewrite E, Hid. exact IH.
  - cbn [find]. destruct (_id x =? id)%string; [reflexivity | exact IH].
Qed.

Lemma slaHours_enum (p : string) (h : Z) :
  slaHours p = Some h -> strIn p priorityEnum = true.
Proof.
  unfold slaHours.
  destruct (String.eqb_spec p "urgent") as [-> | _]; [reflexivity |].
  destruct (String.eqb_spec p "high") as [-> | _]; [reflexivity |].
  destruct (String.eqb_spec p "medium") as [-> | _]; [reflexivity |].
  destruct (String.eqb_spec p "low") as [-> | _]; [reflexivity | discriminate].
Qed.

Lemma validPath_priority (t : Ticket) :
  validPath t "priority" = strIn (priority t) priorityEnum.
Proof. reflexivity. Qed.


Lemma mark_modified (path : string) (t : Ticket) (d : Doc) :
  isModified (mark path t d) = true.
Proof.
  unfold isModified, mark. cbn [modified].
  destruct (strIn path (modified d)) eqn:E.
  - destruct (modified d); [discriminate E | reflexivity].
  - destruct (modified d); reflexivity.
Qed.

Lemma In_mark (x path : string) (t : Ticket) (d : Doc) :
  In x (modified (mark path t d)) -> In x (modified d) \/ x = path.
Proof.
  unfold mark. cbn [modified]. destruct (strIn path (modified d)).
  - now left.
  - intros H. apply in_app_or in H. destruct H as [H | [H | []]]; [now left | now right].
Qed.

Lemma invalidPath_None (d : Doc) :
  (forall path, In path (modified d) -> validPath (data d) path = true) ->
  invalidPath d = None.
Proof.
  intros H. unfold invalidPath.
  destruct (find (fun path => negb (validPath (data d) path)) (modified d)) eqn:E;
    [| reflexivity].
  apply find_some in E. destruct E as [Hin Hneg]. rewrite (H _ Hin) in Hneg. discriminate.
Qed.

(** What a save that returns has done. *)
Lemma save_Ok (d d' : Doc) (w w' : World) :
  save d w = Ok d' w' ->
  (isModified d = false /\ d' = d /\ w' = w) \/
  (isModified d = true /\ invalidPath d = None /\
   d' = loaded (with_updatedAt (clock w) (with_version (version (data d) + 1) (data d))) /\
   w' = with_tickets (put (data d') (tickets w)) w).
Proof.
  unfold save. destruct (isModified d).
  - destruct (invalidPath d); [discriminate |]. intros H. injection H as <- <-.
    right. repeat split; reflexivity.
  - intros H. injection H as <- <-. left. repeat split; reflexivity.
Qed.

(** What a save that throws has done: nothing. *)
Lemma save_Throw (d : Doc) (w w' : World) (e : Error) :
  save d w = Throw e w' ->
  w' = w /\ exists path, invalidPath d = Some path /\ e = ValidationError path.
Proof.
  unfold save. destruct (isModified d); [| discriminate].
  destruct (invalidPath d) as [path |]; [| discriminate].
  intros H. injection H as <- <-. split; [reflexivity | now exists path].
Qed.

Lemma save_valid (d : Doc) (w : World) :
  (forall path, In path (modified d) -> validPath (data d) path = true) ->
  exists d' w', save d w = Ok d' w'.
Proof.
  intros H. unfold save. rewrite (invalidPath_None d H).
  destruct (isModified d); eexists; eexists; reflexivity.
Qed.

Lemma set_priority_data (p : string) (d : Doc) :
  data (set_priority p d) = with_priority p (data d).
Proof.
  unfold set_priority. destruct (String.eqb_spec (priority (data d)) p) as [E | _].
  - rewrite <- E. destruct d as [[] ?]; reflexivity.
  - reflexivity.
Qed.

Lemma set_dueDate_data (v : Date) (d : Doc) :
  data (set_dueDate v d) = with_sla (with_dueDate v (sla (data d))) (data d).
Proof.
  unfold set_dueDate. destruct (Z.eqb_spec (dueDate (sla (data d))) v) as [E | _].
  - rewrite <- E. destruct d as [[? ? ? ? ? ? ? ? ? [] ? ? ? ? ?] ?]; reflexivity.
  - reflexivity.
Qed.

Lemma set_priority_modified (x p : string) (d : Doc) :
  In x (modified (set_priority p d)) -> In x (modified d) \/ x = "priority".
Proof.
  unfold set_priority. destruct (priority (data d) =? p)%string; [now left | apply In_mark].
Qed.

Lemma set_dueDate_modified (x : string) (v : Date) (d : Doc) :
  In x (modified (set_dueDate v d)) -> In x (modified d) \/ x = "sla.dueDate".
Proof.
  unfold set_dueDate. destruct (dueDate (sla (data d)) =? v); [now left | apply In_mark].
Qed.

Lemma set_priority_unmodified (p : string) (d : Doc) :
  isModified (set_priority p d) = false -> set_priority p d = d /\ isModified d = false.
Proof.
  unfold set_priority. destruct (priority (data d) =? p)%string.
  - intros H. now split.
  - rewrite mark_modified. discriminate.
Qed.

Lemma set_dueDate_unmodified (v : Date) (d : Doc) :
  isModified (set_dueDate v d) = false -> set_dueDate v d = d /\ isModified d = false.
Proof.
  unfold set_dueDate. destruct (dueDate (sla (data d)) =? v).
  - intros H. now split.
  - rewrite mark_modified. discriminate.
Qed.

Lemma set_status_unmodified (v : string) (d : Doc) :
  isModified (set_status v d) = false -> set_status v d = d /\ isModified d = false.
Proof.
  unfold set_status. destruct (status (data d) =? v)%string.
  - intros H. now split.
  - rewrite mark_modified. discriminate.
Qed.

Lemma newDate_valid (t : Z) : validTime t = true -> newDate t = Some t.
Proof. unfold newDate. intros ->. reflexivity. Qed.

(** The two assignments of [updateTicketSLA] on a freshly loaded ticket
    modify the document unless both values are the stored ones. *)
Lemma reassigned_modified (p : string) (v : Date) (t : Ticket) :
  isModified (set_priority p (set_dueDate v (loaded t))) =
  negb ((priority t =? p)%string && (dueDate (sla t) =? v)).
Proof.
  unfold set_dueDate. cbn [data loaded].
  destruct (dueDate (sla t) =? v).
  - unfold set_priority. cbn [data loaded].
    destruct (priority t =? p)%string; [reflexivity | apply mark_modified].
  - rewrite andb_false_r. unfold set_priority.
    destruct (priority _ =? p)%string; apply mark_modified.
Qed.

(** X5: [updateTicketSLA] on a stored ticket and one of the four priorities
    stores that priority and the due date [createdAt] plus the budget of the
    priority, whatever the clock reads, provided that sum is a time value a
    date can hold; the creation time stays, and the version grows by exactly
    one, or by none when the ticket already had that priority and that due
    date (nothing is then written). *)
Theorem updateTicketSLA_recomputes (w : World) (id : ObjectId) (p : string) (t : Ticket)
    (h : Z) :
  lookup id (tickets w) = Some t ->
  slaHours p = Some h ->
  validTime (createdAt t + h * hour) = true ->
  let unchanged := (priority t =? p)%string && (dueDate (sla t) =? createdAt t + h * hour) in
  exists d w',
    updateTicketSLA id p w = Ok (Some d) w' /\
    lookup id (tickets w') = Some (data d) /\
    priority (data d) = p /\
    dueDate (sla (data d)) = createdAt t + h * hour /\
    createdAt (data d) = createdAt t /\
    version (data d) = version t + (if unchanged then 0 else 1) /\
    (unchanged = true -> w' = w).
Proof.
  intros Hfind Hh Hrange unchanged. pose proof (lookup_id _ _ _ Hfind) as Hid.
  pose proof (slaHours_enum p h Hh) as Henum.
  assert (Hsum : createdAt t + h * 60 * 60 * 1000 = createdAt t + h * hour)
    by (unfold hour; lia).
  unfold updateTicketSLA, tryCatch. unfold bind at 1. unfold Ticket_findById.
  rewrite Hfind. cbn [option_map]. unfold calculateSLADueDate. rewrite Hh.
  cbn [data loaded]. rewrite Hsum, (newDate_valid _ Hrange).
  unfold bind at 1.
  set (d0 := set_priority p (set_dueDate (createdAt t + h * hour) (loaded t))).
  assert (Hdata : data d0 =
                  with_priority p
                    (with_sla (with_dueDate (createdAt t + h * hour) (sla t)) t)).
  { unfold d0. rewrite set_priority_data, set_dueDate_data. reflexivity. }
  assert (Hvalid : forall path, In path (modified d0) -> validPath (data d0) path = true).
  { intros path Hin. unfold d0 in Hin. apply set_priority_modified in Hin.
    destruct Hin as [Hin | ->].
    - apply set_dueDate_modified in Hin. destruct Hin as [[] | ->]. reflexivity.
    - rewrite validPath_priority, Hdata. exact Henum. }
  pose proof (reassigned_modified p (createdAt t + h * hour) t) as Hmod.
  fold d0 in Hmod. fold unchanged in Hmod.
  destruct (save_valid d0 w Hvalid) as [d' [w' Hsave]]. rewrite Hsave.
  exists d', w'. split; [reflexivity |].
  apply save_Ok in Hsave. destruct Hsave as [[Hm [-> ->]] | [Hm [_ [Hd' Hw']]]].
  - rewrite Hm in Hmod. apply (f_equal negb) in Hmod. rewrite negb_involutive in Hmod.
    cbn [negb] in Hmod. rewrite <- Hmod.
    assert (Hsame : d0 = loaded t).
    { unfold d0 in *. apply set_priority_unmodified in Hm. destruct Hm as [-> Hm].
      apply set_dueDate_unmodified in Hm. now destruct Hm as [-> _]. }
    split; [rewrite Hsame; exact Hfind |].
    rewrite Hdata. cbn.
    split; [reflexivity |]. split; [reflexivity |]. split; [reflexivity |].
    split; [lia | reflexivity].
  - rewrite Hm in Hmod. apply (f_equal negb) in Hmod. rewrite negb_involutive in Hmod.
    cbn [negb] in Hmod. rewrite <- Hmod.
    subst w'. cbn [tickets with_tickets].
    split.
    + apply (lookup_put id (tickets w) t (data d') Hfind).
      rewrite Hd'. cbn [data loaded]. rewrite Hdata. exact Hid.
    + rewrite Hd'. cbn [data loaded]. rewrite Hdata. cbn.
      split; [reflexivity |]. split; [reflexivity |]. split; [reflexivity |].
      split; [reflexivity | discriminate].
Qed.

Lemma mark_In (path : string) (t : Ticket) (d : Doc) : In path (modified (mark path t d)).
Proof.
  unfold mark. cbn [modified]. destruct (strIn path (modified d)) eqn:E.
  - now apply strIn_In.
  - apply in_or_app. right. now left.
Qed.

Lemma invalidPath_Some (d : Doc) (path : string) :
  In path (modified d) -> validPath (data d) path = false ->
  exists bad, invalidPath d = Some bad.
Proof.
  intros Hin Hbad. unfold invalidPath.
  destruct (find (fun q => negb (validPath (data d) q)) (modified d)) as [bad |] eqn:E.
  - now exists bad.
  - apply (find_none _ _ E) in Hin. rewrite Hbad in Hin. discriminate.
Qed.

(** X6: [updateTicketSLA] writes nothing for a priority outside the four.
    Asked to give a stored ticket such a priority it throws, having logged
    the error, and leaves the tickets as they were; for an id without ticket
    it returns nothing and does nothing. *)
Theorem updateTicketSLA_refuses (w : World) (id : ObjectId) (p : string) :
  (lookup id (tickets w) = None -> updateTicketSLA id p w = Ok None w) /\
  (forall t, lookup id (tickets w) = Some t ->
     In (priority t) priorityEnum -> ~ In p priorityEnum ->
     exists e,
       updateTicketSLA id p w =
         Throw e (with_console (console w ++ [LogError "Error updating ticket SLA:" e]) w)).
Proof.
  split.
  - intros Hnone. unfold updateTicketSLA, tryCatch, bind, Ticket_findById.
    rewrite Hnone. reflexivity.
  - intros t Hfind Hold Hnew.
    assert (Hp : slaHours p = None).
    { destruct (slaHours p) as [h |] eqn:E; [| reflexivity].
      exfalso. apply Hnew. apply strIn_In. exact (slaHours_enum p h E). }
    unfold updateTicketSLA, tryCatch. unfold bind at 1. unfold Ticket_findById.
    rewrite Hfind. cbn [option_map]. unfold calculateSLADueDate. rewrite Hp.
    destruct (strIn p inheritedKeys).
    + eexists. reflexivity.
    + cbn [data loaded]. unfold newDate.
      destruct (validTime (createdAt t + 24 * 60 * 60 * 1000)); [| eexists; reflexivity].
      unfold bind at 1.
      set (d0 := set_priority p (set_dueDate (createdAt t + 24 * 60 * 60 * 1000) (loaded t))).
      assert (Hbad : exists bad, invalidPath d0 = Some bad).
      { apply (invalidPath_Some d0 "priority").
        - unfold d0, set_priority.
          destruct (String.eqb_spec (priority (data (set_dueDate
                      (createdAt t + 24 * 60 * 60 * 1000) (loaded t)))) p) as [E | _].
          + exfalso. apply Hnew. rewrite <- E, set_dueDate_data. exact Hold.
          + apply mark_In.
        - rewrite validPath_priority. unfold d0. rewrite set_priority_data.
          cbn [priority with_priority]. now apply strIn_false. }
      destruct Hbad as [bad Hbad].
      assert (Hm : isModified d0 = true).
      { destruct (isModified d0) eqn:E; [reflexivity |].
        unfold invalidPath in Hbad. unfold isModified in E.
        destruct (modified d0); [discriminate Hbad | discriminate E]. }
      unfold save. rewrite Hm, Hbad. eexists. reflexivity.
Qed.

End UpdateSLA.

Lemma updateTicketSLA_recomputes_witness :
  exists d w',
    SLAService.updateTicketSLA "t-1" "urgent" Scenario.oneTicket = Ok (Some d) w' /\
    dueDate (sla (Mongoose.data d)) = Scenario.T0 + 2 * hour /\
    version (Mongoose.data d) = 1.
Proof.
  destruct (updateTicketSLA_recomputes Scenario.oneTicket "t-1" "urgent"
              (Scenario.ticketAt "t-1" Scenario.T0 "medium") 2 eq_refl eq_refl eq_refl)
    as [d [w' [Hrun [_ [_ [Hdue [_ [Hversion _]]]]]]]].
  exists d, w'. split; [exact Hrun |]. split; [exact Hdue | exact Hversion].
Defined.

Lemma updateTicketSLA_refuses_witness :
  exists e,
    SLAService.updateTicketSLA "t-1" "critical" Scenario.oneTicket =
      Throw e (with_console
                 (console Scenario.oneTicket ++ [LogError "Error updating ticket SLA:" e])
                 Scenario.oneTicket).
Proof.
  apply (proj2 (updateTicketSLA_refuses Scenario.oneTicket "t-1" "critical")
           (Scenario.ticketAt "t-1" Scenario.T0 "medium")).
  - reflexivity.
  - simpl. tauto.
  - simpl. intuition discriminate.
Defined.

(** ** The rule registry *)

Section Registry.
Import Mongoose WorkflowService WorkflowAdmin.

Lemma getRule_addRule_same (name : string) (rule : Rule) (rules : Registry) :
  getRule name (addRule name rule rules) = Some rule.
Proof.
  unfold getRule. induction rules as [| [n r] rest IH]; cbn [addRule find fst].
  - rewrite String.eqb_refl. reflexivity.
  - destruct (n =? name)%string eqn:E; cbn [find fst]; rewrite E; [reflexivity | exact IH].
Qed.

Lemma getRule_addRule_other (name other : string) (rule : Rule) (rules : Registry) :
  other <> name -> getRule other (addRule name rule rules) = getRule other rules.
Proof.
  intros Hne. unfold getRule. induction rules as [| [n r] rest IH]; cbn [addRule find fst].
  - apply String.eqb_neq in Hne. rewrite String.eqb_sym, Hne. reflexivity.
  - destruct (n =? name)%string eqn:E; cbn [find fst].
    + apply String.eqb_eq in E. subst n. apply String.eqb_neq in Hne.
      rewrite String.eqb_sym, Hne. reflexivity.
    + destruct (n =? other)%string; [reflexivity | exact IH].
Qed.

Lemma ruleNames_addRule (name : string) (rule : Rule) (rules : Registry) :
  ruleNames (addRule name rule rules) =
    if strIn name (ruleNames rules) then ruleNames rules else ruleNames rules ++ [name].
Proof.
  unfold ruleNames, strIn. induction rules as [| [n r] rest IH]; cbn [addRule map fst existsb].
  - reflexivity.
  - rewrite (String.eqb_sym name n).
    destruct (n =? name)%string eqn:E; cbn [map fst orb].
    + apply String.eqb_eq in E. now subst n.
    + rewrite IH. destruct (existsb (String.eqb name) (map fst rest)); reflexivity.
Qed.

Lemma getRule_removeRule_same (name : string) (rules : Registry) :
  getRule name (removeRule name rules) = None.
Proof.
  unfold getRule, removeRule. induction rules as [| [n r] rest IH]; cbn [List.filter find fst].
  - reflexivity.
  - destruct (n =? name)%string eqn:E; cbn [negb find fst]; [exact IH |].
    rewrite E. exact IH.
Qed.

Lemma getRule_removeRule_other (name other : string) (rules : Registry) :
  other <> name -> getRule other (removeRule name rules) = getRule other rules.
Proof.
  intros Hne. unfold getRule, removeRule.
  induction rules as [| [n r] rest IH]; cbn [List.filter find fst]; [reflexivity |].
  destruct (n =? name)%string eqn:E; cbn [negb find fst].
  - apply String.eqb_eq in E. subst n. apply String.eqb_neq in Hne.
    rewrite String.eqb_sym, Hne. exact IH.
  - destruct (n =? other)%string; [reflexivity | exact IH].
Qed.

(** X7: the registry behaves as a map kept in insertion order.  After
    [addRule] the name gives the rule just added and every other name gives
    what it gave; a name already present keeps its place and the list of
    names is unchanged, a new name goes to the end, and names stay distinct.
    After [removeRule] the name gives nothing, every other name gives what
    it gave, and no name appears that was not there. *)
Theorem registry_is_an_ordered_map (rules : Registry) (name other : string) (rule : Rule) :
  getRule name (addRule name rule rules) = Some rule /\
  (other <> name -> getRule other (addRule name rule rules) = getRule other rules) /\
  (In name (ruleNames rules) -> ruleNames (addRule name rule rules) = ruleNames rules) /\
  (~ In name (ruleNames rules) ->
     ruleNames (addRule name rule rules) = ruleNames rules ++ [name]) /\
  (NoDup (ruleNames rules) -> NoDup (ruleNames (addRule name rule rules))) /\
  getRule name (removeRule name rules) = None /\
  (other <> name -> getRule other (removeRule name rules) = getRule other rules) /\
  (forall n, In n (ruleNames (removeRule name rules)) -> In n (ruleNames rules) /\ n <> name).
Proof.
  split; [apply getRule_addRule_same |].
  split; [apply getRule_addRule_other |].
  split; [| split; [| split; [| split; [| split]]]].
  - intros Hin. rewrite ruleNames_addRule. apply strIn_In in Hin. now rewrite Hin.
  - intros Hn. rewrite ruleNames_addRule. apply strIn_false in Hn. now rewrite Hn.
  - intros Hnodup. rewrite ruleNames_addRule.
    destruct (strIn name (ruleNames rules)) eqn:E; [exact Hnodup |].
    apply strIn_false in E.
    apply NoDup_app; [exact Hnodup | repeat constructor; intros [] | ].
    intros x Hx [<- | []]. contradiction.
  - apply getRule_removeRule_same.
  - apply getRule_removeRule_other.
  - intros n Hin. unfold ruleNames, removeRule in Hin.
    apply in_map_iff in Hin. destruct Hin as [[n' r] [<- Hin]].
    apply filter_In in Hin. destruct Hin as [Hin Hneq]. cbn [fst] in *.
    split.
    + apply in_map_iff. exists (n', r). now split.
    + apply negb_true_iff in Hneq. now apply String.eqb_neq.
Qed.

Lemma registry_is_an_ordered_map_witness :
  getRule "auto_close_inactive"
    (addRule "escalate_high_priority" auto_close_resolved initializeDefaultRules)
  = getRule "auto_close_inactive" initializeDefaultRules /\
  ruleNames (addRule "escalate_high_priority" auto_close_resolved initializeDefaultRules)
  = ruleNames initializeDefaultRules.
Proof.
  split.
  - apply (registry_is_an_ordered_map initializeDefaultRules "escalate_high_priority"
             "auto_close_inactive" auto_close_resolved).
    discriminate.
  - apply (registry_is_an_ordered_map initializeDefaultRules "escalate_high_priority"
             "auto_close_inactive" auto_close_resolved).
    simpl. tauto.
Defined.

End Registry.

(** ** The actions of a custom rule *)

Section Actions.
Import Mongoose NotificationService WorkflowService WorkflowAdmin.



Lemma set_status_modified (x v : string) (d : Doc) :
  In x (modified (set_status v d)) -> In x (modified d) \/ x = "status".
Proof.
  unfold set_status. destruct (status (data d) =? v)%string; [now left | apply In_mark].
Qed.




Lemma buildAction_app (xs ys : list Action) (d : Doc) (w : World) :
  buildAction (xs ++ ys) d w =
    match buildAction xs d w with
    | Ok d1 w1 => buildAction ys d1 w1
    | Throw e w1 => Throw e w1
    end.
Proof.
  revert d w. induction xs as [| x xs IH]; intros d w; cbn [app buildAction].
  - reflexivity.
  - unfold bind. destruct (runAction x d w) as [d1 w1 | e w1]; [apply IH | reflexivity].
Qed.

(** X10: a [send_notification] action never notifies anyone.  Its type,
    workflow_notification, is not one of the schema, so the action throws at
    once and stores nothing; in a list of actions the ones before it keep
    what they wrote and the ones after it never run. *)
Theorem send_notification_always_throws (a : Action) :
  a_type a = "send_notification" ->
  (forall d w, runAction a d w = Throw (ValidationError "type") w) /\
  (forall before after_ d w d1 w1,
     buildAction before d w = Ok d1 w1 ->
     buildAction (before ++ a :: after_) d w = Throw (ValidationError "type") w1).
Proof.
  intros Htype.
  assert (Hrun : forall d w, runAction a d w = Throw (ValidationError "type") w).
  { intros d w. unfold runAction. rewrite Htype.
    cbn [String.eqb Ascii.eqb Bool.eqb]. reflexivity. }
  split; [exact Hrun |].
  intros before after_ d w d1 w1 Hbefore.
  rewrite buildAction_app, Hbefore. cbn [buildAction]. unfold bind. rewrite Hrun. reflexivity.
Qed.

End Actions.



Lemma send_notification_always_throws_witness :
  WorkflowService.buildAction
    [WorkflowService.mkAction "add_tag" "vip" EmptyString EmptyString EmptyString;
     WorkflowService.mkAction "send_notification" EmptyString "ticket_creator" "Hello" "World";
     WorkflowService.mkAction "change_priority" "urgent" EmptyString EmptyString EmptyString]
    (Mongoose.loaded Scenario.highTicket) Scenario.oneHighTicket
  = Throw (ValidationError "type")
      (Scenario.after
         (WorkflowService.runAction
            (WorkflowService.mkAction "add_tag" "vip" EmptyString EmptyString EmptyString)
            (Mongoose.loaded Scenario.highTicket)) Scenario.oneHighTicket).
Proof.
  eapply (proj2 (send_notification_always_throws
                  (WorkflowService.mkAction "send_notification" EmptyString "ticket_creator"
                     "Hello" "World") eq_refl)
           [WorkflowService.mkAction "add_tag" "vip" EmptyString EmptyString EmptyString]).
  vm_compute. reflexivity.
Defined.

(** ** Conditions and triggers of custom rules *)

(** ** The comparisons of the custom conditions *)

Section Doubles.
Import JsNumber WorkflowService.

Lemma roundHalfEven_near (p q : Z) :
  0 <= p -> 0 < q ->
  0 <= roundHalfEven p q /\ - q <= 2 * (p - roundHalfEven p q * q) <= q.
Proof.
  intros Hp Hq. unfold roundHalfEven.
  pose proof (Z.div_mod p q ltac:(lia)) as Hdiv.
  pose proof (Z.mod_pos_bound p q Hq) as Hmod.
  pose proof (Z.div_pos p q Hp Hq) as Hpos.
  set (f := p / q) in *. set (r := p mod q) in *.
  assert (Hf : p - f * q = r) by lia.
  assert (Hf1 : p - (f + 1) * q = r - q) by lia.
  destruct (2 * r <? q) eqn:E1.
  - apply Z.ltb_lt in E1. rewrite Hf. lia.
  - apply Z.ltb_ge in E1. destruct (q <? 2 * r) eqn:E2.
    + apply Z.ltb_lt in E2. rewrite Hf1. lia.
    + apply Z.ltb_ge in E2. destruct (Z.even f); [rewrite Hf | rewrite Hf1]; lia.
Qed.

Lemma pow2_pos (e : Z) : 0 <= e -> 0 < 2 ^ e.
Proof. intros He. apply Z.pow_pos_nonneg; lia. Qed.

(** The quotient of a positive integer below [2 ^ 53] by the length of a
    day: a double within half a unit of its last place, which is finer than
    half a millisecond. *)
Lemma roundPositive_days (k : Z) :
  0 < k < 2 ^ 53 ->
  exists m e,
    roundPositive k day = Finite m e /\ e <= 0 /\ day < 2 * 2 ^ (- e) /\ 0 <= m /\
    - day <= 2 * (k * 2 ^ (- e) - m * day) <= day.
Proof.
  intros Hk. unfold roundPositive.
  assert (Hday : day = 86400000) by reflexivity.
  assert (Hfl : -27 <= floorLog2 k day <= 26).
  { unfold floorLog2. change (Z.log2 day) with 26.
    pose proof (Z.log2_nonneg k).
    assert (Z.log2 k < 53) by (apply Z.log2_lt_pow2; lia).
    destruct (if 0 <=? Z.log2 k - 26 then _ else _); lia. }
  rewrite Z.max_l by lia.
  set (e := floorLog2 k day - 52) in *.
  replace (0 <=? e) with false by (symmetry; apply Z.leb_gt; unfold e; lia).
  assert (Hs : 2 ^ 26 <= 2 ^ (- e)).
  { apply Z.pow_le_mono_r; unfold e; lia. }
  pose proof (pow2_pos (- e) ltac:(unfold e; lia)) as Hspos.
  set (s := 2 ^ (- e)) in *.
  destruct (roundHalfEven_near (k * s) day ltac:(nia) ltac:(lia)) as [Hm Herr].
  set (m := roundHalfEven (k * s) day) in *.
  assert (Hle : m <= k * s).
  { destruct (Z.le_gt_cases m (k * s)) as [H | H]; [exact H | exfalso].
    assert (k * s + 1 <= m) by lia.
    assert ((k * s + 1) * day <= m * day) by (apply Z.mul_le_mono_nonneg_r; lia).
    assert (0 < k * s) by nia. nia. }
  assert (Hlog : Z.log2 m <= 52 - e).
  { transitivity (Z.log2 (k * s)); [apply Z.log2_le_mono; exact Hle |].
    unfold s. rewrite Z.log2_mul_pow2 by (unfold e; lia).
    assert (Z.log2 k < 53) by (apply Z.log2_lt_pow2; lia). lia. }
  replace (1024 <=? Z.log2 m + e) with false by (symmetry; apply Z.leb_gt; lia).
  exists m, e. split; [reflexivity|]. split; [unfold e; lia|].
  split; [change (2 ^ 26) with 67108864 in Hs; lia|]. split; [exact Hm | exact Herr].
Qed.

Lemma ofInteger_exact (n : Z) : Z.abs n < 2 ^ 53 -> ofInteger n = Finite n 0.
Proof.
  intros Hn. unfold ofInteger.
  replace (Z.abs n <=? 2 ^ 53) with true by (symmetry; apply Z.leb_le; lia).
  reflexivity.
Qed.

(** The days since, for an elapsed time below [2 ^ 53] ms in size. *)
Lemma daysSince_near (k : Z) :
  Z.abs k < 2 ^ 53 ->
  exists m e,
    daysSince k = Finite m e /\ e <= 0 /\ (k = 0 \/ day < 2 * 2 ^ (- e)) /\
    - day <= 2 * (k * 2 ^ (- e) - m * day) <= day.
Proof.
  intros Hk. unfold daysSince. rewrite (ofInteger_exact k Hk).
  unfold divideBy. cbn [Z.leb Z.compare]. rewrite Z.pow_0_r, Z.mul_1_r.
  unfold round. destruct (Z.eqb_spec k 0) as [-> | Hne].
  - exists 0, 0. cbn. split; [reflexivity|]. split; [lia|]. split; [now left|].
    change day with 86400000. lia.
  - destruct (0 <? k) eqn:Hpos.
    + apply Z.ltb_lt in Hpos.
      destruct (roundPositive_days k ltac:(lia)) as [m [e [Hr [He [Hs [_ Herr]]]]]].
      exists m, e. rewrite Hr. split; [reflexivity|]. split; [exact He|].
      split; [now right | exact Herr].
    + apply Z.ltb_ge in Hpos.
      destruct (roundPositive_days (- k) ltac:(lia)) as [m [e [Hr [He [Hs [_ Herr]]]]]].
      exists (- m), e. rewrite Hr. split; [reflexivity|]. split; [exact He|].
      split; [now right | lia].
Qed.

(** Below [2 ^ 53] the comparisons of the days since with a whole number are
    the comparisons of the elapsed milliseconds with that many days. *)
Lemma days_compare_whole (k n : Z) :
  Z.abs k < 2 ^ 53 -> Z.abs n < 2 ^ 53 ->
  lt (ofInteger n) (daysSince k) = (n * day <? k) /\
  lt (daysSince k) (ofInteger n) = (k <? n * day).
Proof.
  intros Hk Hn. rewrite (ofInteger_exact n Hn).
  destruct (daysSince_near k Hk) as [m [e [-> [He [Hfine Herr]]]]].
  unfold lt. rewrite Z.min_r, Z.min_l by lia.
  rewrite Z.sub_diag, Z.pow_0_r, Z.mul_1_r, Z.sub_0_l.
  pose proof (pow2_pos (- e) ltac:(lia)) as Hs.
  set (s := 2 ^ (- e)) in *.
  assert (Hday : 0 < day) by reflexivity.
  assert (Hgt : n * s < m <-> n * day < k).
  { split; intros H.
    - assert (n * s + 1 <= m) by lia.
      assert ((n * s + 1) * day <= m * day) by (apply Z.mul_le_mono_nonneg_r; lia).
      assert (n * day * s < k * s) by nia.
      apply Z.mul_lt_mono_pos_r in H2; [exact H2 | exact Hs].
    - destruct Hfine as [-> | Hfine].
      + assert (Hm0 : m = 0) by nia. subst m.
        assert (n < 0) by nia. nia.
      + assert (n * day + 1 <= k) by lia.
        assert ((n * day + 1) * s <= k * s) by (apply Z.mul_le_mono_nonneg_r; lia).
        assert (n * s * day < m * day) by nia.
        apply Z.mul_lt_mono_pos_r in H2; [exact H2 | exact Hday]. }
  assert (Hlt : m < n * s <-> k < n * day).
  { split; intros H.
    - assert (m + 1 <= n * s) by lia.
      assert ((m + 1) * day <= n * s * day) by (apply Z.mul_le_mono_nonneg_r; lia).
      assert (k * s < n * day * s) by nia.
      apply Z.mul_lt_mono_pos_r in H2; [exact H2 | exact Hs].
    - destruct Hfine as [-> | Hfine].
      + assert (Hm0 : m = 0) by nia. subst m.
        assert (0 < n) by nia. nia.
      + assert (k + 1 <= n * day) by lia.
        assert ((k + 1) * s <= n * day * s) by (apply Z.mul_le_mono_nonneg_r; lia).
        assert (m * day < n * s * day) by nia.
        apply Z.mul_lt_mono_pos_r in H2; [exact H2 | exact Hday]. }
  split.
  - destruct (n * day <? k) eqn:E.
    + apply Z.ltb_lt. apply Hgt. apply Z.ltb_lt. exact E.
    + apply Z.ltb_ge. apply Z.ltb_ge in E. lia.
  - destruct (k <? n * day) eqn:E.
    + apply Z.ltb_lt. apply Hlt. apply Z.ltb_lt. exact E.
    + apply Z.ltb_ge. apply Z.ltb_ge in E. lia.
Qed.

End Doubles.

Section Conditions.
Import Mongoose WorkflowService WorkflowAdmin.

Lemma textField_cases (f : string) (t : Ticket) (x : string) :
  textField f t = Some x ->
  (f = "category" /\ x = category t) \/ (f = "priority" /\ x = priority t) \/
  (f = "status" /\ x = status t).
Proof.
  unfold textField.
  destruct (String.eqb_spec f "category") as [-> | _]; [intros [= <-]; tauto |].
  destruct (String.eqb_spec f "priority") as [-> | _]; [intros [= <-]; tauto |].
  destruct (String.eqb_spec f "status") as [-> | _]; [intros [= <-]; tauto | discriminate].
Qed.

(** X11: what the conditions of a custom rule test.  An empty list of
    conditions holds.  On category, priority and status, [equals] holds when
    the field is the given text and every other operator holds when it is
    not; a number never equals a text field.  On [createdAt] and
    [updatedAt], with the elapsed time and the operand below [2 ^ 53] in
    size, [greater_than] holds when more than the given days have passed and
    every other operator when fewer have; at exactly that many days neither
    does.  A text operand of these is converted to a number first: a numeral
    in text compares as its number (the text 2, with or without blanks
    around it, as the number 2), and a text that is not a number fails under
    every operator.  A condition on any other field fails, and one failing
    condition fails the list. *)
Theorem buildCondition_operators (now : Date) (t : Ticket) :
  (forall w, buildCondition [] t w = Ok true w) /\
  (forall f x v op, textField f t = Some x ->
     (evalCondition now t (mkCondition f "equals" (VStr v)) = true <-> x = v) /\
     (op <> "equals" -> (evalCondition now t (mkCondition f op (VStr v)) = true <-> x <> v)) /\
     (forall n, evalCondition now t (mkCondition f "equals" (VNum n)) = false)) /\
  (forall f since op n,
     (f = "createdAt" /\ since = createdAt t) \/ (f = "updatedAt" /\ since = updatedAt t) ->
     Z.abs (now - since) < 2 ^ 53 -> Z.abs n < 2 ^ 53 ->
     (evalCondition now t (mkCondition f "greater_than" (VNum n)) = true
        <-> now - since > n * day) /\
     (op <> "greater_than" ->
        (evalCondition now t (mkCondition f op (VNum n)) = true
           <-> now - since < n * day))) /\
  (forall f op s,
     f = "createdAt" \/ f = "updatedAt" ->
     (forall n, JsNumber.StringToNumber s = JsNumber.ofInteger n ->
        evalCondition now t (mkCondition f op (VStr s))
        = evalCondition now t (mkCondition f op (VNum n))) /\
     (JsNumber.StringToNumber s = JsNumber.NaN ->
        evalCondition now t (mkCondition f op (VStr s)) = false)) /\
  (JsNumber.StringToNumber "2" = JsNumber.ofInteger 2 /\
   JsNumber.StringToNumber " 2 " = JsNumber.ofInteger 2 /\
   JsNumber.StringToNumber "1e3" = JsNumber.ofInteger 1000 /\
   JsNumber.StringToNumber "0x10" = JsNumber.ofInteger 16 /\
   JsNumber.StringToNumber EmptyString = JsNumber.ofInteger 0 /\
   JsNumber.StringToNumber "two" = JsNumber.NaN) /\
  (forall f op v,
     ~ In f ["category"; "priority"; "status"; "assignedTo"; "createdAt"; "updatedAt"] ->
     evalCondition now t (mkCondition f op v) = false) /\
  (forall cs c w, In c cs -> evalCondition (clock w) t c = false ->
     buildCondition cs t w = Ok false w).
Proof.
  split; [reflexivity |]. split; [| split; [| split; [| split; [| split]]]].
  - intros f x v op Hf. apply textField_cases in Hf.
    assert (Heq : forall y, (if (y =? v)%string then true else false) = true <-> y = v).
    { intros y. destruct (String.eqb_spec y v); split; congruence. }
    split; [| split].
    + destruct Hf as [[-> ->] | [[-> ->] | [-> ->]]]; cbn;
        rewrite <- String.eqb_eq; reflexivity.
    + intros Hop. apply String.eqb_neq in Hop.
      destruct Hf as [[-> ->] | [[-> ->] | [-> ->]]];
        unfold evalCondition; cbn [field operator value String.eqb Ascii.eqb Bool.eqb];
        rewrite Hop; cbn [strictEq]; rewrite negb_true_iff, String.eqb_neq; reflexivity.
    + intros n. destruct Hf as [[-> ->] | [[-> ->] | [-> ->]]]; reflexivity.
  - intros f since op n Hf Hk Hn.
    destruct (days_compare_whole (now - since) n Hk Hn) as [Hgt Hlt].
    split.
    + destruct Hf as [[-> ->] | [-> ->]];
        unfold evalCondition, daysCompare;
        cbn [field operator value String.eqb Ascii.eqb Bool.eqb toNumber];
        rewrite Hgt, Z.ltb_lt; lia.
    + intros Hop. apply String.eqb_neq in Hop.
      destruct Hf as [[-> ->] | [-> ->]];
        unfold evalCondition, daysCompare;
        cbn [field operator value String.eqb Ascii.eqb Bool.eqb toNumber];
        rewrite Hop, Hlt, Z.ltb_lt; reflexivity.
  - intros f op s Hf. split.
    + intros n Hs.
      destruct Hf as [-> | ->];
        unfold evalCondition, daysCompare;
        cbn [field operator value String.eqb Ascii.eqb Bool.eqb toNumber];
        rewrite Hs; reflexivity.
    + intros Hs.
      destruct Hf as [-> | ->];
        unfold evalCondition, daysCompare;
        cbn [field operator value String.eqb Ascii.eqb Bool.eqb toNumber];
        rewrite Hs; unfold JsNumber.lt;
        destruct (op =? "greater_than")%string;
        try match goal with
            | |- context [daysSince ?k] => destruct (daysSince k) as [| [|] | ? ?]
            end; reflexivity.
  - evaluate_both_sides.
  - intros f op v Hf. unfold evalCondition. cbn [field operator value].
    simpl in Hf.
    repeat match goal with
           | |- context [(f =? ?s)%string] =>
               destruct (String.eqb_spec f s) as [E | _]; [exfalso; apply Hf; rewrite E; tauto |]
           end.
    reflexivity.
  - intros cs c w Hin Hfalse. unfold buildCondition, bind, Date_now, get, ret.
    f_equal. apply not_true_is_false. intros Hall.
    rewrite forallb_forall in Hall. rewrite (Hall c Hin) in Hfalse. discriminate.
Qed.

Lemma buildCondition_operators_witness :
  evalCondition (Scenario.T0 + 3 * day) Scenario.highTicket
    (mkCondition "createdAt" "greater_than" (VStr "2"))
  = evalCondition (Scenario.T0 + 3 * day) Scenario.highTicket
      (mkCondition "createdAt" "greater_than" (VNum 2)) /\
  evalCondition (Scenario.T0 + 3 * day) Scenario.highTicket
    (mkCondition "createdAt" "greater_than" (VNum 2)) = true.
Proof.
  split.
  - apply (proj1 (proj1 (proj2 (proj2 (proj2 (buildCondition_operators
             (Scenario.T0 + 3 * day) Scenario.highTicket))))
           "createdAt" "greater_than" "2" (or_introl eq_refl)) 2).
    vm_compute. reflexivity.
  - apply (proj1 (proj1 (proj2 (proj2 (buildCondition_operators
             (Scenario.T0 + 3 * day) Scenario.highTicket)))
           "createdAt" (createdAt Scenario.highTicket) "greater_than" 2
           (or_introl (conj eq_refl eq_refl)) eq_refl eq_refl)).
    vm_compute. reflexivity.
Defined.

End Conditions.

Section CustomTriggers.
Import Mongoose NotificationService WorkflowService WorkflowAdmin.

Lemma runRules_addRule_ext (name : string) (r r' : Rule) (rules : Registry)
    (trigger_ : string) :
  (forall d w, runRule trigger_ (name, r) d w = runRule trigger_ (name, r') d w) ->
  forall d w,
    runRules (addRule name r rules) trigger_ d w
    = runRules (addRule name r' rules) trigger_ d w.
Proof.
  intros Hsame. induction rules as [| [n0 r0] rest IH]; intros d w; cbn [addRule].
  - cbn [runRules]. unfold bind. rewrite Hsame. reflexivity.
  - destruct (n0 =? name)%string eqn:E; cbn [runRules]; unfold bind.
    + apply String.eqb_eq in E. subst n0. rewrite Hsame. reflexivity.
    + destruct (runRule trigger_ (n0, r0) d w) as [d1 w1 | e w1]; [apply IH | reflexivity].
Qed.

(** X12: a custom rule runs on its own trigger only, and whether or not it
    is enabled.  The rule that [createCustomRule] builds always names a
    trigger (ticket_updated when the rule data names none); under any other
    trigger the loop passes it over, under its own it is evaluated; and the
    [enabled] flag of the rule data changes nothing in what [executeRules]
    does. *)
Theorem custom_rule_trigger_and_flag (rd : RuleData) :
  exists tr,
    trigger (customRule rd) = Some tr /\
    tr <> EmptyString /\
    (rd_trigger rd = None -> tr = "ticket_updated") /\
    (forall trigger_ d, trigger_ <> tr -> runRule trigger_ (customRuleEntry rd) d = ret d) /\
    (forall d, runRule tr (customRuleEntry rd) d = evaluate (customRuleEntry rd) d) /\
    (forall flag rules d trigger_ w,
       executeRules (createCustomRule (withEnabled flag rd) rules) d trigger_ w
       = executeRules (createCustomRule rd rules) d trigger_ w).
Proof.
  set (tr := match rd_trigger rd with
             | Some t => if (t =? EmptyString)%string then "ticket_updated" else t
             | None => "ticket_updated"
             end).
  assert (Hne : tr <> EmptyString).
  { unfold tr. destruct (rd_trigger rd) as [t |]; [| discriminate].
    destruct (String.eqb_spec t EmptyString); [discriminate | assumption]. }
  exists tr. split; [reflexivity |]. split; [exact Hne |].
  split; [| split; [| split]].
  - intros Hnone. unfold tr. now rewrite Hnone.
  - intros trigger_ d Hdiff.
    apply (runRule_other_trigger (rd_name rd) tr (customRule rd) trigger_ d);
      [reflexivity | exact Hne | congruence].
  - intros d. unfold runRule, skipped. cbn [snd customRuleEntry customRule trigger].
    fold tr. apply String.eqb_neq in Hne. rewrite Hne, String.eqb_refl. reflexivity.
  - intros flag rules d trigger_ w. unfold executeRules, tryCatch, bind, createCustomRule.
    cbn [rd_name withEnabled].
    rewrite (runRules_addRule_ext (rd_name rd) (customRule (withEnabled flag rd))
               (customRule rd) rules trigger_); [reflexivity |].
    intros d0 w0. reflexivity.
Qed.

Lemma custom_rule_trigger_and_flag_witness :
  runRule "ticket_created" (customRuleEntry Scenario.tagRule) (loaded Scenario.highTicket)
  = ret (loaded Scenario.highTicket).
Proof.
  destruct (custom_rule_trigger_and_flag Scenario.tagRule) as [tr [Htr [_ [_ [Hskip _]]]]].
  apply Hskip. injection Htr as <-. discriminate.
Defined.

Lemma default_registry :
  initializeDefaultRules =
    [("auto_assign_technical", auto_assign_technical);
     ("escalate_high_priority", escalate_high_priority);
     ("auto_close_inactive", auto_close_inactive);
     ("auto_close_resolved", auto_close_resolved)].
Proof. reflexivity. Qed.

(** X13: the default rules leave an ordinary ticket alone.  For a ticket
    that is not technical, not both urgent and open, and not resolved, no
    condition holds, and [executeRules] returns the world as it was, whatever
    the trigger. *)
Theorem default_rules_idle (d : Doc) (trigger_ : string) (w : World) :
  category (data d) <> "technical" ->
  ~ (priority (data d) = "urgent" /\ status (data d) = "open") ->
  status (data d) <> "resolved" ->
  executeRules initializeDefaultRules d trigger_ w = Ok tt w.
Proof.
  intros Hcat Hurgent Hres.
  apply String.eqb_neq in Hcat. apply String.eqb_neq in Hres.
  assert (Hu : (priority (data d) =? "urgent")%string && (status (data d) =? "open")%string
               = false).
  { destruct (String.eqb_spec (priority (data d)) "urgent") as [Hp | _]; [| reflexivity].
    destruct (String.eqb_spec (status (data d)) "open") as [Hs | _]; [| reflexivity].
    exfalso. now apply Hurgent. }
  unfold executeRules, tryCatch. rewrite default_registry.
  cbv [runRules runRule skipped snd trigger evaluate holds condition
       auto_assign_technical escalate_high_priority auto_close_inactive auto_close_resolved
       bind ret Date_now get].
  rewrite Hcat, Hu, Hres. cbn [andb]. rewrite Hres. reflexivity.
Qed.

Lemma default_rules_idle_witness :
  executeRules initializeDefaultRules (loaded Scenario.highTicket) "ticket_updated"
    Scenario.oneHighTicket = Ok tt Scenario.oneHighTicket.
Proof.
  apply default_rules_idle.
  - discriminate.
  - intros [H _]. discriminate H.
  - discriminate.
Defined.

End CustomTriggers.

Section DefaultRules.
Import Mongoose NotificationService WorkflowService WorkflowAdmin.

(** A notification of a type outside the enum of the schema is refused
    before anything is stored. *)
Lemma createNotification_bad_type (userId type title_ message : string) (o : Options)
    (w : World) :
  strIn type typeEnum = false ->
  createNotification userId type title_ message o w = Throw (ValidationError "type") w.
Proof.
  intros Hbad. unfold createNotification, bind, Date_now, get, invalidNotification.
  cbn [n_type]. rewrite Hbad. reflexivity.
Qed.

(** X14: the default rule that closes inactive tickets closes them
    without telling anyone.  For a resolved ticket (not technical) that was
    not updated for 7 days, [executeRules] stores the ticket closed, by one
    write; the notification of the creator is refused, its type ticket_closed
    not being one of the schema, so none is stored, the error is logged, and
    the last default rule is not reached. *)
Theorem auto_close_without_notice (t : Ticket) (trigger_ : string) (w : World) :
  status t = "resolved" ->
  category t <> "technical" ->
  7 * day <= clock w - updatedAt t ->
  executeRules initializeDefaultRules (loaded t) trigger_ w =
    Ok tt
      (with_console
         (console w ++
            [Log "Executing workflow rule: auto_close_inactive";
             LogError ("Error executing workflow rules for ticket " ++ _id t ++ ":")%string
               (ValidationError "type")])
         (with_tickets
            (put (with_updatedAt (clock w)
                    (with_version (version t + 1) (with_status "closed" t)))
                 (tickets w))
            w)).
Proof.
  intros Hres Hcat Hidle.
  apply String.eqb_neq in Hcat. apply Z.leb_le in Hidle.
  assert (L1 : runRule trigger_ ("auto_assign_technical", auto_assign_technical) (loaded t) w
               = Ok (loaded t) w).
  { unfold runRule, skipped, evaluate, holds, auto_assign_technical.
    cbn [snd trigger condition]. unfold bind, ret. cbn [data loaded]. now rewrite Hcat. }
  assert (L2 : runRule trigger_ ("escalate_high_priority", escalate_high_priority) (loaded t) w
               = Ok (loaded t) w).
  { unfold runRule, skipped, evaluate, holds, escalate_high_priority.
    cbn [snd trigger condition]. unfold bind, ret. cbn [data loaded]. rewrite Hres.
    cbn [String.eqb Ascii.eqb Bool.eqb]. now rewrite andb_false_r. }
  assert (L3 : runRule trigger_ ("auto_close_inactive", auto_close_inactive) (loaded t) w
               = Throw (ValidationError "type")
                   (with_tickets
                      (put (with_updatedAt (clock w)
                              (with_version (version t + 1) (with_status "closed" t)))
                           (tickets w))
                      (with_console
                         (console w ++ [Log "Executing workflow rule: auto_close_inactive"])
                         w))).
  { unfold runRule, skipped, evaluate, holds, auto_close_inactive.
    cbn [snd trigger condition action].
    unfold bind at 1. unfold bind at 1. unfold Date_now, get, ret. cbn [data loaded].
    rewrite Hres, Hidle. cbn [String.eqb Ascii.eqb Bool.eqb andb].
    unfold bind at 1. unfold console_log. cbv beta iota.
    unfold bind at 1.
    assert (Hsave : forall w0,
              save (set_status "closed" (loaded t)) w0 =
              Ok (loaded (with_updatedAt (clock w0)
                            (with_version (version t + 1) (with_status "closed" t))))
                 (with_tickets
                    (put (with_updatedAt (clock w0)
                            (with_version (version t + 1) (with_status "closed" t)))
                         (tickets w0)) w0)).
    { intros w0. unfold set_status. cbn [data loaded]. rewrite Hres. reflexivity. }
    rewrite Hsave. cbv beta iota. unfold bind at 1.
    rewrite createNotification_bad_type by reflexivity. reflexivity. }
  unfold executeRules, tryCatch. rewrite default_registry.
  cbn [runRules]. unfold bind at 1. unfold bind at 1. rewrite L1. cbv beta iota.
  unfold bind at 1. rewrite L2. cbv beta iota.
  unfold bind at 1. rewrite L3.
  unfold console_error, with_console, with_tickets.
  cbn [console tickets users notifications clock random data loaded _id].
  rewrite <- app_assoc. reflexivity.
Qed.

Lemma auto_close_without_notice_witness :
  notifications
    (Scenario.after
       (executeRules initializeDefaultRules
          (loaded (with_status "resolved" (Scenario.ticketAt "t-1" Scenario.T0 "medium")))
          "ticket_updated")
       (Scenario.worldWith
          [with_status "resolved" (Scenario.ticketAt "t-1" Scenario.T0 "medium")]
          (Scenario.T0 + 8 * day)))
  = [].
Proof.
  unfold Scenario.after.
  rewrite (auto_close_without_notice
             (with_status "resolved" (Scenario.ticketAt "t-1" Scenario.T0 "medium"))
             "ticket_updated"
             (Scenario.worldWith
                [with_status "resolved" (Scenario.ticketAt "t-1" Scenario.T0 "medium")]
                (Scenario.T0 + 8 * day))).
  - reflexivity.
  - reflexivity.
  - discriminate.
  - vm_compute. discriminate.
Defined.

End DefaultRules.

Section AutoAssign.
Import Mongoose NotificationService WorkflowService WorkflowAdmin.







End AutoAssign.

(** ** The notification service *)

Section Notifications.
Import Mongoose NotificationService NotificationOrder TicketWatchers.

Lemma In_insert_desc (n x : Notification) (l : list Notification) :
  In x (insert_desc n l) <-> x = n \/ In x l.
Proof.
  induction l as [|y l IH]; simpl.
  - intuition.
  - destruct (n_createdAt y <=? n_createdAt n); simpl; rewrite ?IH; intuition.
Qed.

Lemma In_sort_desc (x : Notification) (l : list Notification) :
  In x (sort_desc l) <-> In x l.
Proof.
  induction l as [|y l IH]; simpl.
  - tauto.
  - rewrite In_insert_desc, IH. intuition.
Qed.

Lemma insert_desc_descending (n : Notification) (l : list Notification) :
  descending l -> descending (insert_desc n l).
Proof.
  induction l as [|y l IH]; simpl.
  - intros _. split; [intros ? []|exact I].
  - intros [Hy Hl]. destruct (n_createdAt y <=? n_createdAt n) eqn:E.
    + apply Z.leb_le in E. simpl. split; [|split; assumption].
      intros z [<-|Hz]; [exact E|]. specialize (Hy z Hz). lia.
    + apply Z.leb_gt in E. simpl. split; [|apply IH; exact Hl].
      intros z Hz. apply In_insert_desc in Hz. destruct Hz as [->|Hz]; [lia|auto].
Qed.

Lemma sort_desc_descending (l : list Notification) : descending (sort_desc l).
Proof.
  induction l as [|y l IH]; simpl; [exact I|].
  apply insert_desc_descending, IH.
Qed.



(** The populated ticket of a listed notification. *)
Lemma populate_ticket (n : Notification) (w : World) (p : Populated) :
  p = mkPopulated n (match n_ticket n with
                     | Some id => lookup id (tickets w)
                     | None => None
                     end) ->
  notif p = n.
Proof. intros ->. reflexivity. Qed.



End Notifications.

(** ** What a notification call can change *)

Section NotificationFrame.
Import Mongoose NotificationService NotificationDoc TicketWatchers.

(** The three ways [createNotification] ends. *)
Lemma createNotification_run (userId type title_ message : string) (o : Options)
    (w : World) :
  createNotification userId type title_ message o w =
  let n := built userId type title_ message o (clock w) in
  match invalidNotification n with
  | Some path => Throw (ValidationError path) w
  | None =>
      let w' := with_notifications (notifications w ++ [n]) w in
      match find (fun u => (u_id u =? userId)%string) (users w) with
      | None =>
          Throw (TypeError "Cannot read properties of null (reading 'preferences')") w'
      | Some _ => Ok n w'
      end
  end.
Proof.
  unfold createNotification, bind, Date_now, get, built. cbv zeta.
  destruct (invalidNotification _); [reflexivity|].
  cbn [users with_notifications].
  destruct (find _ (users w)); reflexivity.
Qed.

(** The validators do not look at the addressee. *)
Lemma invalid_any_user (u u' type title_ message : string) (o : Options) (now now' : Date) :
  invalidNotification (built u type title_ message o now) =
  invalidNotification (built u' type title_ message o now').
Proof. reflexivity. Qed.

Lemma with_notifications_nil (w : World) :
  with_notifications (notifications w ++ []) w = w.
Proof. rewrite app_nil_r. destruct w; reflexivity. Qed.

Lemma with_notifications_twice (l l' : list Notification) (w : World) :
  with_notifications l' (with_notifications l w) = with_notifications l' w.
Proof. reflexivity. Qed.

(** When the document is valid and every addressee has a user document,
    [notifyEach] stores one notification per addressee, in order. *)
Lemma notifyEach_Ok (ids : list ObjectId) (type title_ message : string) (o : Options)
    (w : World) :
  (forall u now, invalidNotification (built u type title_ message o now) = None) ->
  (forall id, In id ids -> exists u, In u (users w) /\ u_id u = id) ->
  let ns := map (fun id => built id type title_ message o (clock w)) ids in
  notifyEach ids type title_ message o w =
  Ok ns (with_notifications (notifications w ++ ns) w).
Proof.
  intros Hvalid. revert w. induction ids as [|id ids IH]; intros w Hin ns.
  - simpl. unfold ret. rewrite with_notifications_nil. reflexivity.
  - cbn [notifyEach]. unfold bind at 1. rewrite createNotification_run. cbv zeta.
    rewrite Hvalid.
    destruct (Hin id (or_introl eq_refl)) as [u [Hu Hid]].
    destruct (find_user (users w) u Hu) as [u' Hfind]. rewrite Hid in Hfind.
    rewrite Hfind. unfold bind at 1.
    rewrite IH.
    + unfold ret. subst ns. cbn [map clock with_notifications notifications].
      rewrite with_notifications_twice, <- app_assoc. reflexivity.
    + intros id' Hid'. cbn [users with_notifications]. apply Hin. right; exact Hid'.
Qed.

(** Whatever happens, [notifyEach] changes the notifications only, by adding
    notifications of the given type and ticket to addressees of its list, at
    most one per addressee. *)
Lemma notifyEach_frame (ids : list ObjectId) (type title_ message : string) (o : Options)
    (w : World) :
  let w' := world_of (notifyEach ids type title_ message o w) in
  exists added,
    w' = with_notifications (notifications w ++ added) w /\
    (List.length added <= List.length ids)%nat /\
    forall n, In n added ->
      In (n_user n) ids /\ n_type n = type /\ n_ticket n = ticketId o /\
      n_createdAt n = clock w.
Proof.
  revert w. induction ids as [|id ids IH]; intros w; cbv zeta.
  - exists []. simpl. rewrite with_notifications_nil. split; [reflexivity|]. split; [lia|]. intros ? [].
  - cbn [notifyEach]. unfold bind at 1. rewrite createNotification_run. cbv zeta.
    destruct (invalidNotification _).
    { exists []. simpl. rewrite with_notifications_nil.
      
      split; [reflexivity|]. split; [lia|]. intros ? []. }
    destruct (find _ (users w)).
    2:{ exists [built id type title_ message o (clock w)]. simpl.
        split; [reflexivity|]. split; [lia|].
        intros n [<-|[]]. simpl. auto. }
    unfold bind at 1.
    match goal with |- context [notifyEach ids _ _ _ _ ?w1] =>
      destruct (IH w1) as [added [Hw [Hlen Hall]]]; cbv zeta in Hw;
      destruct (notifyEach ids type title_ message o w1) as [ns w2|e w2]
    end; cbn [world_of] in *; unfold ret; cbn [world_of].
    all: exists (built id type title_ message o (clock w) :: added).
    all: split; [rewrite Hw; cbn [notifications with_notifications];
                 rewrite with_notifications_twice, <- app_assoc; reflexivity|].
    all: split; [simpl; lia|].
    all: intros n [<-|Hn]; [simpl; auto|].
    all: destruct (Hall n Hn) as [H1 [H2 [H3 H4]]]; simpl; auto.
Qed.

(** The messages about a ticket pass the validators when its title is within
    the 200 characters of the schema. *)
Lemma notice_valid (u type title_ pre post : string) (o : Options) (now : Date) :
  strIn type typeEnum = true ->
  (String.length pre + String.length post <= 298)%nat ->
  (String.length title_ <= 200)%nat ->
  match o_priority o with
  | Some p => p = "medium" \/ p = "high" \/ p = "urgent" \/ p = "low"
  | None => True
  end ->
  forall t0, (0 < String.length t0 <= 200)%nat ->
  invalidNotification (built u type t0 (quoted pre title_ post) o now) = None.
Proof.
  intros Htype Hlen Htitle Hprio t0 Ht0.
  unfold invalidNotification, built, requiredMax. cbn [n_type n_title n_message n_priority].
  rewrite Htype. cbn [negb].
  assert (H0 : (t0 =? EmptyString)%string = false).
  { destruct t0; [simpl in Ht0; lia | reflexivity]. }
  rewrite H0. cbn [negb andb].
  replace (String.length t0 <=? 200)%nat with true
    by (symmetry; apply Nat.leb_le; lia).
  cbn [negb].
  assert (Hq : (String.length (quoted pre title_ post) = String.length pre + String.length title_ + String.length post + 2)%nat).
  { unfold quoted, double_quote. rewrite !length_append. simpl. lia. }
  assert (H1 : (quoted pre title_ post =? EmptyString)%string = false).
  { destruct (quoted pre title_ post); [simpl in Hq; lia | reflexivity]. }
  rewrite H1. cbn [negb andb].
  replace (String.length (quoted pre title_ post) <=? 500)%nat with true
    by (symmetry; apply Nat.leb_le; lia).
  cbn [negb].
  destruct (o_priority o) as [p|]; [|reflexivity].
  destruct Hprio as [-> | [-> | [-> | ->]]]; reflexivity.
Qed.

(** X17 ([notifyTicketUpdated], notificationService.js:212-240): whatever
    happens, the call changes the notifications only, and each one it adds
    is a ticket_updated notification about this ticket for its creator or
    its assignee, never for the user who made the update.  When the title is
    within its 200 characters and the watchers have user documents, it
    returns one notification per watcher other than the updater, in order:
    creator, then assignee; the set of the source drops no duplicate, so a
    creator who is also the assignee is notified twice. *)
Theorem update_notice_skips_the_updater (ticket : Ticket) (updatedBy : ObjectId)
    (w : World) :
  (exists added,
     world_of (notifyTicketUpdated ticket updatedBy w)
       = with_notifications (notifications w ++ added) w /\
     forall n, In n added ->
       n_user n <> updatedBy /\
       (n_user n = createdBy ticket \/ assignedTo ticket = Some (n_user n)) /\
       n_type n = "ticket_updated" /\ n_ticket n = Some (_id ticket)) /\
  ((0 < String.length (title ticket) <= 200)%nat ->
   (forall id, In id (watchers ticket) -> exists u, In u (users w) /\ u_id u = id) ->
   exists ns,
     notifyTicketUpdated ticket updatedBy w
       = Ok ns (with_notifications (notifications w ++ ns) w) /\
     map n_user ns
       = List.filter (fun id => negb (id =? updatedBy)%string) (watchers ticket)).
Proof.
  unfold notifyTicketUpdated. split.
  - match goal with |- context [notifyEach ?ids ?ty ?ti ?m ?o w] =>
      destruct (notifyEach_frame ids ty ti m o w) as [added [Hw [_ Hall]]]
    end.
    cbv zeta in Hw. exists added. split; [exact Hw|].
    intros n Hn. destruct (Hall n Hn) as [Hu [Hty [Htk _]]].
    apply filter_In in Hu. destruct Hu as [Hwatch Hneq].
    split; [|split; [|split; assumption]].
    + intros Heq. rewrite Heq, String.eqb_refl in Hneq. discriminate.
    + unfold watchers in Hwatch. destruct Hwatch as [<-|Hwatch]; [left; reflexivity|].
      destruct (assignedTo ticket) as [a|]; [|destruct Hwatch].
      destruct Hwatch as [<-|[]]. right; reflexivity.
  - intros Hlen Husers. eexists. split.
    + apply notifyEach_Ok.
      * intros u now. apply notice_valid with (pre := "Ticket ") (post := " has been updated.");
          try reflexivity; simpl; try lia. tauto.
      * intros id Hid. apply filter_In in Hid. apply Husers, Hid.
    + rewrite map_map. simpl. apply map_id.
Qed.

Lemma update_notice_skips_the_updater_witness :
  exists ns,
    notifyTicketUpdated Scenario.staleHigh "u-bob"
        (Scenario.worldWith [Scenario.staleHigh] Scenario.T0)
      = Ok ns (with_notifications
                 (notifications (Scenario.worldWith [Scenario.staleHigh] Scenario.T0)
                  ++ ns)
                 (Scenario.worldWith [Scenario.staleHigh] Scenario.T0)) /\
    map n_user ns
      = List.filter (fun id => negb (id =? "u-bob")%string)
          (watchers Scenario.staleHigh).
Proof.
  apply (proj2 (update_notice_skips_the_updater Scenario.staleHigh "u-bob"
                  (Scenario.worldWith [Scenario.staleHigh] Scenario.T0))).
  - vm_compute. lia.
  - intros id Hid. vm_compute in Hid. vm_compute.
    destruct Hid as [<-|[<-|[]]].
    + exists Scenario.alice. split; [left; reflexivity | reflexivity].
    + exists Scenario.bob. split; [right; left; reflexivity | reflexivity].
Defined.

End NotificationFrame.

(** ** POST /api/tickets and its notifications *)

Section PostNotices.
Import Mongoose NotificationService NotificationDoc TicketRoutes.

Lemma lengthBetween_bounds (s : string) (lo hi : nat) :
  lengthBetween s lo hi = true -> (lo <= String.length s <= hi)%nat.
Proof.
  unfold lengthBetween. intros H. apply andb_prop in H. destruct H as [H1 H2].
  apply Nat.leb_le in H1. apply Nat.leb_le in H2. lia.
Qed.

Lemma validPost_title (b : PostBody) :
  validPost b = true -> (5 <= String.length (b_title b) <= 200)%nat.
Proof.
  unfold validPost. intros H.
  do 4 (apply andb_prop in H; destruct H as [H _]).
  apply lengthBetween_bounds, H.
Qed.

(** X18 (POST /api/tickets, lines 131-180 of the routes file, with
    [notifyTicketCreated], notificationService.js:168-196): a body that fails
    the validators is answered 400 and changes nothing.  A valid body posted
    by a user of the store is answered 201: the new ticket is appended to the
    tickets, the creator receives one ticket_created notification of medium
    priority, and after it every active agent of the store receives one of
    high priority, in the order of the store (an active agent who posts
    receives both); nothing else changes. *)
Theorem post_notifies_creator_and_agents (user : User) (newId : ObjectId)
    (b : PostBody) (w : World) :
  (validPost b = false -> postTicket user newId b w = Ok BadRequest w) /\
  (validPost b = true -> In user (users w) ->
   let ticket :=
     newTicket newId (clock w) (b_title b) (b_description b) (b_category b)
       (match b_priority b with Some p => p | None => "medium" end)
       (match b_tags b with Some l => l | None => [] end) (u_id user) in
   let agents := List.filter (fun u => (role u =? "agent")%string && isActive u) (users w) in
   let forCreator :=
     built (u_id user) "ticket_created" "Ticket Created"
       (quoted "Your ticket " (b_title b) " has been created successfully.")
       (mkOptions (Some newId) (Some "medium")) (clock w) in
   let forAgent (agent : User) :=
     built (u_id agent) "ticket_created" "New Ticket Created"
       (quoted "A new ticket " (b_title b) " has been created and needs attention.")
       (mkOptions (Some newId) (Some "high")) (clock w) in
   postTicket user newId b w =
   Ok (Created ticket)
      (with_notifications (notifications w ++ forCreator :: map forAgent agents)
         (with_tickets (tickets w ++ [ticket]) w))).
Proof.
  split.
  - intros Hv. unfold postTicket, tryCatch. rewrite Hv. reflexivity.
  - intros Hv Huser. cbv zeta.
    pose proof (validPost_title b Hv) as Hlen.
    unfold postTicket, tryCatch. rewrite Hv. cbn [negb].
    unfold bind at 1. unfold Date_now, get. unfold bind at 1. unfold insert at 1.
    unfold bind at 1. unfold notifyTicketCreated.
    unfold bind at 1. rewrite createNotification_run. cbv zeta.
    cbn [title _id createdBy newTicket].
    rewrite notice_valid with (pre := "Your ticket ")
      (post := " has been created successfully."); try reflexivity; simpl; try lia; try tauto.
    destruct (find_user (users w) user Huser) as [u' Hfind].
    cbn [users with_tickets clock]. rewrite Hfind.
    unfold bind at 1. unfold User_find at 1.
    cbn [users with_notifications with_tickets].
    unfold bind at 1.
    rewrite notifyEach_Ok.
    + unfold ret. cbn [notifications clock with_notifications with_tickets tickets users console random].
      rewrite map_map, <- app_assoc. reflexivity.
    + intros u now. apply notice_valid with (pre := "A new ticket ")
        (post := " has been created and needs attention.");
        try reflexivity; simpl; try lia; tauto.
    + intros id Hid. apply in_map_iff in Hid. destruct Hid as [a [<- Ha]].
      apply filter_In in Ha. exists a. split; [apply Ha | reflexivity].
Qed.

Lemma post_notifies_creator_and_agents_witness :
  statusCode
    match postTicket Scenario.bob "t-9" Scenario.urgentPost (Scenario.emptyWorld Scenario.T0) with
    | Ok r _ => r
    | Throw _ _ => ServerError
    end = 201.
Proof.
  rewrite (proj2 (post_notifies_creator_and_agents Scenario.bob "t-9" Scenario.urgentPost
                    (Scenario.emptyWorld Scenario.T0)) eq_refl
             (or_intror (or_introl eq_refl))).
  reflexivity.
Defined.

End PostNotices.

(** ** The look-back of the SLA handlers *)

Section LookBack.
Import Mongoose NotificationService NotificationOrder SLAService.

(** The page of one entry holds the newest notification of the user. *)
Lemma latest_page (u : ObjectId) (w : World) (n : Notification) :
  In n (notifications w) -> n_user n = u ->
  (forall m, In m (notifications w) -> n_user m = u ->
     n_createdAt n <= n_createdAt m -> m = n) ->
  getNotifications u 1 w =
  Ok [mkPopulated n (match n_ticket n with
                     | Some id => lookup id (tickets w)
                     | None => None
                     end)] w.
Proof.
  intros Hn Hu Hlatest. unfold getNotifications.
  set (mine := List.filter (fun n => (n_user n =? u)%string) (notifications w)).
  assert (Hmine : In n (sort_desc mine)).
  { apply In_sort_desc. unfold mine. apply filter_In. split; [exact Hn|].
    apply String.eqb_eq. exact Hu. }
  pose proof (sort_desc_descending mine) as Hd.
  assert (Hsub : forall x, In x (sort_desc mine) -> In x (notifications w) /\ n_user x = u).
  { intros x Hx. apply (proj1 (In_sort_desc _ _)) in Hx. unfold mine in Hx.
    apply filter_In in Hx. destruct Hx as [Hx Hxu]. apply String.eqb_eq in Hxu. auto. }
  destruct (sort_desc mine) as [|x l]; [destruct Hmine|].
  assert (Hx : x = n).
  { destruct (Hsub x (or_introl eq_refl)) as [Hxin Hxu].
    apply Hlatest; [exact Hxin | exact Hxu |].
    destruct Hmine as [->|Hin]; [lia|]. destruct Hd as [Hd _]. apply Hd, Hin. }
  subst x. destruct l; reflexivity.
Qed.

Lemma no_page (u : ObjectId) (k : nat) (w : World) :
  (forall m, In m (notifications w) -> n_user m <> u) ->
  getNotifications u k w = Ok [] w.
Proof.
  intros Hnone. unfold getNotifications.
  replace (List.filter (fun n => (n_user n =? u)%string) (notifications w)) with (@nil Notification).
  - destruct k; reflexivity.
  - symmetry. induction (notifications w) as [|m l IH]; [reflexivity|]. simpl.
    destruct (n_user m =? u)%string eqn:E.
    + apply String.eqb_eq in E. exfalso. exact (Hnone m (or_introl eq_refl) E).
    + apply IH. intros m' Hm'. apply Hnone. right; exact Hm'.
Qed.

(** X19 ([handleSLAWarning], lines 525-542 of the service file): the handler
    decides on the newest notification of the creator alone.  For a creator
    without notifications it sends the warning.  When the creator's newest
    notification is an sla_warning about this stored ticket, less than an
    hour old, the handler does nothing at all; when the newest one is of
    another type, about another ticket, or an hour old or more, it sends the
    warning, whatever older notifications there are. *)
Theorem warning_decided_by_newest_notification (d : Doc) (w : World) :
  ((forall m, In m (notifications w) -> n_user m <> createdBy (data d)) ->
   handleSLAWarning d w = (notifySLAWarning (data d) ;; ret tt)%async w) /\
  (forall n,
     In n (notifications w) -> n_user n = createdBy (data d) ->
     (forall m, In m (notifications w) -> n_user m = createdBy (data d) ->
        n_createdAt n <= n_createdAt m -> m = n) ->
     (n_type n = "sla_warning" ->
      n_ticket n = Some (_id (data d)) ->
      lookup (_id (data d)) (tickets w) <> None ->
      clock w - 60 * 60 * 1000 < n_createdAt n ->
      handleSLAWarning d w = Ok tt w) /\
     (n_type n <> "sla_warning" \/
      n_ticket n <> Some (_id (data d)) \/
      n_createdAt n <= clock w - 60 * 60 * 1000 ->
      handleSLAWarning d w = (notifySLAWarning (data d) ;; ret tt)%async w)).
Proof.
  split.
  - intros Hnone. unfold handleSLAWarning. unfold bind at 1.
    rewrite (no_page _ 1 w Hnone). reflexivity.
  - intros n Hn Hu Hlatest.
    assert (Hrun : handleSLAWarning d w =
      if recent "sla_warning" (data d) (clock w - 60 * 60 * 1000)
           (mkPopulated n (match n_ticket n with
                           | Some id => lookup id (tickets w)
                           | None => None
                           end))
      then Ok tt w else (notifySLAWarning (data d) ;; ret tt)%async w).
    { unfold handleSLAWarning. unfold bind at 1.
      rewrite (latest_page _ w n Hn Hu Hlatest).
      unfold bind at 1. unfold Date_now, get. cbn [existsb]. rewrite orb_false_r.
      destruct (recent _ _ _ _); reflexivity. }
    rewrite Hrun. unfold recent. cbn [notif p_ticket]. split.
    + intros Hty Htk Hstored Hnew. rewrite Hty, Htk. cbn [String.eqb Ascii.eqb Bool.eqb andb].
      destruct (lookup (_id (data d)) (tickets w)) as [t'|] eqn:E; [|congruence].
      rewrite (lookup_id _ _ _ E), String.eqb_refl.
      replace (clock w - 60 * 60 * 1000 <? n_createdAt n) with true
        by (symmetry; apply Z.ltb_lt; exact Hnew).
      reflexivity.
    + intros [Hty | [Htk | Hold]].
      * apply String.eqb_neq in Hty. rewrite Hty. reflexivity.
      * destruct (n_type n =? "sla_warning")%string; [|reflexivity]. cbn [andb].
        destruct (n_ticket n) as [id|]; [|reflexivity].
        destruct (lookup id (tickets w)) as [t'|] eqn:E; [|reflexivity].
        rewrite (lookup_id _ _ _ E).
        replace (id =? _id (data d))%string with false; [reflexivity|].
        symmetry. apply String.eqb_neq. congruence.
      * replace (clock w - 60 * 60 * 1000 <? n_createdAt n) with false
          by (symmetry; apply Z.ltb_ge; exact Hold).
        rewrite andb_false_r. reflexivity.
Qed.

Lemma warning_decided_by_newest_notification_witness :
  handleSLAWarning (loaded Scenario.dueSoon)
    (with_clock (Scenario.T0 + Scenario.minutes 10) Scenario.firstScan)
  = Ok tt (with_clock (Scenario.T0 + Scenario.minutes 10) Scenario.firstScan).
Proof.
  refine (proj1 (proj2 (warning_decided_by_newest_notification
                          (loaded Scenario.dueSoon)
                          (with_clock (Scenario.T0 + Scenario.minutes 10) Scenario.firstScan))
                   (NotificationDoc.built "u-alice" "sla_warning" "SLA Warning"
                      (quoted "Ticket " "Printer on fire" " is approaching its SLA deadline.")
                      (mkOptions (Some "t-2") (Some "high")) Scenario.T0)
                   _ _ _) _ _ _ _).
  - vm_compute. left. reflexivity.
  - reflexivity.
  - intros m Hm _ _. vm_compute in Hm. destruct Hm as [<- | []]. reflexivity.
  - reflexivity.
  - reflexivity.
  - vm_compute. discriminate.
  - vm_compute. reflexivity.
Defined.

End LookBack.

(** ** PATCH /api/tickets/:id: who may change a ticket, and what changes *)

Section Patch.
Import Mongoose TicketRoutes.

Lemma canBeModified_roles (t : Ticket) (user : User) :
  TicketModel.canBeModified t (role user) (u_id user) = true <->
  role user = "admin" \/
  (role user = "agent" /\ (assignedTo t = None \/ assignedTo t = Some (u_id user))) \/
  (role user = "user" /\ createdBy t = u_id user /\ status t = "open").
Proof.
  unfold TicketModel.canBeModified.
  destruct (role user =? "admin")%string eqn:Ea.
  { apply String.eqb_eq in Ea. tauto. }
  apply String.eqb_neq in Ea.
  destruct (role user =? "agent")%string eqn:Eg.
  - apply String.eqb_eq in Eg. cbn [andb].
    destruct (assignedTo t) as [a|].
    + destruct (a =? u_id user)%string eqn:E.
      * apply String.eqb_eq in E. subst a. tauto.
      * apply String.eqb_neq in E. rewrite Eg. cbn [String.eqb Ascii.eqb Bool.eqb andb].
        split; [discriminate|].
        intros [H|[[_ [H|H]]|[H _]]]; try discriminate; try congruence.
    + tauto.
  - apply String.eqb_neq in Eg. cbn [andb].
    destruct (role user =? "user")%string eqn:Eu; cbn [andb].
    + apply String.eqb_eq in Eu.
      destruct (createdBy t =? u_id user)%string eqn:Ec; cbn [andb].
      * apply String.eqb_eq in Ec.
        destruct (status t =? "open")%string eqn:Es.
        -- apply String.eqb_eq in Es. tauto.
        -- apply String.eqb_neq in Es. split; [discriminate|]. tauto.
      * apply String.eqb_neq in Ec. split; [discriminate|]. tauto.
    + apply String.eqb_neq in Eu. split; [discriminate|]. tauto.
Qed.

(** Whoever may modify a ticket passes the access check before it. *)
Lemma canBeModified_canAccess (t : Ticket) (user : User) :
  TicketModel.canBeModified t (role user) (u_id user) = true -> canAccess user t = true.
Proof.
  unfold TicketModel.canBeModified, canAccess.
  destruct (role user =? "admin")%string; [reflexivity|].
  destruct (role user =? "agent")%string; cbn [andb].
  - destruct (assignedTo t) as [a|]; [|reflexivity].
    destruct (a =? u_id user)%string; [reflexivity|].
    destruct (role user =? "user")%string; cbn [andb]; [|discriminate].
    destruct (createdBy t =? u_id user)%string; [reflexivity|discriminate].
  - destruct (role user =? "user")%string; cbn [andb]; [|discriminate].
    destruct (createdBy t =? u_id user)%string; [reflexivity|discriminate].
Qed.

(** X20 (PATCH /api/tickets/:id, lines 321-396 of the routes file, with
    [canAccessTicket] and [canBeModified], Ticket.js:168-173): for a stored
    ticket and a well-formed body carrying the stored version, the request
    is carried out exactly for an admin, for an agent when the ticket is
    unassigned or assigned to that agent, and for a user who created the
    ticket while it is open; everybody else is answered 403 and nothing
    changes.  So the creator of a ticket can no longer change it once it has
    left the status open. *)
Theorem who_may_patch (user : User) (id : ObjectId) (b : PatchBody) (t : Ticket)
    (w : World) :
  lookup id (tickets w) = Some t ->
  validPatch b = true -> updateValid b = true -> version t = p_version b ->
  let allowed :=
    role user = "admin" \/
    (role user = "agent" /\ (assignedTo t = None \/ assignedTo t = Some (u_id user))) \/
    (role user = "user" /\ createdBy t = u_id user /\ status t = "open") in
  (allowed ->
   patchTicket user id b w =
   Ok (Updated (applyUpdate (clock w) b t))
      (with_tickets (put (applyUpdate (clock w) b t) (tickets w)) w)) /\
  (~ allowed -> patchTicket user id b w = Ok Forbidden w).
Proof.
  intros Hfind Hvalid Htags Hversion allowed.
  rewrite (patchTicket_found w user id b t Hfind), Hvalid, Htags, Hversion, Z.eqb_refl.
  cbn [negb]. subst allowed. rewrite <- canBeModified_roles. split.
  - intros H. rewrite H, (canBeModified_canAccess t user H). reflexivity.
  - intros H. apply not_true_is_false in H. rewrite H.
    destruct (canAccess user t); reflexivity.
Qed.

Lemma who_may_patch_witness :
  patchTicket Scenario.alice "t-1" Requests.reopen
    (Scenario.worldWith [Scenario.cancelledTicket] Scenario.T0)
  = Ok Forbidden (Scenario.worldWith [Scenario.cancelledTicket] Scenario.T0).
Proof.
  apply (proj2 (who_may_patch Scenario.alice "t-1" Requests.reopen Scenario.cancelledTicket
                  (Scenario.worldWith [Scenario.cancelledTicket] Scenario.T0)
                  eq_refl eq_refl eq_refl eq_refl)).
  intros [H | [[H _] | [_ [_ H]]]]; discriminate H.
Defined.

(** The paths of the ticket that the status part of an update decides. *)
Lemma applyUpdate_status (now : Date) (b : PatchBody) (t : Ticket) :
  status (applyUpdate now b t) = match p_status b with Some s => s | None => status t end /\
  updatedAt (applyUpdate now b t) = now /\
  _id (applyUpdate now b t) = _id t /\
  createdBy (applyUpdate now b t) = createdBy t /\
  internalNotes (applyUpdate now b t) = internalNotes t.
Proof.
  unfold applyUpdate.
  destruct (p_title b), (p_description b), (p_status b), (p_priority b),
    (p_assignedTo b), (p_tags b); simpl;
    repeat match goal with
           | |- context [if ?c then _ else _] => destruct c; simpl
           end; auto.
Qed.

Lemma patchTicket_missing (user : User) (id : ObjectId) (b : PatchBody) (w : World) :
  lookup id (tickets w) = None -> patchTicket user id b w = Ok NotFound w.
Proof.
  intros Hfind. unfold patchTicket, bind, Ticket_findById. rewrite Hfind. reflexivity.
Qed.

(** X22 (PATCH /api/tickets/:id, lines 321-396): the handler always answers,
    and whatever it answers it sends no notification (the new assignee of a
    ticket is not told, nor are its watchers) and leaves the users and every
    other ticket as they were.  Answering 200 it has stored the ticket it
    returns under the id of the request; answering anything else it has
    changed no ticket. *)
Theorem patch_touches_one_ticket (user : User) (id : ObjectId) (b : PatchBody) (w : World) :
  exists r w',
    patchTicket user id b w = Ok r w' /\
    notifications w' = notifications w /\
    users w' = users w /\
    (forall other, other <> id -> lookup other (tickets w') = lookup other (tickets w)) /\
    (forall t', r = Updated t' -> lookup id (tickets w') = Some t') /\
    (statusCode r <> 200 -> tickets w' = tickets w).
Proof.
  destruct (lookup id (tickets w)) as [t|] eqn:Hfind.
  - rewrite (patchTicket_found w user id b t Hfind).
    repeat match goal with
           | |- context [if ?c then _ else _] => destruct c
           end.
    all: eexists; eexists; (split; [reflexivity|]).
    all: cbn [notifications users tickets with_tickets with_console statusCode].
    all: split; [reflexivity|]; split; [reflexivity|].
    all: try (split; [reflexivity|]; split; [intros ? H; discriminate H | reflexivity]).
    destruct (applyUpdate_status (clock w) b t) as [_ [_ [Hid _]]].
    pose proof (lookup_id _ _ _ Hfind) as Hid'.
    split; [|split].
    + intros other Hother. apply lookup_put_other. congruence.
    + intros t' H. injection H as <-. apply (lookup_put id (tickets w) t); congruence.
    + intros H. exfalso. apply H. reflexivity.
  - rewrite (patchTicket_missing user id b w Hfind).
    eexists; eexists; split; [reflexivity|].
    split; [reflexivity|]. split; [reflexivity|]. split; [reflexivity|].
    split; [intros ? H; discriminate H | reflexivity].
Qed.

Lemma patch_touches_one_ticket_witness :
  exists r w',
    patchTicket Scenario.bob "t-1" Scenario.makeUrgent Scenario.oneTicket = Ok r w' /\
    notifications w' = notifications Scenario.oneTicket.
Proof.
  destruct (patch_touches_one_ticket Scenario.bob "t-1" Scenario.makeUrgent Scenario.oneTicket)
    as [r [w' [H1 [H2 _]]]].
  exists r, w'. split; assumption.
Defined.

End Patch.

(** ** DELETE /api/tickets/:id *)

Section Cancel.
Import Mongoose SLAService TicketCancel.





End Cancel.

(** ** The ticket lists *)

Section Lists.
Import Mongoose TicketList UserRoutes.

(** X24 (GET /api/tickets, the filter of lines 215-242 of the routes file):
    a user is listed own tickets only, with or without a search.  An agent
    who does not search is listed only tickets assigned to that agent or to
    nobody; the search assigns the same [$or] key of the filter, so an agent
    who searches is listed exactly what an admin with the same query is,
    tickets assigned to other agents included. *)
Theorem list_filter_by_role (regexTest : string -> string -> bool) (user : User)
    (q : ListQuery) (t : Ticket) :
  (role user = "user" -> listFilter regexTest user q t = true -> createdBy t = u_id user) /\
  (role user = "agent" -> given (l_search q) = None ->
   listFilter regexTest user q t = true ->
   assignedTo t = None \/ assignedTo t = Some (u_id user)) /\
  (role user = "agent" -> given (l_search q) <> None ->
   forall admin, role admin = "admin" ->
     listFilter regexTest user q t = listFilter regexTest admin q t).
Proof.
  unfold listFilter. split; [|split].
  - intros Hrole H. rewrite Hrole in H. cbn [String.eqb Ascii.eqb Bool.eqb] in H.
    do 5 (apply andb_prop in H; destruct H as [H _]).
    apply String.eqb_eq. exact H.
  - intros Hrole Hsearch H. rewrite Hrole, Hsearch in H.
    cbn [String.eqb Ascii.eqb Bool.eqb andb] in H.
    do 4 (apply andb_prop in H; destruct H as [H _]).
    unfold ownOrUnassigned in H. destruct (assignedTo t) as [a|]; [|left; reflexivity].
    apply String.eqb_eq in H. subst a. right; reflexivity.
  - intros Hrole Hsearch admin Hadmin. rewrite Hrole, Hadmin.
    cbn [String.eqb Ascii.eqb Bool.eqb andb].
    destruct (given (l_search q)); [reflexivity | congruence].
Qed.

Lemma list_filter_by_role_witness :
  listFilter String.eqb Scenario.bob
    (mkListQuery None None None None (Some "printer")) Scenario.staleHigh
  = listFilter String.eqb Scenario.root
    (mkListQuery None None None None (Some "printer")) Scenario.staleHigh.
Proof.
  apply (proj2 (proj2 (list_filter_by_role String.eqb Scenario.bob
                         (mkListQuery None None None None (Some "printer"))
                         Scenario.staleHigh)) eq_refl);
    [discriminate | reflexivity].
Defined.

(** X25 (the pagination object of the list routes, lines 259-276 of the
    routes file and 265-280 of the user routes): for a count of at least 0
    and a page and a limit of at least 1, [totalPages] is the least number of
    pages of [limit] items that hold [total] items, [hasNext] says that items
    remain after this page, and [hasPrev] that the page is not the first. *)
Theorem pagination_arithmetic (total page limit : Z) :
  0 <= total -> 1 <= page -> 1 <= limit ->
  let p := pagination total page limit in
  0 <= totalPages p /\
  (totalPages p - 1) * limit < total <= totalPages p * limit /\
  (hasNext p = true <-> page * limit < total) /\
  (hasPrev p = true <-> 1 < page) /\
  currentPage p = page /\ totalItems p = total /\ itemsPerPage p = limit.
Proof.
  intros Htotal Hpage Hlimit. unfold pagination. cbv zeta.
  cbn [totalPages hasNext hasPrev currentPage totalItems itemsPerPage].
  unfold TicketModel.ceil_div.
  pose proof (Z.mul_div_le (total + limit - 1) limit ltac:(lia)) as Hlo.
  pose proof (Z.mul_succ_div_gt (total + limit - 1) limit ltac:(lia)) as Hhi.
  set (T := (total + limit - 1) / limit) in *.
  assert (H0 : 0 <= T) by (apply Z.div_pos; lia).
  split; [exact H0|]. split; [nia|]. split; [|split; [|auto]].
  - rewrite Z.ltb_lt. split; intros H; nia.
  - rewrite Z.ltb_lt. tauto.
Qed.

Lemma pagination_arithmetic_witness :
  hasNext (pagination 25 2 10) = true <-> 2 * 10 < 25.
Proof.
  apply (pagination_arithmetic 25 2 10); lia.
Defined.








End Lists.

(** ** DELETE /api/users/:id *)

Section Deactivate.
Import Mongoose NotificationService WorkflowService UserRoutes.




End Deactivate.

(** ** The counts of the SLA statistics *)

Section Counts.
Import Mongoose SLAService SLAStats.

Lemma sumIf_split (f g h : Ticket -> bool) (l : list Ticket) :
  (forall t, In t l -> f t = g t || h t) ->
  (forall t, In t l -> g t && h t = false) ->
  sumIf f l = (sumIf g l + sumIf h l)%nat.
Proof.
  unfold sumIf. induction l as [|x l IH]; intros Hor Hdis; [reflexivity|].
  cbn [List.filter]. rewrite (Hor x (or_introl eq_refl)).
  pose proof (Hdis x (or_introl eq_refl)) as Hx.
  assert (IH' : List.length (List.filter f l) =
                (List.length (List.filter g l) + List.length (List.filter h l))%nat).
  { apply IH; intros t Ht; [apply Hor | apply Hdis]; right; exact Ht. }
  destruct (g x), (h x); try discriminate Hx; cbn [orb List.length]; lia.
Qed.

Lemma sumIf_le (f : Ticket -> bool) (l : list Ticket) :
  (sumIf f l <= List.length l)%nat.
Proof. unfold sumIf. apply List.filter_length_le. Qed.

Lemma sumIf_disjoint (g h : Ticket -> bool) (l : list Ticket) :
  (forall t, In t l -> g t && h t = false) ->
  (sumIf g l + sumIf h l <= List.length l)%nat.
Proof.
  intros Hdis.
  rewrite <- (sumIf_split (fun t => g t || h t) g h l); [apply sumIf_le | reflexivity | exact Hdis].
Qed.

(** X28 (the counts of [getSLAStats], lines 641-719 of the service file):
    the statistics read the store without changing it and leave cancelled
    tickets out.  The count called onTime is the number of resolved or closed
    tickets plus the number of breached ones: an open or in-progress ticket
    is counted on time exactly when its due date has passed, which is when
    it is counted breached.  No ticket is counted both breached and warning,
    so these two counts together stay within the total. *)
Theorem sla_counts_on_time_includes_breached (w : World) :
  let group := List.filter matched (tickets w) in
  exists c,
    getSLACounts w = Ok c w /\
    totalTickets c = List.length group /\
    (forall t, In t group <-> In t (tickets w) /\
       In (status t) ["open"; "in_progress"; "resolved"; "closed"]) /\
    breached c = sumIf (breachedFilter (clock w)) (tickets w) /\
    onTime c = (sumIf (fun t => strIn (status t) ["resolved"; "closed"]) group
                + breached c)%nat /\
    (breached c + warning c <= totalTickets c)%nat.
Proof.
  intros group. eexists. split; [reflexivity|].
  cbn [totalTickets onTime breached warning]. fold group.
  split; [reflexivity|]. split; [|split; [|split]].
  - intros t. unfold group. rewrite filter_In. unfold matched. rewrite strIn_In. tauto.
  - unfold sumIf, group.
    assert (H : forall l, List.filter (countsBreached (clock w)) (List.filter matched l)
                          = List.filter (breachedFilter (clock w)) l).
    { induction l as [|x l IH]; [reflexivity|]. cbn [List.filter].
      destruct (matched x) eqn:Em.
      - cbn [List.filter]. change (countsBreached (clock w) x) with (breachedFilter (clock w) x).
        destruct (breachedFilter (clock w) x); rewrite IH; reflexivity.
      - replace (breachedFilter (clock w) x) with false; [exact IH|].
        symmetry. unfold breachedFilter, openOrInProgress.
        unfold matched, strIn in Em. cbn [existsb] in Em.
        unfold strIn. cbn [existsb].
        destruct (status x =? "open")%string; [discriminate Em|].
        destruct (status x =? "in_progress")%string; [discriminate Em|].
        reflexivity. }
    rewrite H. reflexivity.
  - apply sumIf_split.
    + intros t Ht. unfold countsOnTime, countsBreached, openOrInProgress, strIn.
      cbn [existsb]. unfold group in Ht. apply filter_In in Ht. destruct Ht as [_ Hm].
      unfold matched, strIn in Hm. cbn [existsb] in Hm.
      destruct (status t =? "open")%string, (status t =? "in_progress")%string,
        (status t =? "resolved")%string, (status t =? "closed")%string,
        (dueDate (sla t) <? clock w); try discriminate Hm; reflexivity.
    + intros t Ht. unfold countsBreached, openOrInProgress, strIn. cbn [existsb].
      destruct (String.eqb_spec (status t) "open") as [E|E];
        [rewrite E; reflexivity|].
      destruct (String.eqb_spec (status t) "in_progress") as [E'|E'];
        [rewrite E'; reflexivity|].
      cbn [orb andb]. apply andb_false_r.
  - apply sumIf_disjoint. intros t _. unfold countsBreached, countsWarning.
    destruct (openOrInProgress t); [|reflexivity]. cbn [andb].
    destruct (dueDate (sla t) <? clock w) eqn:E; [|reflexivity].
    apply Z.ltb_lt in E.
    replace (clock w <=? dueDate (sla t)) with false by (symmetry; apply Z.leb_gt; lia).
    reflexivity.
Qed.

Lemma sla_counts_on_time_includes_breached_witness :
  exists c,
    getSLACounts Scenario.orphanBreach = Ok c Scenario.orphanBreach /\
    (breached c + warning c <= totalTickets c)%nat.
Proof.
  destruct (sla_counts_on_time_includes_breached Scenario.orphanBreach)
    as [c [H1 [_ [_ [_ [_ H2]]]]]].
  exists c. split; assumption.
Defined.

End Counts.

(** ** POST /api/workflow/test *)

Section TestRule.
Import Mongoose WorkflowService WorkflowAdmin.

(** X29 (POST /api/workflow/test over [testRule], workflowService.js:251-267
    and routes/workflow.js:70-94): only agents and admins get past the role
    check.  For a name without rule the answer is 404, and only the console
    changes.  For a custom rule the test is a dry run: the answer tells
    whether all conditions of the rule hold, at the clock, for the ticket
    data given; it is the same whatever the actions, the trigger and the
    [enabled] flag of the rule are, and nothing at all is changed. *)
Theorem test_rule_is_a_dry_run (user : User) (name : string) (ticketData : Ticket)
    (w : World) :
  (role user <> "agent" -> role user <> "admin" ->
   forall rules, testRule user rules name ticketData w = Ok TestForbidden w) /\
  (role user = "agent" \/ role user = "admin" -> name <> EmptyString ->
   (forall rules, getRule name rules = None ->
      exists w',
        testRule user rules name ticketData w = Ok RuleNotFound w' /\
        tickets w' = tickets w /\ users w' = users w /\
        notifications w' = notifications w) /\
   (forall rd rules, rd_name rd = name ->
      let holds_ :=
        forallb (evalCondition (clock w) (mockTicket ticketData)) (rd_conditions rd) in
      testRule user (createCustomRule rd rules) name ticketData w =
      Ok (TestResult holds_ holds_) w)).
Proof.
  unfold testRule. split.
  - intros H1 H2 rules. apply String.eqb_neq in H1, H2.
    unfold strIn. cbn [existsb]. rewrite H1, H2. reflexivity.
  - intros Hrole Hname.
    assert (Hpass : strIn (role user) ["agent"; "admin"] = true).
    { apply strIn_In. simpl. destruct Hrole as [-> | ->]; auto. }
    rewrite Hpass. apply String.eqb_neq in Hname. rewrite Hname. cbn [negb].
    split.
    + intros rules Hnone. rewrite Hnone. eexists. split; [reflexivity|]. auto.
    + intros rd rules <-. unfold createCustomRule. rewrite getRule_addRule_same.
      reflexivity.
Qed.

Lemma test_rule_is_a_dry_run_witness :
  testRule Scenario.bob
    (createCustomRule RuleExamples.agedRule WorkflowService.initializeDefaultRules)
    "aged" Scenario.highTicket RuleExamples.threeDaysLater
  = Ok (TestResult true true) RuleExamples.threeDaysLater.
Proof.
  refine (proj2 (proj2 (test_rule_is_a_dry_run Scenario.bob "aged"
                          Scenario.highTicket RuleExamples.threeDaysLater)
                   (or_introl eq_refl) _)
            RuleExamples.agedRule WorkflowService.initializeDefaultRules eq_refl).
  discriminate.
Defined.

End TestRule.

(** ** Who is told of an SLA warning and of a breach *)

Section Alerts.
Import Mongoose NotificationService NotificationDoc.

(** X30 ([notifySLAWarning] and [notifySLABreach],
    notificationService.js:273-327): for a ticket whose title is within its
    200 characters and whose creator and assignee have user documents, the
    warning goes to the creator and then the assignee, with priority high;
    the breach alert goes to the same and then to every active admin of the
    store, with priority urgent.  Nobody is dropped as a duplicate: an
    active admin who created the ticket receives the alert twice.  Each
    notification is about the ticket and stamped with the clock, and nothing
    but the notifications changes. *)
Theorem sla_alert_recipients (ticket : Ticket) (w : World) :
  (0 < String.length (title ticket) <= 200)%nat ->
  (forall id, In id (watchers ticket) -> exists u, In u (users w) /\ u_id u = id) ->
  (exists ns,
     notifySLAWarning ticket w = Ok ns (with_notifications (notifications w ++ ns) w) /\
     map n_user ns = watchers ticket /\
     forall n, In n ns ->
       n_type n = "sla_warning" /\ n_priority n = "high" /\
       n_ticket n = Some (_id ticket) /\ n_createdAt n = clock w) /\
  (exists ns,
     notifySLABreach ticket w = Ok ns (with_notifications (notifications w ++ ns) w) /\
     map n_user ns = watchers ticket ++ map u_id (List.filter activeAdmin (users w)) /\
     forall n, In n ns ->
       n_type n = "sla_breach" /\ n_priority n = "urgent" /\
       n_ticket n = Some (_id ticket) /\ n_createdAt n = clock w).
Proof.
  intros Hlen Husers. split.
  - unfold notifySLAWarning. eexists. split; [|split].
    + apply notifyEach_Ok; [|exact Husers].
      intros u now. apply notice_valid with (pre := "Ticket ")
        (post := " is approaching its SLA deadline.");
        try reflexivity; simpl; try lia; tauto.
    + rewrite map_map. cbn [n_user built]. apply map_id.
    + intros n Hn. apply in_map_iff in Hn. destruct Hn as [id [<- _]].
      repeat split.
  - unfold notifySLABreach. unfold bind at 1. unfold User_find at 1.
    eexists. split; [|split].
    + apply notifyEach_Ok.
      * intros u now. apply notice_valid with (pre := "Ticket ")
          (post := " has exceeded its SLA deadline.");
          try reflexivity; simpl; try lia; tauto.
      * intros id Hid. apply in_app_or in Hid. destruct Hid as [Hid | Hid].
        -- apply Husers, Hid.
        -- apply in_map_iff in Hid. destruct Hid as [a [<- Ha]].
           apply filter_In in Ha. exists a. split; [apply Ha | reflexivity].
    + rewrite map_map. cbn [n_user built]. apply map_id.
    + intros n Hn. apply in_map_iff in Hn. destruct Hn as [id [<- _]].
      repeat split.
Qed.

Lemma sla_alert_recipients_witness :
  exists ns,
    notifySLABreach Scenario.overdue (Scenario.worldWith [Scenario.overdue] Scenario.T0)
    = Ok ns (with_notifications
               (notifications (Scenario.worldWith [Scenario.overdue] Scenario.T0) ++ ns)
               (Scenario.worldWith [Scenario.overdue] Scenario.T0)) /\
    map n_user ns = ["u-alice"; "u-root"; "u-carol"].
Proof.
  destruct (proj2 (sla_alert_recipients Scenario.overdue
                     (Scenario.worldWith [Scenario.overdue] Scenario.T0)
                     ltac:(vm_compute; lia)
                     (fun id Hid =>
                        match Hid with
                        | or_introl E =>
                            ex_intro _ Scenario.alice
                              (conj (or_introl eq_refl) E)
                        | or_intror F => match F with end
                        end)))
    as [ns [H1 [H2 _]]].
  exists ns. split; [exact H1 | exact H2].
Defined.

End Alerts.
